(** * AdvisorMatch: the result-rendering front end (frontend/js/app.js)

    The file embeds the two pages of the front end, the semantic search page
    and the BM25 page, as Rocq functions over a model of the JavaScript
    values they handle, and proves the properties of the specification that
    concern them.

    Conventions of the embedding.
    - A JavaScript string is the list of its UTF-16 code units.
    - A JavaScript number is a binary64 value: not-a-number, an infinity, or
      a finite value given by the rational it denotes (the two zeros are not
      told apart: no operation of the program distinguishes them).
    - A JSON value is a tree; an object is the list of its properties and a
      property is looked up by the first binding of its name.
    - A function that can throw returns a [result]; a function that updates
      the page takes the page and returns the new one. *)

From Stdlib Require Import String Ascii.
From Stdlib Require Import Decimal DecimalN DecimalPos.
From Stdlib Require Import List ZArith NArith QArith Qabs Qround Qpower Qreduction.
From Stdlib Require Import Qcanon Bool Lia Lqa.
Import ListNotations.

Set Implicit Arguments.
Set Warnings "-register-all".
Local Open Scope N_scope.

(** ** Strings *)

Definition codeunit := N.
Definition jstr := list codeunit.

(** [lit s] is the JavaScript string written [s] in the source.  The source
    never uses the circumflex, so it stands here for the double quote of the
    HTML attributes. *)
Definition unit_of_ascii (a : ascii) : codeunit :=
  let c := N_of_ascii a in if c =? 94 then 34 else c.

Definition lit (s : string) : jstr := map unit_of_ascii (list_ascii_of_string s).

(** The two characters of the templates outside ASCII. *)
Definition bullet : jstr := [8226].
Definition rightwards_arrow : jstr := [8594].

Definition jstr_eqb (a b : jstr) : bool :=
  if list_eq_dec N.eq_dec a b then true else false.

(** WhiteSpace and LineTerminator code units of ECMAScript, as
    String.prototype.trim strips them. *)
Definition is_whitespace (c : codeunit) : bool :=
  existsb (N.eqb c)
    [9; 10; 11; 12; 13; 32; 160; 5760; 8192; 8193; 8194; 8195; 8196; 8197;
     8198; 8199; 8200; 8201; 8202; 8232; 8233; 8239; 8287; 12288; 65279].

Fixpoint trim_start (s : jstr) : jstr :=
  match s with
  | c :: s' => if is_whitespace c then trim_start s' else s
  | [] => []
  end.

Definition trim (s : jstr) : jstr :=
  List.rev (trim_start (List.rev (trim_start s))).

(** Decimal digits of a natural number. *)
Fixpoint uint_units (d : Decimal.uint) : jstr :=
  match d with
  | Nil => []
  | D0 d => 48 :: uint_units d
  | D1 d => 49 :: uint_units d
  | D2 d => 50 :: uint_units d
  | D3 d => 51 :: uint_units d
  | D4 d => 52 :: uint_units d
  | D5 d => 53 :: uint_units d
  | D6 d => 54 :: uint_units d
  | D7 d => 55 :: uint_units d
  | D8 d => 56 :: uint_units d
  | D9 d => 57 :: uint_units d
  end.

Definition decimal (n : N) : jstr := uint_units (N.to_uint n).

Definition decimal_Z (z : Z) : jstr :=
  if (z <? 0)%Z then lit "-" ++ decimal (Z.abs_N z) else decimal (Z.abs_N z).

(** ** Numbers *)

Inductive number : Type :=
| NaN
| NegInfinity
| Fin (q : Q)
| Infinity.

(** The two TypeErrors the scripts can raise: reading [base.property] when
    [base] is undefined or null, and calling [callee] when it is not a
    function. *)
Inductive type_error : Type :=
| CannotRead (base property : jstr)
| NotAFunction (callee : jstr).

(** What the JavaScript engine supplies and the source only uses:
    - [round q], the binary64 value nearest to the real [q], which every
      arithmetic operator applies to its exact result;
    - [shortest q], Number::toString on a finite value other than the
      integers up to 2^53 (the shortest decimal that reads back as [q]);
    - [StringToNumber s], the numeric value of a string operand;
    - [TypeError_message], the message of a TypeError, which ECMAScript
      leaves to the engine. *)
Class Engine : Type := {
  round : Q -> number;
  shortest : Q -> jstr;
  StringToNumber : jstr -> number;
  TypeError_message : type_error -> jstr
}.

(** The binary64 value of Math.PI, 3.141592653589793. *)
Definition Math_PI : Q := 884279719003555 # 281474976710656.

(** The binary64 values of the literals 0.5 and 0.3. *)
Definition lit_0_5 : Q := 1 # 2.
Definition lit_0_3 : Q := 5404319552844595 # 18014398509481984.

Definition Qsign (q : Q) : comparison := (Qnum q ?= 0)%Z.

(** [a * b] and [a - b] on numbers. *)
Definition num_mul `{Engine} (a b : number) : number :=
  match a, b with
  | NaN, _ | _, NaN => NaN
  | Fin x, Fin y => round (x * y)
  | Fin x, Infinity | Infinity, Fin x =>
      match Qsign x with Eq => NaN | Lt => NegInfinity | Gt => Infinity end
  | Fin x, NegInfinity | NegInfinity, Fin x =>
      match Qsign x with Eq => NaN | Lt => Infinity | Gt => NegInfinity end
  | Infinity, Infinity | NegInfinity, NegInfinity => Infinity
  | Infinity, NegInfinity | NegInfinity, Infinity => NegInfinity
  end.

Definition num_sub `{Engine} (a b : number) : number :=
  match a, b with
  | NaN, _ | _, NaN => NaN
  | Fin x, Fin y => round (x - y)
  | Infinity, Infinity | NegInfinity, NegInfinity => NaN
  | Infinity, _ | _, NegInfinity => Infinity
  | NegInfinity, _ | _, Infinity => NegInfinity
  end.

(** [a < b] and [a <= b] on numbers; both are false when an operand is NaN. *)
Definition num_ltb (a b : number) : bool :=
  match a, b with
  | NaN, _ | _, NaN => false
  | NegInfinity, NegInfinity => false
  | NegInfinity, _ => true
  | _, NegInfinity => false
  | Infinity, _ => false
  | Fin _, Infinity => true
  | Fin x, Fin y => negb (Qle_bool y x)
  end.

Definition num_leb (a b : number) : bool :=
  match a, b with
  | NaN, _ | _, NaN => false
  | NegInfinity, _ => true
  | _, NegInfinity => false
  | _, Infinity => true
  | Infinity, Fin _ => false
  | Fin x, Fin y => Qle_bool x y
  end.

(** [a === b] on numbers. *)
Definition num_eqb (a b : number) : bool :=
  match a, b with
  | NegInfinity, NegInfinity | Infinity, Infinity => true
  | Fin x, Fin y => Qeq_bool x y
  | _, _ => false
  end.

Definition is_integer (q : Q) : bool := Qeq_bool (inject_Z (Qfloor q)) q.

Definition ten_pow_21 : Z := 1000000000000000000000.
Definition two_pow_53 : Z := 9007199254740992.

(** Number::toString.  Up to 2^53 every integer is a binary64 value, so the
    shortest decimal that reads back as an integer is the integer itself. *)
Definition Number_toString `{Engine} (n : number) : jstr :=
  match n with
  | NaN => lit "NaN"
  | Infinity => lit "Infinity"
  | NegInfinity => lit "-Infinity"
  | Fin q =>
      if is_integer q && (Z.abs (Qfloor q) <=? two_pow_53)%Z
      then decimal_Z (Qfloor q)
      else shortest q
  end.

(** Number.prototype.toFixed(digits), for the digit counts the source uses
    (0, 1 and 2).  The integer [n] minimises |n / 10^digits - x|, the larger
    one on a tie; the sign is that of [x] even when [n] is zero. *)
Definition pad_zeros (width : nat) (s : jstr) : jstr :=
  repeat 48 (width - length s) ++ s.

Definition toFixed_scaled (digits : nat) (x : Q) : N :=
  Z.to_N (Qfloor (Qabs x * inject_Z (10 ^ Z.of_nat digits) + (1 # 2))).

Definition toFixed_digits (digits : nat) (n : N) : jstr :=
  match digits with
  | O => decimal n
  | _ =>
      let m := pad_zeros (S digits) (decimal n) in
      let k := (length m - digits)%nat in
      firstn k m ++ lit "." ++ skipn k m
  end.

Definition toFixed `{Engine} (x : number) (digits : nat) : jstr :=
  match x with
  | Fin q =>
      if Qle_bool (inject_Z ten_pow_21) (Qabs q) then Number_toString x
      else (if Qlt_le_dec q 0 then lit "-" else []) ++
           toFixed_digits digits (toFixed_scaled digits q)
  | _ => Number_toString x
  end.

(** ** Values and exceptions *)

Inductive value : Type :=
| JUndefined
| JNull
| JBool (b : bool)
| JNumber (n : number)
| JString (s : jstr)
| JArray (items : list value)
| JObject (props : list (jstr * value)).

(** The outcome of an expression or call: a value, or a thrown error with its
    [message]. *)
Inductive result (A : Type) : Type :=
| Ok (a : A)
| Throw (message : jstr).

Arguments Ok {A} a.
Arguments Throw {A} message.

Definition bind {A B : Type} (r : result A) (k : A -> result B) : result B :=
  match r with
  | Ok a => k a
  | Throw m => Throw m
  end.

Declare Scope result_scope.
Delimit Scope result_scope with result.
Notation "x <- r ;; k" := (bind r (fun x => k))
  (at level 61, r at next level, right associativity) : result_scope.
Local Open Scope result_scope.

Fixpoint lookup (k : jstr) (props : list (jstr * value)) : option value :=
  match props with
  | (k', v) :: rest => if jstr_eqb k k' then Some v else lookup k rest
  | [] => None
  end.

Definition nat_number (n : nat) : number := Fin (inject_Z (Z.of_nat n)).

Section Runtime.
Context {E : Engine}.

(** ToString, as a template literal applies it to an interpolated value.
    An object reads [object Object]: this is the conversion of an object
    that has no property named toString of its own.  On an object that has
    one the source throws a TypeError, which this function does not model;
    [convertible] below tells the values on which it is exact. *)
Fixpoint ToString (v : value) : jstr :=
  match v with
  | JUndefined => lit "undefined"
  | JNull => lit "null"
  | JBool true => lit "true"
  | JBool false => lit "false"
  | JNumber n => Number_toString n
  | JString s => s
  | JArray items =>
      (fix join (l : list value) : jstr :=
         match l with
         | [] => []
         | x :: l' =>
             match x with JUndefined | JNull => [] | _ => ToString x end ++
             match l' with [] => [] | _ => lit "," ++ join l' end
         end) items
  | JObject _ => lit "[object Object]"
  end.

(** ToNumber; an array or an object goes through its string. *)
Definition ToNumber (v : value) : number :=
  match v with
  | JUndefined => NaN
  | JNull => Fin 0
  | JBool b => Fin (if b then 1 else 0)
  | JNumber n => n
  | JString s => StringToNumber s
  | JArray _ | JObject _ => StringToNumber (ToString v)
  end.

(** ToBoolean. *)
Definition truthy (v : value) : bool :=
  match v with
  | JUndefined | JNull => false
  | JBool b => b
  | JNumber NaN => false
  | JNumber (Fin q) => negb (Qeq_bool q 0)
  | JNumber _ => true
  | JString s => match s with [] => false | _ => true end
  | JArray _ | JObject _ => true
  end.

(** [a || b]. *)
Definition or_else (a b : value) : value := if truthy a then a else b.

(** [v.k] for the data properties the source reads (none of them is a
    method of a prototype): reading a property of undefined or null throws
    a TypeError; a string and an array have their [length]. *)
Definition get (v : value) (k : string) : result value :=
  match v with
  | JUndefined | JNull =>
      Throw (TypeError_message (CannotRead (ToString v) (lit k)))
  | JObject props =>
      Ok (match lookup (lit k) props with Some x => x | None => JUndefined end)
  | JArray items =>
      Ok (if jstr_eqb (lit k) (lit "length")
          then JNumber (nat_number (length items)) else JUndefined)
  | JString s =>
      Ok (if jstr_eqb (lit k) (lit "length")
          then JNumber (nat_number (length s)) else JUndefined)
  | JBool _ | JNumber _ => Ok JUndefined
  end.

(** [v > c], [v >= c] and [v <= c] against a number [c]. *)
Definition gt (v : value) (c : number) : bool := num_ltb c (ToNumber v).
Definition ge (v : value) (c : number) : bool := num_leb c (ToNumber v).
Definition le (v : value) (c : number) : bool := num_leb (ToNumber v) c.

(** [v === c] and [v !== c] against a number [c]. *)
Definition strict_eq (v : value) (c : number) : bool :=
  match v with JNumber n => num_eqb n c | _ => false end.
Definition strict_ne (v : value) (c : number) : bool := negb (strict_eq v c).

(** A method call [v.name(...)] on a value that has no such method; [callee]
    is the text of [v.name] in the source. *)
Definition no_method {A : Type} (callee : string) (v : value) (name : string)
  : result A :=
  match v with
  | JUndefined | JNull =>
      Throw (TypeError_message (CannotRead (ToString v) (lit name)))
  | _ => Throw (TypeError_message (NotAFunction (lit callee)))
  end.

(** [v.toFixed(digits)]: only a number has the method. *)
Definition call_toFixed (callee : string) (v : value) (digits : nat)
  : result jstr :=
  match v with
  | JNumber n => Ok (toFixed n digits)
  | _ => no_method callee v "toFixed"
  end.

(** ToIntegerOrInfinity of the end index, clamped to the string, as
    [substring(0, end)] does; the result is the first [end] code units. *)
Definition substring_end (len : nat) (e : number) : nat :=
  match e with
  | NaN | NegInfinity => O
  | Infinity => len
  | Fin q => Nat.min len (Z.to_nat (Qfloor q))
  end.

(** [v.substring(0, e)]: only a string has the method. *)
Definition call_substring (callee : string) (v : value) (e : number)
  : result jstr :=
  match v with
  | JString s => Ok (firstn (substring_end (length s) e) s)
  | _ => no_method callee v "substring"
  end.

(** The value of a digit in the given radix. *)
Definition digit_value (radix : N) (c : codeunit) : option N :=
  let d :=
    if (48 <=? c) && (c <=? 57) then Some (c - 48)
    else if (97 <=? c) && (c <=? 122) then Some (c - 87)
    else if (65 <=? c) && (c <=? 90) then Some (c - 55)
    else None in
  match d with
  | Some v => if v <? radix then Some v else None
  | None => None
  end.

(** The value of the longest prefix of [s] made of digits, [acc] being the
    value of the digits read so far ([None] when there is none yet). *)
Fixpoint parse_digits (radix : N) (s : jstr) (acc : option N) : option N :=
  match s with
  | c :: s' =>
      match digit_value radix c with
      | Some d =>
          parse_digits radix s'
            (Some (match acc with Some a => a * radix + d | None => d end))
      | None => acc
      end
  | [] => acc
  end.

(** A sign, and what follows it. *)
Definition take_sign (s : jstr) : bool * jstr :=
  match s with
  | 45 :: s' => (true, s')
  | 43 :: s' => (false, s')
  | _ => (false, s)
  end.

(** The radix of parseInt, sixteen after 0x or 0X, and the digits. *)
Definition take_radix (s : jstr) : N * jstr :=
  match s with
  | 48 :: 120 :: s' | 48 :: 88 :: s' => (16, s')
  | _ => (10, s)
  end.

(** parseInt(s) with no radix: leading white space, a sign, 0x or 0X for
    base sixteen, then the longest run of digits; NaN when there is none. *)
Definition parseInt (s : jstr) : number :=
  let '(negative, s) := take_sign (trim_start s) in
  let '(radix, s) := take_radix s in
  match parse_digits radix s None with
  | None => NaN
  | Some n => round (inject_Z (if negative then - Z.of_N n else Z.of_N n))
  end.
End Runtime.

(** ** A reference engine

    An engine as ECMAScript specifies it: binary64 rounding to nearest with
    ties to even, the shortest decimal that reads back for Number::toString,
    the StringNumericLiteral grammar for StringToNumber; the TypeError
    messages are those of V8.  The theorems below hold for every engine;
    this one evaluates the scripts on concrete inputs. *)

Module Reference.

Local Open Scope Z_scope.

Definition two_pow (e : Z) : Q := Qpower 2 e.
Definition ten_pow (e : Z) : Q := Qpower 10 e.

(** The integer [k] with 2^k <= q < 2^(k+1), for [q] positive. *)
Definition floor_log2 (q : Q) : Z :=
  let k := Z.log2 (Qnum q) - Z.log2 (Zpos (Qden q)) in
  if Qle_bool (two_pow k) q then k else k - 1.

(** The integer nearest to [x], the even one on a tie. *)
Definition round_half_even (x : Q) : Z :=
  let f := Qfloor x in
  match (x - inject_Z f ?= 1 # 2)%Q with
  | Lt => f
  | Gt => f + 1
  | Eq => if Z.even f then f else f + 1
  end.

(** The exponent of the last binary digit that binary64 keeps of a positive
    [a]: 53 significant bits, and no exponent below -1074. *)
Definition exponent (a : Q) : Z := Z.max (floor_log2 a - 52) (-1074).

(** The multiple of 2^[exponent a] nearest to a positive [a]. *)
Definition nearest (a : Q) : Q :=
  (inject_Z (round_half_even (a / two_pow (exponent a))) * two_pow (exponent a))%Q.

(** Rounding to binary64: to nearest, ties to even, overflow to an infinity
    from 2^1024 on. *)
Definition round_binary64 (q : Q) : number :=
  if Qeq_bool q 0 then Fin 0
  else
    let r := nearest (Qabs q) in
    let negative := Qle_bool q 0 in
    if Qle_bool (two_pow 1024) r
    then (if negative then NegInfinity else Infinity)
    else Fin (Qred (if negative then - r else r)).

(** The integer [n] with 10^(n-1) <= q < 10^n, for [q] positive. *)
Definition decimal_exponent (q : Q) : Z :=
  let k := Z.of_nat (length (decimal (Z.to_N (Qnum q))))
           - Z.of_nat (length (decimal (Npos (Qden q)))) in
  if Qle_bool (ten_pow k) q then k + 1 else k.

Definition reads_back (q : Q) (s n k : Z) : bool :=
  match round_binary64 (inject_Z s * ten_pow (n - k)) with
  | Fin r => Qeq_bool r q
  | _ => false
  end.

(** The digits [s] and the exponent [n] of Number::toString for a positive
    binary64 value [q]: the least count [k] of digits for which some
    [s * 10^(n-k)] reads back as [q], and then the [s] nearest to [q].  The
    search goes over [k] = 1, 2, ... for [fuel] steps; seventeen digits always
    suffice. *)
Fixpoint shortest_digits (fuel : nat) (q : Q) (n k : Z) : Z * Z * Z :=
  let scale := ten_pow (n - k) in
  let lo := Qfloor (q / scale) in
  let hi := lo + 1 in
  let ok_lo := reads_back q lo n k in
  let ok_hi := reads_back q hi n k in
  let nearer_lo :=
    match (q - inject_Z lo * scale ?= inject_Z hi * scale - q)%Q with
    | Lt => true
    | Gt => false
    | Eq => Z.even lo
    end in
  let pick s := if s =? 10 ^ k then (10 ^ (k - 1), n + 1, k) else (s, n, k) in
  match fuel with
  | O => pick lo
  | S fuel' =>
      if ok_lo && (negb ok_hi || nearer_lo) then pick lo
      else if ok_hi then pick hi
      else shortest_digits fuel' q n (k + 1)
  end.

Definition zeros (n : Z) : jstr := repeat 48%N (Z.to_nat n).

Definition shortest_positive (q : Q) : jstr :=
  let '(s, n, k) := shortest_digits 17 q (decimal_exponent q) 1 in
  let digits := decimal (Z.to_N s) in
  if (-5 <=? n) && (n <=? 21) then
    if k <=? n then digits ++ zeros (n - k)
    else if 0 <? n then
      firstn (Z.to_nat n) digits ++ lit "." ++ skipn (Z.to_nat n) digits
    else lit "0." ++ zeros (- n) ++ digits
  else
    let exponent :=
      (if n - 1 <? 0 then lit "-" else lit "+") ++ decimal (Z.abs_N (n - 1)) in
    match digits with
    | [d] => [d] ++ lit "e" ++ exponent
    | d :: rest => [d] ++ lit "." ++ rest ++ lit "e" ++ exponent
    | [] => []
    end.

Definition shortest_binary64 (q : Q) : jstr :=
  if Qeq_bool q 0 then lit "0"
  else if Qle_bool q 0 then lit "-" ++ shortest_positive (Qabs q)
  else shortest_positive q.

(** The digits of [s] in the given radix, and what follows them. *)
Fixpoint take_digits (radix : N) (s : jstr) : list N * jstr :=
  match s with
  | c :: s' =>
      match digit_value radix c with
      | Some d => let (ds, rest) := take_digits radix s' in (d :: ds, rest)
      | None => ([], s)
      end
  | [] => ([], [])
  end.

Definition digits_value (radix : N) (ds : list N) : Z :=
  Z.of_N (fold_left (fun a d => a * radix + d)%N ds 0%N).

Definition is_nil {A : Type} (l : list A) : bool :=
  match l with [] => true | _ => false end.

(** StrUnsignedDecimalLiteral other than Infinity:
    digits, a fraction, an exponent. *)
Definition unsigned_decimal (s : jstr) : option Q :=
  let (ip, r1) := take_digits 10 s in
  let (fp, r2) :=
    match r1 with
    | 46%N :: r => take_digits 10 r
    | _ => ([], r1)
    end in
  if is_nil ip && is_nil fp then None
  else
    let mantissa := digits_value 10 (ip ++ fp) in
    let scaled (e : Z) :=
      (inject_Z mantissa * ten_pow (e - Z.of_nat (length fp)))%Q in
    match r2 with
    | [] => Some (scaled 0)
    | c :: r =>
        if (c =? 101)%N || (c =? 69)%N then
          let (negative, r') := take_sign r in
          let (ed, r'') := take_digits 10 r' in
          if is_nil ed || negb (is_nil r'') then None
          else
            let e := digits_value 10 ed in
            Some (scaled (if negative then - e else e))
        else None
    end.

Definition radix_literal (radix : N) (s : jstr) : number :=
  let (ds, rest) := take_digits radix s in
  if is_nil ds || negb (is_nil rest) then NaN
  else round_binary64 (inject_Z (digits_value radix ds)).

Definition string_to_number (s : jstr) : number :=
  let s := trim s in
  match s with
  | [] => Fin 0
  | 48%N :: 120%N :: r | 48%N :: 88%N :: r => radix_literal 16 r
  | 48%N :: 111%N :: r | 48%N :: 79%N :: r => radix_literal 8 r
  | 48%N :: 98%N :: r | 48%N :: 66%N :: r => radix_literal 2 r
  | _ =>
      let (negative, r) := take_sign s in
      if jstr_eqb r (lit "Infinity")
      then (if negative then NegInfinity else Infinity)
      else
        match unsigned_decimal r with
        | Some q => round_binary64 (if negative then - q else q)
        | None => NaN
        end
  end.

Definition v8_message (e : type_error) : jstr :=
  match e with
  | CannotRead base property =>
      lit "Cannot read properties of " ++ base ++ lit " (reading '" ++
      property ++ lit "')"
  | NotAFunction callee => callee ++ lit " is not a function"
  end.

#[export] Instance engine : Engine := {
  round := round_binary64;
  shortest := shortest_binary64;
  StringToNumber := string_to_number;
  TypeError_message := v8_message
}.

End Reference.

(** [array.map(f)] where [f] can throw: the elements in order, up to the
    first that throws. *)
Fixpoint map_result {A B : Type} (f : A -> result B) (l : list A) : result (list B) :=
  match l with
  | [] => Ok []
  | x :: l' => y <- f x ;; ys <- map_result f l' ;; Ok (y :: ys)
  end.

(** ** The page

    The elements the scripts hold: the two inputs, the spinner, the error
    banner, and the results section with its summary line and its container
    of cards.  An element is hidden when its class list has [hidden]; a card
    is the [div] created for a professor, with the class name and the markup
    assigned to it.  (The BM25 page has no top-k input and its script never
    reads one.) *)

Record element : Type := {
  className : jstr;
  innerHTML : jstr
}.

Record page : Type := {
  searchInput_value : jstr;
  topKInput_value : jstr;
  loadingSpinner_hidden : bool;
  errorMessage_textContent : jstr;
  errorMessage_hidden : bool;
  resultsSection_hidden : bool;
  resultsInfo_textContent : jstr;
  resultsContainer : list element
}.

Definition set_loadingSpinner_hidden (b : bool) (p : page) : page :=
  {| searchInput_value := searchInput_value p;
     topKInput_value := topKInput_value p;
     loadingSpinner_hidden := b;
     errorMessage_textContent := errorMessage_textContent p;
     errorMessage_hidden := errorMessage_hidden p;
     resultsSection_hidden := resultsSection_hidden p;
     resultsInfo_textContent := resultsInfo_textContent p;
     resultsContainer := resultsContainer p |}.

Definition set_errorMessage_textContent (s : jstr) (p : page) : page :=
  {| searchInput_value := searchInput_value p;
     topKInput_value := topKInput_value p;
     loadingSpinner_hidden := loadingSpinner_hidden p;
     errorMessage_textContent := s;
     errorMessage_hidden := errorMessage_hidden p;
     resultsSection_hidden := resultsSection_hidden p;
     resultsInfo_textContent := resultsInfo_textContent p;
     resultsContainer := resultsContainer p |}.

Definition set_errorMessage_hidden (b : bool) (p : page) : page :=
  {| searchInput_value := searchInput_value p;
     topKInput_value := topKInput_value p;
     loadingSpinner_hidden := loadingSpinner_hidden p;
     errorMessage_textContent := errorMessage_textContent p;
     errorMessage_hidden := b;
     resultsSection_hidden := resultsSection_hidden p;
     resultsInfo_textContent := resultsInfo_textContent p;
     resultsContainer := resultsContainer p |}.

Definition set_resultsSection_hidden (b : bool) (p : page) : page :=
  {| searchInput_value := searchInput_value p;
     topKInput_value := topKInput_value p;
     loadingSpinner_hidden := loadingSpinner_hidden p;
     errorMessage_textContent := errorMessage_textContent p;
     errorMessage_hidden := errorMessage_hidden p;
     resultsSection_hidden := b;
     resultsInfo_textContent := resultsInfo_textContent p;
     resultsContainer := resultsContainer p |}.

Definition set_resultsInfo_textContent (s : jstr) (p : page) : page :=
  {| searchInput_value := searchInput_value p;
     topKInput_value := topKInput_value p;
     loadingSpinner_hidden := loadingSpinner_hidden p;
     errorMessage_textContent := errorMessage_textContent p;
     errorMessage_hidden := errorMessage_hidden p;
     resultsSection_hidden := resultsSection_hidden p;
     resultsInfo_textContent := s;
     resultsContainer := resultsContainer p |}.

Definition set_resultsContainer (cards : list element) (p : page) : page :=
  {| searchInput_value := searchInput_value p;
     topKInput_value := topKInput_value p;
     loadingSpinner_hidden := loadingSpinner_hidden p;
     errorMessage_textContent := errorMessage_textContent p;
     errorMessage_hidden := errorMessage_hidden p;
     resultsSection_hidden := resultsSection_hidden p;
     resultsInfo_textContent := resultsInfo_textContent p;
     resultsContainer := cards |}.

(** The utility functions, which the two scripts define alike. *)
Definition showLoading (p : page) : page := set_loadingSpinner_hidden false p.
Definition hideLoading (p : page) : page := set_loadingSpinner_hidden true p.
Definition showError (message : jstr) (p : page) : page :=
  set_errorMessage_hidden false (set_errorMessage_textContent message p).
Definition hideError (p : page) : page := set_errorMessage_hidden true p.
Definition showResults (p : page) : page := set_resultsSection_hidden false p.
Definition hideResults (p : page) : page := set_resultsSection_hidden true p.

(** [resultsContainer.innerHTML = ''] and [resultsContainer.appendChild(card)]. *)
Definition clearContainer (p : page) : page := set_resultsContainer [] p.
Definition appendChild (card : element) (p : page) : page :=
  set_resultsContainer (resultsContainer p ++ [card]) p.

(** A statement that reads or updates the page and can throw: the page it
    leaves is the page at the throw. *)
Definition action (A : Type) : Type := page -> result A * page.

Definition ret {A : Type} (a : A) : action A := fun p => (Ok a, p).
Definition lift {A : Type} (r : result A) : action A := fun p => (r, p).
Definition update (f : page -> page) : action unit := fun p => (Ok tt, f p).
Definition and_then {A B : Type} (c : action A) (k : A -> action B) : action B :=
  fun p =>
    match c p with
    | (Ok a, p') => k a p'
    | (Throw m, p') => (Throw m, p')
    end.

Declare Scope action_scope.
Delimit Scope action_scope with action.
Notation "x <~ c ;; k" := (and_then c (fun x => k))
  (at level 61, c at next level, right associativity) : action_scope.
Notation "c ;;; k" := (and_then c (fun _ => k))
  (at level 61, right associativity) : action_scope.

(** ** The request and its outcome

    [fetch] is the one interaction of [performSearch]: the function runs up
    to the request, and resumes with what came back on the page as it is
    then.  The body is the object handed to JSON.stringify. *)

Record request : Type := {
  url : jstr;
  method : jstr;
  content_type : jstr;
  body : value
}.

Inductive fetched : Type :=
| Rejected (message : jstr)
| Responded (ok : bool) (status : N) (json : result value).

Inductive run : Type :=
| Finished (p : page)
| Awaiting (p : page) (r : request) (resume : fetched -> page -> page).

Definition API_BASE_URL : jstr := lit "http://localhost:8000".

(** ** The semantic search page (the first script of app.js, lines 1-269) *)

Module Semantic.

(** The template literals of the script, each split at its interpolations;
    the arguments are the interpolated strings, in order.  White space is
    that of the source. *)

Definition resultsInfo_template (total_results plural query search_time_ms : jstr) : jstr :=
  lit "Found " ++
  total_results ++
  lit " advisor" ++
  plural ++
  lit " for ^" ++
  query ++
  lit "^ (" ++
  search_time_ms ++
  lit "ms)".

Definition image_template (image_url name : jstr) : jstr :=
  lit "
                    <img src=^" ++
  image_url ++
  lit "^ alt=^" ++
  name ++
  lit "^ class=^professor-image^>
                ".

Definition interests_template (interests : jstr) : jstr :=
  lit "
                <div class=^detail-row^>
                    <span class=^detail-label^>Research Interests:</span>
                    <span class=^detail-value^>" ++
  interests ++
  lit "</span>
                </div>
            ".

Definition profile_template (url : jstr) : jstr :=
  lit "
                <div class=^detail-row^>
                    <span class=^detail-label^>Profile:</span>
                    <span class=^detail-value^>
                        <a href=^" ++
  url ++
  lit "^ target=^_blank^>View Faculty Page " ++
  rightwards_arrow ++
  lit "</a>
                    </span>
                </div>
            ".

Definition publications_template (publications : jstr) : jstr :=
  lit "
            <div class=^publications-section^>
                <h4>Top Matching Publications</h4>
                " ++
  publications ++
  lit "
            </div>
        ".

Definition professor_template (image rank name department college gaugeColor dashArray dashOffset scorePercent interests num_matching_papers profile avg_similarity recency_weight activity_bonus citation_impact publications : jstr) : jstr :=
  lit "
        <div class=^professor-header^>
            <div class=^professor-header-content^>
                " ++
  image ++
  lit "
                <div class=^professor-info^>
                    <h3>" ++
  rank ++
  lit ". " ++
  name ++
  lit "</h3>
                    <div class=^professor-meta^>
                        " ++
  department ++
  lit " " ++
  bullet ++
  lit " " ++
  college ++
  lit "
                    </div>
                </div>
            </div>
            
            <div class=^gauge-container^>
                <svg viewBox=^0 0 120 60^ class=^gauge-svg^>
                    <!-- Background Arc -->
                    <path d=^M 10 60 A 50 50 0 0 1 110 60^ fill=^none^ stroke=^#eee^ stroke-width=^15^ />
                    <!-- Fill Arc -->
                    <path d=^M 10 60 A 50 50 0 0 1 110 60^ fill=^none^ stroke=^" ++
  gaugeColor ++
  lit "^ stroke-width=^15^ 
                          stroke-dasharray=^" ++
  dashArray ++
  lit "^ stroke-dashoffset=^" ++
  dashOffset ++
  lit "^ />
                </svg>
                <div class=^gauge-text^>" ++
  scorePercent ++
  lit "%</div>
                <div class=^gauge-label^>Match Score</div>
            </div>
        </div>
        
        <div class=^professor-details^>
            " ++
  interests ++
  lit "
            
            <div class=^detail-row^>
                <span class=^detail-label^>Matching Papers:</span>
                <span class=^detail-value^>" ++
  num_matching_papers ++
  lit "</span>
            </div>
            
            " ++
  profile ++
  lit "
        </div>
        
        <div class=^score-breakdown^>
            <div class=^score-item^>
                <div class=^score-item-label^>Paper Similarity</div>
                <div class=^score-item-value^>" ++
  avg_similarity ++
  lit "%</div>
            </div>
            <div class=^score-item^>
                <div class=^score-item-label^>Recency</div>
                <div class=^score-item-value^>" ++
  recency_weight ++
  lit "%</div>
            </div>
            <div class=^score-item^>
                <div class=^score-item-label^>Activity</div>
                <div class=^score-item-value^>+" ++
  activity_bonus ++
  lit "%</div>
            </div>
            <div class=^score-item^>
                <div class=^score-item-label^>Citations</div>
                <div class=^score-item-value^>" ++
  citation_impact ++
  lit "%</div>
            </div>
        </div>
        
        " ++
  publications ++
  lit "
    ".

Definition link_template (url title : jstr) : jstr :=
  lit "<a href=^" ++
  url ++
  lit "^ target=^_blank^ class=^publication-link^>" ++
  title ++
  lit "</a>".

Definition venue_template (venue : jstr) : jstr :=
  lit "
                    <span>" ++
  bullet ++
  lit "</span>
                    <span>" ++
  venue ++
  lit "</span>
                ".

Definition publication_template (borderClass title year citations venue similarity : jstr) : jstr :=
  lit "
        <div class=^publication-item " ++
  borderClass ++
  lit "^>
            <div class=^publication-title^>
                " ++
  title ++
  lit "
            </div>
            <div class=^publication-meta^>
                <span>" ++
  year ++
  lit "</span>
                <span>" ++
  bullet ++
  lit "</span>
                <span>" ++
  citations ++
  lit " citations</span>
                " ++
  venue ++
  lit "
                <span>" ++
  bullet ++
  lit "</span>
                <span class=^similarity-score^>Paper Similarity: " ++
  similarity ++
  lit "%</span>
            </div>
        </div>
    ".

Definition search_failed_template (message API_BASE_URL : jstr) : jstr :=
  lit "Search failed: " ++
  message ++
  lit ". Make sure the API server is running at " ++
  API_BASE_URL.

Definition api_error_template (status : jstr) : jstr :=
  lit "API error: " ++
  status.

Section Script.
Context {E : Engine}.

(** truncateText (lines 251-254). *)
Definition truncateText (text : value) (maxLength : number) : result value :=
  len <- get text "length" ;;
  if le len maxLength then Ok text
  else s <- call_substring "text.substring" text maxLength ;; Ok (JString (s ++ lit "..."))%list.

(** createPublicationHTML (lines 194-223): the border class, then the
    markup. *)
Definition borderClass (similarity : value) : jstr :=
  if gt similarity (Fin lit_0_5) then lit "pub-border-green"
  else if ge similarity (Fin lit_0_3) then lit "pub-border-amber"
  else lit "pub-border-red".

Definition createPublicationHTML (publication : value) : result jstr :=
  similarity <- get publication "similarity" ;;
  url <- get publication "url" ;;
  title <- get publication "title" ;;
  year <- get publication "year" ;;
  citations <- get publication "citations" ;;
  venue <- get publication "venue" ;;
  Ok (publication_template
        (borderClass similarity)
        (if truthy url then link_template (ToString url) (ToString title)
         else ToString title)
        (ToString (or_else year (JString (lit "N/A"))))
        (ToString (or_else citations (JNumber (Fin 0))))
        (if truthy venue then venue_template (ToString venue) else [])
        (toFixed (num_mul (ToNumber similarity) (Fin 100)) 1)).

(** createProfessorCard (lines 89-191): the colour and the arc of the gauge,
    then the card. *)
Definition gaugeColor (final_score : value) : jstr :=
  if gt final_score (Fin lit_0_5) then lit "#28a745"
  else if ge final_score (Fin lit_0_3) then lit "#ffc107"
  else lit "#dc3545".

Definition radius : number := Fin 50.
Definition circumference : number := num_mul (Fin Math_PI) radius.
Definition dashArray : number := circumference.
Definition dashOffset (final_score : value) : number :=
  num_mul circumference (num_sub (Fin 1) (ToNumber final_score)).

(** [(x * 100).toFixed(1)]. *)
Definition percent (x : value) : jstr :=
  toFixed (num_mul (ToNumber x) (Fin 100)) 1.

(** [professor.top_publications.map(pub => createPublicationHTML(pub)).join('')]:
    only an array has [map]. *)
Definition publicationsHTML (top_publications : value) : result jstr :=
  match top_publications with
  | JArray pubs => htmls <- map_result createPublicationHTML pubs ;; Ok (concat htmls)
  | _ => no_method "professor.top_publications.map" top_publications "map"
  end.

Definition createProfessorCard (professor : value) (rank : number) : result element :=
  final_score <- get professor "final_score" ;;
  let scorePercent := percent final_score in
  image_url <- get professor "image_url" ;;
  name <- get professor "name" ;;
  department <- get professor "department" ;;
  college <- get professor "college" ;;
  interests <- get professor "interests" ;;
  interests_row <-
    (if truthy interests
     then text <- truncateText interests (Fin 200) ;;
          Ok (interests_template (ToString text))
     else Ok []) ;;
  num_matching_papers <- get professor "num_matching_papers" ;;
  url <- get professor "url" ;;
  avg_similarity <- get professor "avg_similarity" ;;
  recency_weight <- get professor "recency_weight" ;;
  activity_bonus <- get professor "activity_bonus" ;;
  citation_impact <- get professor "citation_impact" ;;
  top_publications <- get professor "top_publications" ;;
  publications <-
    (if truthy top_publications
     then len <- get top_publications "length" ;;
          if gt len (Fin 0)
          then html <- publicationsHTML top_publications ;;
               Ok (publications_template html)
          else Ok []
     else Ok []) ;;
  Ok {| className := lit "professor-card";
        innerHTML :=
          professor_template
            (if truthy image_url
             then image_template (ToString image_url) (ToString name) else [])
            (Number_toString rank)
            (ToString name)
            (ToString department)
            (ToString college)
            (gaugeColor final_score)
            (Number_toString dashArray)
            (Number_toString (dashOffset final_score))
            scorePercent
            interests_row
            (ToString num_matching_papers)
            (if truthy url then profile_template (ToString url) else [])
            (percent avg_similarity)
            (percent recency_weight)
            (percent activity_bonus)
            (percent citation_impact)
            publications |}.

(** [data.results.forEach((professor, index) => ...)]: only an array has
    [forEach]; the cards appended before a throw stay on the page. *)
Fixpoint appendCards (professors : list value) (index : nat) : action unit :=
  match professors with
  | [] => ret tt
  | professor :: rest =>
      (card <~ lift (createProfessorCard professor (nat_number (index + 1))) ;;
       update (appendChild card) ;;;
       appendCards rest (S index))%action
  end.

Definition forEach (results : value) : action unit :=
  match results with
  | JArray professors => appendCards professors 0
  | _ => lift (no_method "data.results.forEach" results "forEach")
  end.

(** displayResults (lines 66-86): the guard, the summary line, the loop. *)
Definition no_results (results : value) : result bool :=
  if truthy results
  then len <- get results "length" ;; Ok (strict_eq len (Fin 0))
  else Ok true.

Definition resultsInfo (data : value) : result jstr :=
  total_results <- get data "total_results" ;;
  query <- get data "query" ;;
  search_time_ms <- get data "search_time_ms" ;;
  ms <- call_toFixed "data.search_time_ms.toFixed" search_time_ms 0 ;;
  Ok (resultsInfo_template
        (ToString total_results)
        (if strict_ne total_results (Fin 1) then lit "s" else [])
        (ToString query)
        ms).

Definition displayResults (data : value) : action unit :=
  (results <~ lift (get data "results") ;;
   empty <~ lift (no_results results) ;;
   if (empty : bool)
   then update (showError
          (lit "No advisors found for your query. Try different keywords."))
   else
     info <~ lift (resultsInfo data) ;;
     update (set_resultsInfo_textContent info) ;;;
     update clearContainer ;;;
     forEach results ;;;
     update showResults)%action.

(** performSearch (lines 22-63).  [topK] is
    [parseInt(topKInput.value) || 10]. *)
Definition topK (p : page) : value :=
  or_else (JNumber (parseInt (topKInput_value p))) (JNumber (Fin 10)).

(** What the [try] block does once [fetch] has settled. *)
Definition receive (response : fetched) : action unit :=
  match response with
  | Rejected message => lift (Throw message)
  | Responded ok status json =>
      if ok
      then (data <~ lift json ;; displayResults data)%action
      else lift (Throw (api_error_template (decimal status)))
  end.

(** The [try] block with its [catch] and [finally].  (The [catch] also
    writes the error to the console, which is not part of the page.) *)
Definition resume (response : fetched) (p : page) : page :=
  hideLoading
    (match receive response p with
     | (Ok _, p') => p'
     | (Throw message, p') =>
         showError (search_failed_template message API_BASE_URL) p'
     end).

Definition performSearch (p : page) : run :=
  let query := trim (searchInput_value p) in
  match query with
  | [] => Finished (showError (lit "Please enter a research query") p)
  | _ =>
      let p := hideResults (hideError (showLoading p)) in
      Awaiting p
        {| url := API_BASE_URL ++ lit "/api/search";
           method := lit "POST";
           content_type := lit "application/json";
           body := JObject [(lit "query", JString query);
                            (lit "top_k", topK p);
                            (lit "include_publications", JBool true)] |}
        resume
  end.
End Script.

End Semantic.

(** ** The BM25 page (the second script of app.js, lines 270-390) *)

Module Bm25.

Definition resultsInfo_template (total_results query search_time_ms : jstr) : jstr :=
  lit "Found " ++
  total_results ++
  lit " advisors for ^" ++
  query ++
  lit "^ (" ++
  search_time_ms ++
  lit "ms)".

Definition link_template (url title : jstr) : jstr :=
  lit "<a href=^" ++
  url ++
  lit "^ target=^_blank^ style=^color: inherit; text-decoration: none; border-bottom: 1px dotted #666;^>" ++
  title ++
  lit "</a>".

Definition publication_template (title similarity year citations : jstr) : jstr :=
  lit "
            <div class=^publication-item^>
                <div class=^publication-title^>
                    " ++
  title ++
  lit "
                </div>
                <div class=^publication-meta^>
                    <span class=^similarity-score^>BM25: " ++
  similarity ++
  lit "</span>
                    <span>" ++
  bullet ++
  lit "</span>
                    <span>" ++
  year ++
  lit "</span>
                    <span>" ++
  bullet ++
  lit "</span>
                    <span>" ++
  citations ++
  lit " citations</span>
                </div>
            </div>
        ".

Definition professor_template (image_url name department college interests num_matching_papers final_score pubsHtml : jstr) : jstr :=
  lit "
            <div class=^professor-header^>
                <div class=^professor-header-content^>
                    <img src=^" ++
  image_url ++
  lit "^ alt=^" ++
  name ++
  lit "^ class=^professor-image^ onerror=^this.src='https://via.placeholder.com/120'^>
                    <div class=^professor-info^>
                        <h3>" ++
  name ++
  lit "</h3>
                        <div class=^professor-meta^>" ++
  department ++
  lit " " ++
  bullet ++
  lit " " ++
  college ++
  lit "</div>
                        <div class=^professor-details^>
                            <div class=^detail-row^>
                                <span class=^detail-label^>Research Interests:</span>
                                <span class=^detail-value^>" ++
  interests ++
  lit "</span>
                            </div>
                            <div class=^detail-row^>
                                <span class=^detail-label^>Matching Papers:</span>
                                <span class=^detail-value^>" ++
  num_matching_papers ++
  lit "</span>
                            </div>
                        </div>
                    </div>
                </div>
                
                <div class=^gauge-container^>
                    <div style=^text-align: center;^>
                        <div style=^font-size: 1.5rem; font-weight: bold; color: #500000;^>" ++
  final_score ++
  lit "</div>
                        <div style=^font-size: 0.8rem; color: #666;^>Avg BM25</div>
                    </div>
                </div>
            </div>

            <div class=^publications-section^>
                <h4>Top Matching Publications (Lexical Match)</h4>
                " ++
  pubsHtml ++
  lit "
            </div>
        ".

Definition search_failed_template (message : jstr) : jstr :=
  lit "Search failed: " ++
  message.

Definition api_error_template (status : jstr) : jstr :=
  lit "API error: " ++
  status.

Section Script.
Context {E : Engine}.

(** truncateText (lines 380-383). *)
Definition truncateText (text : value) (maxLength : number) : result value :=
  if negb (truthy text) then Ok text
  else
    len <- get text "length" ;;
    if le len maxLength then Ok text
    else s <- call_substring "text.substring" text maxLength ;; Ok (JString (s ++ lit "..."))%list.

(** displayResults (lines 312-378).  First the arrow function mapped over
    [prof.top_publications] (lines 326-339). *)
Definition publicationHTML (pub : value) : result jstr :=
  url <- get pub "url" ;;
  title <- get pub "title" ;;
  similarity <- get pub "similarity" ;;
  bm25 <- call_toFixed "pub.similarity.toFixed" similarity 2 ;;
  year <- get pub "year" ;;
  citations <- get pub "citations" ;;
  Ok (publication_template
        (if truthy url then link_template (ToString url) (ToString title)
         else ToString title)
        bm25
        (ToString (or_else year (JString (lit "N/A"))))
        (ToString (or_else citations (JNumber (Fin 0))))).

(** [prof.top_publications.map(pub => ...).join('')]: only an array has
    [map]. *)
Definition pubsHtml (top_publications : value) : result jstr :=
  match top_publications with
  | JArray pubs => htmls <- map_result publicationHTML pubs ;; Ok (concat htmls)
  | _ => no_method "prof.top_publications.map" top_publications "map"
  end.

(** The body of the arrow function given to [forEach] (lines 321-375), up
    to the card it appends. *)
Definition professorCard (prof : value) : result element :=
  top_publications <- get prof "top_publications" ;;
  pubs <- pubsHtml top_publications ;;
  image_url <- get prof "image_url" ;;
  name <- get prof "name" ;;
  department <- get prof "department" ;;
  college <- get prof "college" ;;
  interests <- get prof "interests" ;;
  text <- truncateText interests (Fin 100) ;;
  num_matching_papers <- get prof "num_matching_papers" ;;
  final_score <- get prof "final_score" ;;
  score <- call_toFixed "prof.final_score.toFixed" final_score 1 ;;
  Ok {| className := lit "professor-card";
        innerHTML :=
          professor_template
            (ToString (or_else image_url
                         (JString (lit "https://via.placeholder.com/120"))))
            (ToString name)
            (ToString department)
            (ToString college)
            (ToString text)
            (ToString num_matching_papers)
            score
            pubs |}.

Fixpoint appendCards (professors : list value) : action unit :=
  match professors with
  | [] => ret tt
  | prof :: rest =>
      (card <~ lift (professorCard prof) ;;
       update (appendChild card) ;;;
       appendCards rest)%action
  end.

Definition forEach (results : value) : action unit :=
  match results with
  | JArray professors => appendCards professors
  | _ => lift (no_method "data.results.forEach" results "forEach")
  end.

(** [!data.results || data.results.length === 0]. *)
Definition no_results (results : value) : result bool :=
  if truthy results
  then len <- get results "length" ;; Ok (strict_eq len (Fin 0))
  else Ok true.

Definition resultsInfo (data : value) : result jstr :=
  total_results <- get data "total_results" ;;
  query <- get data "query" ;;
  search_time_ms <- get data "search_time_ms" ;;
  ms <- call_toFixed "data.search_time_ms.toFixed" search_time_ms 0 ;;
  Ok (resultsInfo_template (ToString total_results) (ToString query) ms).

Definition displayResults (data : value) : action unit :=
  (results <~ lift (get data "results") ;;
   empty <~ lift (no_results results) ;;
   if (empty : bool)
   then update (showError (lit "No matches found."))
   else
     info <~ lift (resultsInfo data) ;;
     update (set_resultsInfo_textContent info) ;;;
     update clearContainer ;;;
     forEach results ;;;
     update showResults)%action.

(** performSearch (lines 285-310). *)
Definition receive (response : fetched) : action unit :=
  match response with
  | Rejected message => lift (Throw message)
  | Responded ok status json =>
      if ok
      then (data <~ lift json ;; displayResults data)%action
      else lift (Throw (api_error_template (decimal status)))
  end.

Definition resume (response : fetched) (p : page) : page :=
  hideLoading
    (match receive response p with
     | (Ok _, p') => p'
     | (Throw message, p') => showError (search_failed_template message) p'
     end).

Definition performSearch (p : page) : run :=
  let query := trim (searchInput_value p) in
  match query with
  | [] => Finished p
  | _ =>
      let p := hideResults (hideError (showLoading p)) in
      Awaiting p
        {| url := API_BASE_URL ++ lit "/api/bm25/search";
           method := lit "POST";
           content_type := lit "application/json";
           body := JObject [(lit "query", JString query);
                            (lit "top_k", JNumber (Fin 20))] |}
        resume
  end.
End Script.

End Bm25.

(** ** The score composer of the ranking engine

    The back end that computes the scores (app/ranking.py) is not among the
    sources; the front end only displays what it is sent. *)
Module Ranking.

Local Open Scope Q_scope.

(** Modelled from the spec: the mode selector of a request (section 6). *)
Inductive mode : Type := semantic | lexical.

(** Modelled from the spec: the sub-scores of a professor (ProfessorScoreCard,
    section 3), as exact numbers. *)
Record ScoreCard : Type := {
  avg_similarity : Q;
  recency_weight : Q;
  activity_bonus : Q;
  citation_impact : Q;
  num_matching_papers : nat
}.

(** Modelled from the spec: the final clamp of the composite to [0,1]
    (section 4.3; the composer is in app/ranking.py, which is missing). *)
Definition clamp (x : Q) : Q :=
  if Qle_bool x 0 then 0 else if Qle_bool 1 x then 1 else x.

(** Modelled from the spec: the score composer of section 4.3 (app/ranking.py
    is missing).  In semantic mode the composite is
    0.6*avg_similarity + 0.2*recency_weight + 0.1*citation_impact +
    activity_bonus, clamped to [0,1]; in lexical mode it is avg_similarity
    itself. *)
Definition compose (card : ScoreCard) (m : mode) : Q :=
  match m with
  | semantic =>
      clamp ((6 # 10) * avg_similarity card + (2 # 10) * recency_weight card +
             (1 # 10) * citation_impact card + activity_bonus card)
  | lexical => avg_similarity card
  end.

End Ranking.

(** * Properties *)

(** ** Auxiliary definitions *)

(** The three bands of a score, read back from the colour of the gauge and
    from the border class of a publication. *)
Inductive band : Type := Green | Amber | Red.

Definition band_of_gaugeColor (colour : jstr) : option band :=
  if jstr_eqb colour (lit "#28a745") then Some Green
  else if jstr_eqb colour (lit "#ffc107") then Some Amber
  else if jstr_eqb colour (lit "#dc3545") then Some Red
  else None.

Definition band_of_borderClass (class : jstr) : option band :=
  if jstr_eqb class (lit "pub-border-green") then Some Green
  else if jstr_eqb class (lit "pub-border-amber") then Some Amber
  else if jstr_eqb class (lit "pub-border-red") then Some Red
  else None.

Definition gauge_band `{Engine} (score : value) : option band :=
  band_of_gaugeColor (Semantic.gaugeColor score).

Definition border_band `{Engine} (score : value) : option band :=
  band_of_borderClass (Semantic.borderClass score).

(** [props.k] for the properties [props] of an object. *)
Definition field (props : list (jstr * value)) (k : string) : value :=
  match lookup (lit k) props with
  | Some v => v
  | None => JUndefined
  end.

(** [v.k] for a value that is an object. *)
Definition property (v : value) (k : string) : value :=
  match v with JObject props => field props k | _ => JUndefined end.

Definition is_object (v : value) : bool :=
  match v with JObject _ => true | _ => false end.

(** The fields of a professor that are not optional, as far as rendering
    depends on their type: [interests] is a string (or null, or missing) and
    [top_publications] a list of objects (or null, or missing). *)
Definition publication_list (v : value) : bool :=
  match v with
  | JArray pubs => forallb is_object pubs
  | JNull | JUndefined => true
  | _ => false
  end.

Definition professor_record (props : list (jstr * value)) : bool :=
  match field props "interests" with
  | JString _ | JNull | JUndefined => true
  | _ => false
  end && publication_list (field props "top_publications").

(** [needle] occurs in [hay]. *)
Definition occurs (needle hay : jstr) : Prop :=
  exists before after, hay = before ++ needle ++ after.

(** A line break followed by [n] spaces, as the template literals of the
    source have them between two tags. *)
Definition line (n : nat) : jstr := 10 :: repeat 32 n.

(** A value that a template literal or an arithmetic operator converts
    without an exception.  ToPrimitive throws a TypeError on an object that
    has a property named toString of its own (in JSON it cannot be a
    function, so that neither it nor the inherited valueOf yields a
    primitive), and so does the conversion of a list with such an element;
    every other JSON value converts as [ToString] and [ToNumber] say. *)
Fixpoint convertible (v : value) : bool :=
  match v with
  | JArray items =>
      (fix all (l : list value) : bool :=
         match l with
         | [] => true
         | x :: l' => convertible x && all l'
         end) items
  | JObject props =>
      match lookup (lit "toString") props with
      | Some _ => false
      | None => true
      end
  | _ => true
  end.

Definition convertible_fields (props : list (jstr * value)) : bool :=
  forallb (fun kv => convertible (snd kv)) props.

(** A professor whose fields are convertible, and so are the fields of its
    publications. *)
Definition convertible_professor (props : list (jstr * value)) : bool :=
  convertible_fields props &&
  match field props "top_publications" with
  | JArray pubs =>
      forallb (fun pub => match pub with
                          | JObject fields => convertible_fields fields
                          | _ => true
                          end) pubs
  | _ => true
  end.

Definition is_professor_record (v : value) : bool :=
  match v with JObject props => professor_record props | _ => false end.

Definition is_number (v : value) : bool :=
  match v with JNumber _ => true | _ => false end.

(** The cards that the loop of the semantic displayResults appends for the
    professors from position [index] on, and how the loop ends. *)
Fixpoint cards_from `{Engine} (professors : list value) (index : nat)
  : list element * result unit :=
  match professors with
  | [] => ([], Ok tt)
  | professor :: rest =>
      match Semantic.createProfessorCard professor (nat_number (index + 1)) with
      | Ok card =>
          let (cards, r) := cards_from rest (S index) in (card :: cards, r)
      | Throw m => ([], Throw m)
      end
  end.

(** What displayResults does to the page, as a function of the response
    alone: it throws before touching the page, or it reports that there is no
    result, or it writes the summary line, empties the container and appends
    cards, all of them or up to a throw. *)
Inductive rendering : Type :=
| Failed (message : jstr)
| NoResults
| Rendered (info : jstr) (cards : list element) (completion : result unit).

Definition rendering_of `{Engine} (data : value) : rendering :=
  match get data "results" with
  | Throw m => Failed m
  | Ok results =>
      match Semantic.no_results results with
      | Throw m => Failed m
      | Ok true => NoResults
      | Ok false =>
          match Semantic.resultsInfo data with
          | Throw m => Failed m
          | Ok info =>
              match results with
              | JArray professors =>
                  let (cards, r) := cards_from professors 0 in
                  Rendered info cards r
              | _ =>
                  Rendered info [] (no_method "data.results.forEach" results "forEach")
              end
          end
      end
  end.

Definition render (r : rendering) (p : page) : result unit * page :=
  match r with
  | Failed m => (Throw m, p)
  | NoResults =>
      (Ok tt,
       showError (lit "No advisors found for your query. Try different keywords.") p)
  | Rendered info cards (Ok _) =>
      (Ok tt,
       showResults (set_resultsContainer cards (set_resultsInfo_textContent info p)))
  | Rendered info cards (Throw m) =>
      (Throw m, set_resultsContainer cards (set_resultsInfo_textContent info p))
  end.


(** The [top_k] of the body of the request a run issues. *)
Definition requested_top_k (r : run) : option value :=
  match r with
  | Awaiting _ req _ =>
      match body req with
      | JObject props => lookup (lit "top_k") props
      | _ => None
      end
  | Finished _ => None
  end.

(** The heading of the card of rank [rank] for [professor]. *)
Definition heading `{Engine} (rank : nat) (professor : value) : jstr :=
  lit "<h3>" ++ decimal (N.of_nat rank) ++ lit ". " ++
  ToString (property professor "name") ++ lit "</h3>".

(** [v] without the properties named in [keys]. *)
Definition without (keys : list jstr) (v : value) : value :=
  match v with
  | JObject props =>
      JObject (filter (fun kv => negb (existsb (jstr_eqb (fst kv)) keys)) props)
  | _ => v
  end.

(** The fields that only the semantic composite uses. *)
Definition semantic_only : list jstr :=
  [lit "recency_weight"; lit "activity_bonus"; lit "citation_impact"].

(** Two lists of results that differ at most in those fields. *)
Definition same_but_semantic_only (results results' : list value) : Prop :=
  Forall2 (fun a b => without semantic_only a = without semantic_only b)
    results results'.

(** What binary64 rounding to nearest guarantees: it is monotone, it leaves
    the integers up to 2^53 as they are, and it leaves a binary64 value as it
    is. *)
Class RoundLaws (E : Engine) : Prop := {
  round_monotone :
    forall x y : Q, (x <= y)%Q -> num_leb (round x) (round y) = true;
  round_integer :
    forall z : Z, (Z.abs z <= two_pow_53)%Z ->
                  round (inject_Z z) = Fin (inject_Z z);
  round_again : forall x y : Q, round x = Fin y -> round y = Fin y
}.

(** Sample pages and responses, for evaluating the scripts. *)
Module Sample.

Definition fresh_page (query top_k : string) : page :=
  {| searchInput_value := lit query;
     topKInput_value := lit top_k;
     loadingSpinner_hidden := true;
     errorMessage_textContent := [];
     errorMessage_hidden := true;
     resultsSection_hidden := true;
     resultsInfo_textContent := [];
     resultsContainer := [] |}.

(** A publication and a professor without their optional fields. *)
Definition bare_publication : list (jstr * value) :=
  [(lit "paper_id", JString (lit "W2101234009"));
   (lit "title", JString (lit "Learning to grasp"));
   (lit "similarity", JNumber (Fin lit_0_3))].

Definition bare_professor : list (jstr * value) :=
  [(lit "id", JNumber (Fin 7));
   (lit "name", JString (lit "Ada Lovelace"));
   (lit "department", JString (lit "Computer Science"));
   (lit "college", JString (lit "Engineering"));
   (lit "interests", JString (lit "robot learning"));
   (lit "final_score", JNumber (Fin (1 # 2)));
   (lit "avg_similarity", JNumber (Fin (1 # 2)));
   (lit "recency_weight", JNumber (Fin (3 # 4)));
   (lit "activity_bonus", JNumber (Fin 0));
   (lit "citation_impact", JNumber (Fin (1 # 4)));
   (lit "num_matching_papers", JNumber (Fin 1));
   (lit "top_publications", JArray [JObject bare_publication])].

(** A response with two professors. *)
Definition two_matches : list (jstr * value) :=
  [(lit "query", JString (lit "robot learning"));
   (lit "total_results", JNumber (Fin 2));
   (lit "search_time_ms", JNumber (Fin (75 # 2)));
   (lit "results",
    JArray [JObject bare_professor;
            JObject [(lit "name", JString (lit "Grace Hopper"));
                     (lit "final_score", JNumber (Fin (1 # 4)))]])].

(** A result of the BM25 search, with the sub-scores [recency],
    [activity] and [citations] in the fields of the semantic composite. *)
Definition lexical_hit (recency activity citations : Q) : value :=
  JObject [(lit "id", JNumber (Fin 7));
           (lit "name", JString (lit "Ada Lovelace"));
           (lit "department", JString (lit "Computer Science"));
           (lit "college", JString (lit "Engineering"));
           (lit "interests", JString (lit "robot learning"));
           (lit "final_score", JNumber (Fin (25 # 2)));
           (lit "avg_similarity", JNumber (Fin (25 # 2)));
           (lit "recency_weight", JNumber (Fin recency));
           (lit "activity_bonus", JNumber (Fin activity));
           (lit "citation_impact", JNumber (Fin citations));
           (lit "num_matching_papers", JNumber (Fin 1));
           (lit "top_publications",
            JArray [JObject [(lit "title", JString (lit "Learning to grasp"));
                             (lit "similarity", JNumber (Fin (25 # 2)))]])].

Definition lexical_fields : list (jstr * value) :=
  [(lit "query", JString (lit "grasp"));
   (lit "total_results", JNumber (Fin 1));
   (lit "search_time_ms", JNumber (Fin 3))].

Definition lexical_card (recency activity citations : Q) : Ranking.ScoreCard :=
  {| Ranking.avg_similarity := 25 # 2;
     Ranking.recency_weight := recency;
     Ranking.activity_bonus := activity;
     Ranking.citation_impact := citations;
     Ranking.num_matching_papers := 1 |}.

(** The score card of the scenario of the specification: similarities 0.8
    and 0.6, recency 0.9, two matching papers, citation impact 0.2. *)
Definition scenario : Ranking.ScoreCard :=
  {| Ranking.avg_similarity := 7 # 10;
     Ranking.recency_weight := 9 # 10;
     Ranking.activity_bonus := 6 # 100;
     Ranking.citation_impact := 2 # 10;
     Ranking.num_matching_papers := 2 |}.

(** A response with no match. *)
Definition no_match : value :=
  JObject [(lit "query", JString (lit "underwater basket weaving"));
           (lit "total_results", JNumber (Fin 0));
           (lit "search_time_ms", JNumber (Fin 12));
           (lit "results", JArray [])].

End Sample.

(** ** Auxiliary definitions for the properties of the scripts beyond the
    specification *)

(** The two inputs of a page, which belong to the user. *)
Definition inputs (p : page) : jstr * jstr :=
  (searchInput_value p, topKInput_value p).

(** The results area of a page: whether it is hidden, its summary line and
    its cards. *)
Definition results_area (p : page) : bool * jstr * list element :=
  (resultsSection_hidden p, resultsInfo_textContent p, resultsContainer p).

(** A page while a request is pending: the spinner shows, the banner and the
    results section do not. *)
Definition in_flight (p : page) : Prop :=
  loadingSpinner_hidden p = false /\
  errorMessage_hidden p = true /\
  resultsSection_hidden p = true.

(** A page once a search is over: the spinner is hidden, and exactly one of
    the banner and the results section shows. *)
Definition settled (p : page) : Prop :=
  loadingSpinner_hidden p = true /\
  errorMessage_hidden p = negb (resultsSection_hidden p).

(** The message of the error that [performSearch] catches when the request
    fails before there is a response to display: the fetch is rejected, the
    status is not a success, or the body is not JSON. *)
Definition failure (response : fetched) : option jstr :=
  match response with
  | Rejected message => Some message
  | Responded false status _ => Some (lit "API error: " ++ decimal status)
  | Responded true _ (Throw message) => Some message
  | Responded true _ (Ok _) => None
  end.

(** An [interests] field that both truncateText functions accept. *)
Definition interests_text (v : value) : bool :=
  match v with
  | JString _ | JNull | JUndefined => true
  | _ => false
  end.

(** What the card of the BM25 page needs of a professor: a list of
    publications with a numeric [similarity] each and a numeric
    [final_score] (besides [interests] as text). *)
Definition lexical_publication (v : value) : bool :=
  is_number (property v "similarity").

Definition lexical_publications (v : value) : bool :=
  match v with
  | JArray pubs => forallb lexical_publication pubs
  | _ => false
  end.

Definition lexical_record (props : list (jstr * value)) : bool :=
  lexical_publications (field props "top_publications") &&
  is_number (field props "final_score") &&
  interests_text (field props "interests").

Definition is_lexical_record (v : value) : bool :=
  match v with JObject props => lexical_record props | _ => false end.

(** The heading of the card of the BM25 page for [professor]: it has no
    rank. *)
Definition lexical_heading `{Engine} (professor : value) : jstr :=
  lit "<h3>" ++ ToString (property professor "name") ++ lit "</h3>".

(** The cards that the loop of the BM25 displayResults appends, and how the
    loop ends. *)
Fixpoint lexical_cards_from `{Engine} (professors : list value)
  : list element * result unit :=
  match professors with
  | [] => ([], Ok tt)
  | prof :: rest =>
      match Bm25.professorCard prof with
      | Ok card =>
          let (cards, r) := lexical_cards_from rest in (card :: cards, r)
      | Throw m => ([], Throw m)
      end
  end.

(** What the BM25 displayResults does to the page, as a function of the
    response alone. *)
Definition lexical_rendering_of `{Engine} (data : value) : rendering :=
  match get data "results" with
  | Throw m => Failed m
  | Ok results =>
      match Bm25.no_results results with
      | Throw m => Failed m
      | Ok true => NoResults
      | Ok false =>
          match Bm25.resultsInfo data with
          | Throw m => Failed m
          | Ok info =>
              match results with
              | JArray professors =>
                  let (cards, r) := lexical_cards_from professors in
                  Rendered info cards r
              | _ =>
                  Rendered info [] (no_method "data.results.forEach" results "forEach")
              end
          end
      end
  end.

Definition lexical_render (r : rendering) (p : page) : result unit * page :=
  match r with
  | Failed m => (Throw m, p)
  | NoResults => (Ok tt, showError (lit "No matches found.") p)
  | Rendered info cards (Ok _) =>
      (Ok tt,
       showResults (set_resultsContainer cards (set_resultsInfo_textContent info p)))
  | Rendered info cards (Throw m) =>
      (Throw m, set_resultsContainer cards (set_resultsInfo_textContent info p))
  end.

(** What is left of a page when the [catch] of the semantic page reports
    [message], and when that of the BM25 page does. *)
Definition semantic_failure (message : jstr) (p : page) : page :=
  hideLoading
    (showError
       (lit "Search failed: " ++ message ++
        lit ". Make sure the API server is running at http://localhost:8000") p).

Definition lexical_failure (message : jstr) (p : page) : page :=
  hideLoading (showError (lit "Search failed: " ++ message) p).

(** More sample pages and responses. *)
Module Scenario.

(** A page that shows the results of an earlier search. *)
Definition earlier_results : page :=
  {| searchInput_value := lit "  graph neural networks ";
     topKInput_value := lit "5";
     loadingSpinner_hidden := true;
     errorMessage_textContent := lit "Search failed: Failed to fetch";
     errorMessage_hidden := true;
     resultsSection_hidden := false;
     resultsInfo_textContent := lit "Found 1 advisor for ^databases^ (12ms)";
     resultsContainer :=
       [{| className := lit "professor-card"; innerHTML := lit "<h3>1. Edgar Codd</h3>" |}] |}.

(** A response whose second professor is null. *)
Definition null_professor : list (jstr * value) :=
  [(lit "query", JString (lit "robot learning"));
   (lit "total_results", JNumber (Fin 3));
   (lit "search_time_ms", JNumber (Fin (75 # 2)));
   (lit "results",
    JArray [JObject Sample.bare_professor; JNull; JObject Sample.bare_professor])].

(** A response without its timing. *)
Definition untimed : list (jstr * value) :=
  [(lit "query", JString (lit "robot learning"));
   (lit "total_results", JNumber (Fin 1));
   (lit "results", JArray [JObject Sample.bare_professor])].

(** A hit of the BM25 search with nothing but what the card needs, and a
    publication likewise. *)
Definition bare_hit : list (jstr * value) :=
  [(lit "name", JString (lit "Grace Hopper"));
   (lit "final_score", JNumber (Fin (7 # 2)));
   (lit "top_publications", JArray [])].


(** A response of the BM25 search with two hits. *)
Definition lexical_matches : list (jstr * value) :=
  [(lit "query", JString (lit "grasp"));
   (lit "total_results", JNumber (Fin 2));
   (lit "search_time_ms", JNumber (Fin 3));
   (lit "results", JArray [Sample.lexical_hit 0 0 0; JObject bare_hit])].


(** A professor as the semantic search may send it to a page that expects
    the BM25 fields: no publications. *)
Definition unpublished : list (jstr * value) :=
  [(lit "name", JString (lit "Grace Hopper"));
   (lit "final_score", JNumber (Fin (1 # 4)))].

(** A response whose results are an object keyed by professor, not a
    list. *)
Definition keyed : list (jstr * value) :=
  [(lit "query", JString (lit "robot learning"));
   (lit "total_results", JNumber (Fin 1));
   (lit "search_time_ms", JNumber (Fin (75 # 2)));
   (lit "results", JObject [(lit "7", JObject Sample.bare_professor)])].

(** A publication and a professor whose optional fields are null. *)
Definition sparse_publication : list (jstr * value) :=
  [(lit "paper_id", JString (lit "W2101234009"));
   (lit "title", JString (lit "Learning to grasp"));
   (lit "year", JNull);
   (lit "citations", JNull);
   (lit "venue", JNull);
   (lit "url", JNull);
   (lit "similarity", JNumber (Fin lit_0_3))].

Definition sparse_professor : list (jstr * value) :=
  [(lit "id", JNumber (Fin 7));
   (lit "name", JString (lit "Ada Lovelace"));
   (lit "department", JString (lit "Computer Science"));
   (lit "college", JString (lit "Engineering"));
   (lit "interests", JNull);
   (lit "url", JNull);
   (lit "image_url", JNull);
   (lit "final_score", JNumber (Fin (1 # 2)));
   (lit "avg_similarity", JNumber (Fin (1 # 2)));
   (lit "recency_weight", JNumber (Fin (3 # 4)));
   (lit "activity_bonus", JNumber (Fin 0));
   (lit "citation_impact", JNumber (Fin (1 # 4)));
   (lit "num_matching_papers", JNumber (Fin 1));
   (lit "top_publications", JArray [JObject sparse_publication])].

End Scenario.

(** ** The score bands (C10) *)

Section Bands.
Context {E : Engine}.

Lemma gauge_band_eq (score : value) :
  gauge_band score =
  if gt score (Fin lit_0_5) then Some Green
  else if ge score (Fin lit_0_3) then Some Amber
  else Some Red.
Proof.
  unfold gauge_band, Semantic.gaugeColor.
  destruct (gt score (Fin lit_0_5)); [reflexivity|].
  destruct (ge score (Fin lit_0_3)); reflexivity.
Qed.

Lemma border_band_eq (score : value) :
  border_band score =
  if gt score (Fin lit_0_5) then Some Green
  else if ge score (Fin lit_0_3) then Some Amber
  else Some Red.
Proof.
  unfold border_band, Semantic.borderClass.
  destruct (gt score (Fin lit_0_5)); [reflexivity|].
  destruct (ge score (Fin lit_0_3)); reflexivity.
Qed.

Lemma lit_0_3_lt_0_5 : (lit_0_3 < lit_0_5)%Q.
Proof. reflexivity. Qed.

Lemma Qle_bool_false (a b : Q) : Qle_bool a b = false <-> (b < a)%Q.
Proof.
  split; intro H.
  - apply Qnot_le_lt. intro Hle. apply Qle_bool_iff in Hle. congruence.
  - destruct (Qle_bool a b) eqn:Hab; [|reflexivity].
    apply Qle_bool_iff in Hab. exfalso. exact (Qlt_not_le _ _ H Hab).
Qed.

Lemma finite_band (q : Q) :
  gauge_band (JNumber (Fin q)) =
  if Qle_bool q lit_0_5
  then (if Qle_bool lit_0_3 q then Some Amber else Some Red)
  else Some Green.
Proof.
  rewrite gauge_band_eq. unfold gt, ge. cbn [ToNumber num_ltb num_leb].
  destruct (Qle_bool q lit_0_5); reflexivity.
Qed.
End Bands.

(** C10.  The gauge of a professor and the border of a publication classify
    a score by the same three bands: the two classifiers agree on every
    value, and on a number [q] the band is green exactly when [q > 0.5],
    amber exactly when [0.3 <= q <= 0.5] and red exactly when [q < 0.3] (0.3
    and 0.5 being the binary64 values of the literals); an infinite score is
    green when positive and red when negative.  The three conditions exclude
    one another and one of them holds, so a score has exactly one band. *)
Theorem score_bands (E : Engine) :
  (forall score : value, gauge_band score = border_band score) /\
  (forall q : Q,
      (gauge_band (JNumber (Fin q)) = Some Green <-> lit_0_5 < q) /\
      (gauge_band (JNumber (Fin q)) = Some Amber <-> lit_0_3 <= q <= lit_0_5) /\
      (gauge_band (JNumber (Fin q)) = Some Red <-> q < lit_0_3))%Q /\
  gauge_band (JNumber Infinity) = Some Green /\
  gauge_band (JNumber NegInfinity) = Some Red.
Proof.
  split; [|split; [|split; reflexivity]].
  - intro score. rewrite gauge_band_eq, border_band_eq. reflexivity.
  - intro q. rewrite finite_band.
    pose proof lit_0_3_lt_0_5 as Hlt.
    destruct (Qlt_le_dec lit_0_5 q) as [Hgt | Hle].
    + rewrite (proj2 (Qle_bool_false q lit_0_5) Hgt).
      repeat split; try discriminate; try tauto.
      * intros [_ Hq]. exfalso. exact (Qlt_not_le _ _ Hgt Hq).
      * intro Hq. exfalso.
        exact (Qlt_irrefl _ (Qlt_trans _ _ _ Hq (Qlt_trans _ _ _ Hlt Hgt))).
    + rewrite (proj2 (Qle_bool_iff q lit_0_5) Hle).
      destruct (Qlt_le_dec q lit_0_3) as [Hred | Hamber].
      * rewrite (proj2 (Qle_bool_false lit_0_3 q) Hred).
        repeat split; try discriminate; try tauto.
        -- intro Hq. exfalso. exact (Qlt_not_le _ _ Hq Hle).
        -- intros [Hq _]. exfalso. exact (Qlt_not_le _ _ Hred Hq).
      * rewrite (proj2 (Qle_bool_iff lit_0_3 q) Hamber).
        repeat split; try discriminate; try tauto.
        -- intro Hq. exfalso. exact (Qlt_not_le _ _ Hq Hle).
        -- intro Hq. exfalso. exact (Qlt_not_le _ _ Hq Hamber).
Qed.

(** ** The two truncateText functions (C9) *)

Section TruncateText.
Context {E : Engine}.

Lemma get_length_string (s : jstr) :
  get (JString s) "length" = Ok (JNumber (nat_number (length s))).
Proof. reflexivity. Qed.

Lemma truncateText_truthy (text : value) (maxLength : number) :
  truthy text = true ->
  Semantic.truncateText text maxLength = Bm25.truncateText text maxLength.
Proof.
  intro H. unfold Bm25.truncateText. rewrite H. reflexivity.
Qed.

Lemma truncateText_empty (maxLength : number) :
  num_leb (Fin 0) maxLength = true ->
  Semantic.truncateText (JString []) maxLength =
  Bm25.truncateText (JString []) maxLength.
Proof.
  intro H. unfold Semantic.truncateText, Bm25.truncateText.
  rewrite get_length_string. cbn [bind truthy negb length].
  unfold le, nat_number. cbn [ToNumber Z.of_nat].
  change (inject_Z 0) with 0%Q. rewrite H. reflexivity.
Qed.

Lemma prefix_within (s : jstr) (q : Q) :
  Qle_bool (inject_Z (Z.of_nat (length s))) q = false ->
  substring_end (length s) (Fin q) = Z.to_nat (Qfloor q).
Proof.
  intro H. apply Qle_bool_false in H. unfold substring_end.
  apply Nat.min_r.
  assert (Qfloor q < Z.of_nat (length s))%Z as Hlt.
  { rewrite Zlt_Qlt. apply Qle_lt_trans with q; [apply Qfloor_le | exact H]. }
  lia.
Qed.

Lemma truncateText_string (s : jstr) (q : Q) :
  Semantic.truncateText (JString s) (Fin q) =
  Ok (JString (if Qle_bool (inject_Z (Z.of_nat (length s))) q then s
               else firstn (Z.to_nat (Qfloor q)) s ++ lit "...")).
Proof.
  unfold Semantic.truncateText. rewrite get_length_string. cbn [bind].
  unfold le, nat_number. cbn [ToNumber num_leb].
  destruct (Qle_bool (inject_Z (Z.of_nat (length s))) q) eqn:H; [reflexivity|].
  cbn [call_substring bind]. rewrite (prefix_within _ _ H). reflexivity.
Qed.
End TruncateText.

(** C9, as stated, fails: on [null] the BM25 variant returns the text and the
    semantic variant throws. *)
Lemma truncateText_null_differs :
  @Bm25.truncateText Reference.engine JNull (Fin 200) = Ok JNull /\
  @Semantic.truncateText Reference.engine JNull (Fin 200) =
  Throw (lit "Cannot read properties of null (reading 'length')").
Proof. split; reflexivity. Qed.

(** C9, amended.  The two truncateText functions return the same result on
    every text that is truthy, and on the empty string when [maxLength] is at
    least 0; on a string they return it unchanged when its length is at most
    [maxLength] and its first floor(maxLength) code units followed by three dots
    otherwise. *)
Theorem truncateText_variants (E : Engine) (text : value) (maxLength : number) :
  truthy text = true \/
  (text = JString [] /\ num_leb (Fin 0) maxLength = true) ->
  Semantic.truncateText text maxLength = Bm25.truncateText text maxLength /\
  (forall (s : jstr) (q : Q),
      text = JString s -> maxLength = Fin q ->
      Bm25.truncateText text maxLength =
      Ok (JString (if Qle_bool (inject_Z (Z.of_nat (length s))) q then s
                   else firstn (Z.to_nat (Qfloor q)) s ++ lit "..."))).
Proof.
  intro H.
  assert (Semantic.truncateText text maxLength = Bm25.truncateText text maxLength)
    as Hsame.
  { destruct H as [H | [-> H]].
    - apply truncateText_truthy; exact H.
    - apply truncateText_empty; exact H. }
  split; [exact Hsame|].
  intros s q -> ->. rewrite <- Hsame. apply truncateText_string.
Qed.

Lemma truncateText_variants_witness :
  truthy (JString (lit "machine learning for robotics")) = true /\
  @Semantic.truncateText Reference.engine
    (JString (lit "machine learning for robotics")) (Fin 7) =
  @Bm25.truncateText Reference.engine
    (JString (lit "machine learning for robotics")) (Fin 7) /\
  @Bm25.truncateText Reference.engine
    (JString (lit "machine learning for robotics")) (Fin 7) =
  Ok (JString (lit "machine...")).
Proof.
  pose proof (@truncateText_variants Reference.engine
                (JString (lit "machine learning for robotics")) (Fin 7)
                (or_introl eq_refl)) as [Hsame Hshape].
  split; [reflexivity|]. split; [exact Hsame|].
  rewrite (Hshape _ _ eq_refl eq_refl). reflexivity.
Defined.

(** ** Empty queries (C1) *)

(** C1.  On a query that is empty once trimmed, neither page issues a
    request.  The semantic page reports the invalid query in the error
    banner; the BM25 page returns without any sign of it: the page is left
    exactly as it was. *)
Theorem performSearch_empty_query (E : Engine) (p : page) :
  trim (searchInput_value p) = [] ->
  Semantic.performSearch p =
    Finished (showError (lit "Please enter a research query") p) /\
  Bm25.performSearch p = Finished p.
Proof.
  intro H. unfold Semantic.performSearch, Bm25.performSearch.
  rewrite H. split; reflexivity.
Qed.

Lemma performSearch_empty_query_witness :
  trim (searchInput_value (Sample.fresh_page "   " "10")) = [] /\
  @Semantic.performSearch Reference.engine (Sample.fresh_page "   " "10") =
    Finished (showError (lit "Please enter a research query")
                (Sample.fresh_page "   " "10")) /\
  @Bm25.performSearch Reference.engine (Sample.fresh_page "   " "10") =
    Finished (Sample.fresh_page "   " "10").
Proof.
  split; [reflexivity|].
  exact (@performSearch_empty_query Reference.engine
           (Sample.fresh_page "   " "10") eq_refl).
Defined.

(** ** Empty result lists (C3) *)

Section EmptyResults.
Context {E : Engine}.

Lemma get_results (props : list (jstr * value)) :
  get (JObject props) "results" = Ok (field props "results").
Proof. reflexivity. Qed.

Lemma no_results_empty (results : value) :
  truthy results = false \/ results = JArray [] ->
  Semantic.no_results results = Ok true /\ Bm25.no_results results = Ok true.
Proof.
  unfold Semantic.no_results, Bm25.no_results.
  intros [H | ->]; [rewrite H; split; reflexivity | split; reflexivity].
Qed.
End EmptyResults.

(** C3, as stated, fails: a response with an empty [results] list is
    reported through the error banner. *)
Lemma empty_results_shown_as_error :
  @Semantic.displayResults Reference.engine Sample.no_match
    (Sample.fresh_page "underwater basket weaving" "10") =
  (Ok tt,
   {| searchInput_value := lit "underwater basket weaving";
      topKInput_value := lit "10";
      loadingSpinner_hidden := true;
      errorMessage_textContent :=
        lit "No advisors found for your query. Try different keywords.";
      errorMessage_hidden := false;
      resultsSection_hidden := true;
      resultsInfo_textContent := [];
      resultsContainer := [] |}).
Proof. reflexivity. Qed.

(** C3, amended.  For a response whose [results] is an empty list (or is
    missing or falsy), displayResults completes without an exception, creates
    no card and leaves the results area as it was, and reports the outcome in
    the error banner: it shows the message of the page there. *)
Theorem displayResults_empty (E : Engine) (props : list (jstr * value)) (p : page) :
  truthy (field props "results") = false \/ field props "results" = JArray [] ->
  Semantic.displayResults (JObject props) p =
    (Ok tt,
     showError (lit "No advisors found for your query. Try different keywords.") p) /\
  Bm25.displayResults (JObject props) p =
    (Ok tt, showError (lit "No matches found.") p).
Proof.
  intro H. destruct (no_results_empty H) as [Hs Hb].
  unfold Semantic.displayResults, Bm25.displayResults, and_then, lift.
  rewrite get_results, Hs, Hb. split; reflexivity.
Qed.

Lemma displayResults_empty_witness :
  field [(lit "total_results", JNumber (Fin 0)); (lit "results", JArray [])]
    "results" = JArray [] /\
  @Semantic.displayResults Reference.engine
    (JObject [(lit "total_results", JNumber (Fin 0)); (lit "results", JArray [])])
    (Sample.fresh_page "cats" "10") =
    (Ok tt,
     showError (lit "No advisors found for your query. Try different keywords.")
       (Sample.fresh_page "cats" "10")) /\
  @Bm25.displayResults Reference.engine
    (JObject [(lit "total_results", JNumber (Fin 0)); (lit "results", JArray [])])
    (Sample.fresh_page "cats" "10") =
    (Ok tt, showError (lit "No matches found.") (Sample.fresh_page "cats" "10")).
Proof.
  split; [reflexivity|].
  exact (@displayResults_empty Reference.engine
           [(lit "total_results", JNumber (Fin 0)); (lit "results", JArray [])]
           (Sample.fresh_page "cats" "10") (or_intror eq_refl)).
Defined.

(** ** The top-k of the request (C2) *)

Section ParseInt.
Context {E : Engine}.

Lemma parse_digits_acc (d : Decimal.uint) (acc : positive) :
  parse_digits 10 (uint_units d) (Some (Npos acc)) =
  Some (Npos (Pos.of_uint_acc d acc)).
Proof.
  revert acc.
  induction d; intro acc; cbn [uint_units parse_digits Pos.of_uint_acc];
    [reflexivity | ..];
    match goal with
    | |- context [digit_value 10 ?c] =>
        let v := eval vm_compute in (digit_value 10 c) in
        change (digit_value 10 c) with v
    end; cbv iota; rewrite <- IHd; f_equal; f_equal; lia.
Qed.

Lemma parse_digits_zero (d : Decimal.uint) :
  parse_digits 10 (uint_units d) (Some 0) = Some (Pos.of_uint d).
Proof.
  induction d; cbn [uint_units parse_digits Pos.of_uint];
    [reflexivity | ..];
    match goal with
    | |- context [digit_value 10 ?c] =>
        let v := eval vm_compute in (digit_value 10 c) in
        change (digit_value 10 c) with v
    end; cbv iota;
    [exact IHd | ..]; rewrite <- parse_digits_acc; reflexivity.
Qed.

Lemma parse_digits_none (d : Decimal.uint) :
  d <> Nil ->
  parse_digits 10 (uint_units d) None = Some (Pos.of_uint d).
Proof.
  intro H. rewrite <- parse_digits_zero.
  destruct d; [contradiction | ..]; reflexivity.
Qed.

Lemma to_uint_nonnil (n : N) : N.to_uint n <> Nil.
Proof.
  destruct n; [discriminate | apply DecimalPos.Unsigned.to_uint_nonnil].
Qed.

Lemma parse_decimal (n : N) : parse_digits 10 (decimal n) None = Some n.
Proof.
  unfold decimal. rewrite parse_digits_none by apply to_uint_nonnil.
  f_equal. apply DecimalN.Unsigned.of_to.
Qed.

(** A decimal numeral is read in base ten as it stands: no white space to
    skip, no sign, no 0x. *)
Lemma digits_head (d : Decimal.uint) :
  d <> Nil ->
  trim_start (uint_units d) = uint_units d /\
  take_sign (uint_units d) = (false, uint_units d) /\
  take_radix (uint_units d) = (10, uint_units d).
Proof.
  intro H. destruct d as [|d|d|d|d|d|d|d|d|d|d]; [contradiction | ..];
    (split; [reflexivity|]; split; [reflexivity|]; destruct d; reflexivity).
Qed.

Lemma parseInt_digits (n : N) :
  parseInt (decimal n) = round (inject_Z (Z.of_N n)) /\
  parseInt (lit "-" ++ decimal n) = round (inject_Z (- Z.of_N n)).
Proof.
  pose proof (parse_decimal n) as Hp.
  destruct (digits_head (to_uint_nonnil n)) as (Ht & Hs & Hr).
  unfold decimal in *. unfold parseInt. split.
  - rewrite Ht, Hs, Hr, Hp. reflexivity.
  - change (lit "-" ++ uint_units (N.to_uint n))
      with (45 :: uint_units (N.to_uint n)).
    change (trim_start (45 :: uint_units (N.to_uint n)))
      with (45 :: uint_units (N.to_uint n)).
    change (take_sign (45 :: uint_units (N.to_uint n)))
      with (true, uint_units (N.to_uint n)).
    cbv beta iota. rewrite Hr, Hp. reflexivity.
Qed.

Lemma parseInt_decimal_Z (z : Z) :
  parseInt (decimal_Z z) = round (inject_Z z).
Proof.
  unfold decimal_Z. destruct (parseInt_digits (Z.abs_N z)) as [Hpos Hneg].
  destruct (Z.ltb_spec z 0) as [Hz | Hz].
  - rewrite Hneg. do 2 f_equal. rewrite N2Z.inj_abs_N. lia.
  - rewrite Hpos. do 2 f_equal. rewrite N2Z.inj_abs_N. lia.
Qed.
End ParseInt.

(** C2, as stated, fails: with 999 in the top-k input the semantic page
    requests [top_k] 999. *)
Lemma top_k_999_is_requested :
  requested_top_k
    (@Semantic.performSearch Reference.engine
       (Sample.fresh_page "machine learning for robotics" "999")) =
  Some (JNumber (Fin 999)).
Proof. vm_compute. reflexivity. Qed.

(** C2, amended.  The [top_k] of the semantic request is parseInt of the
    top-k input, or 10 when that is NaN or zero; it is not clamped to
    [1,20]: when the input is the decimal numeral of an integer [z] that
    binary64 represents exactly, the request carries [z] itself (10 for
    [z] = 0), whatever its sign and size.  The BM25 request always carries
    [top_k] 20. *)
Theorem top_k_of_request (E : Engine) (p : page) :
  trim (searchInput_value p) <> [] ->
  requested_top_k (Semantic.performSearch p) =
    Some (match parseInt (topKInput_value p) with
          | NaN => JNumber (Fin 10)
          | Fin q => if Qeq_bool q 0 then JNumber (Fin 10) else JNumber (Fin q)
          | n => JNumber n
          end) /\
  (forall z : Z,
      topKInput_value p = decimal_Z z ->
      round (inject_Z z) = Fin (inject_Z z) ->
      requested_top_k (Semantic.performSearch p) =
        Some (JNumber (Fin (inject_Z (if (z =? 0)%Z then 10 else z))))) /\
  requested_top_k (Bm25.performSearch p) = Some (JNumber (Fin 20)).
Proof.
  intro Hq.
  assert (requested_top_k (Semantic.performSearch p) = Some (Semantic.topK p))
    as Hs.
  { unfold Semantic.performSearch.
    destruct (trim (searchInput_value p)); [contradiction | reflexivity]. }
  assert (requested_top_k (Bm25.performSearch p) = Some (JNumber (Fin 20)))
    as Hb.
  { unfold Bm25.performSearch.
    destruct (trim (searchInput_value p)); [contradiction | reflexivity]. }
  rewrite Hs. unfold Semantic.topK, or_else.
  split; [|split; [|exact Hb]].
  - destruct (parseInt (topKInput_value p)) as [| |q|]; try reflexivity.
    cbn [truthy]. destruct (Qeq_bool q 0); reflexivity.
  - intros z Hz Hr. rewrite Hz, parseInt_decimal_Z, Hr. cbn [truthy].
    unfold Qeq_bool. cbn [Qnum Qden inject_Z].
    rewrite Z.mul_1_r. change (0 * 1)%Z with 0%Z.
    destruct (z =? 0)%Z; reflexivity.
Qed.

Lemma top_k_of_request_witness :
  trim (searchInput_value (Sample.fresh_page "deep learning" "-5")) <> [] /\
  topKInput_value (Sample.fresh_page "deep learning" "-5") = decimal_Z (-5) /\
  @round Reference.engine (inject_Z (-5)) = Fin (inject_Z (-5)) /\
  requested_top_k
    (@Semantic.performSearch Reference.engine
       (Sample.fresh_page "deep learning" "-5")) =
  Some (JNumber (Fin (inject_Z (-5)))) /\
  requested_top_k
    (@Bm25.performSearch Reference.engine
       (Sample.fresh_page "deep learning" "-5")) =
  Some (JNumber (Fin 20)).
Proof.
  assert (trim (searchInput_value (Sample.fresh_page "deep learning" "-5")) <> [])
    as Hq by (vm_compute; discriminate).
  destruct (@top_k_of_request Reference.engine
              (Sample.fresh_page "deep learning" "-5") Hq) as (_ & Hz & Hb).
  split; [exact Hq|]. split; [reflexivity|]. split; [reflexivity|].
  split; [exact (Hz (-5)%Z eq_refl eq_refl) | exact Hb].
Defined.

(** ** Missing optional fields (C5) *)

Section Occurrences.

Lemma occurs_skip (needle a b : jstr) : occurs needle b -> occurs needle (a ++ b).
Proof.
  intros (before & after & ->). exists (a ++ before), after.
  rewrite <- app_assoc. reflexivity.
Qed.

Lemma occurs_between (needle before a after b : jstr) :
  a = before ++ needle ++ after -> occurs needle (a ++ b).
Proof.
  intros ->. exists before, (after ++ b).
  rewrite <- !app_assoc. reflexivity.
Qed.

End Occurrences.

Section OptionalFields.
Context {E : Engine}.

Lemma get_field (props : list (jstr * value)) (k : string) :
  get (JObject props) k = Ok (field props k).
Proof. reflexivity. Qed.

Lemma field_missing (props : list (jstr * value)) (k : string) :
  lookup (lit k) props = None -> field props k = JUndefined.
Proof. unfold field. intros ->. reflexivity. Qed.

(** The markup of a publication, tag by tag: the template of
    createPublicationHTML (lines 203-222) with its line breaks and
    indentation written out. *)
Lemma publication_markup (border title year citations venue similarity : jstr) :
  Semantic.publication_template border title year citations venue similarity =
  line 8 ++ lit "<div class=^publication-item " ++ border ++ lit "^>" ++
  line 12 ++ lit "<div class=^publication-title^>" ++
  line 16 ++ title ++
  line 12 ++ lit "</div>" ++
  line 12 ++ lit "<div class=^publication-meta^>" ++
  line 16 ++ lit "<span>" ++ year ++ lit "</span>" ++
  line 16 ++ lit "<span>" ++ bullet ++ lit "</span>" ++
  line 16 ++ lit "<span>" ++ citations ++ lit " citations</span>" ++
  line 16 ++ venue ++
  line 16 ++ lit "<span>" ++ bullet ++ lit "</span>" ++
  line 16 ++ lit "<span class=^similarity-score^>Paper Similarity: " ++
  similarity ++ lit "%</span>" ++
  line 12 ++ lit "</div>" ++
  line 8 ++ lit "</div>" ++
  line 4.
Proof. reflexivity. Qed.

Lemma link_markup (url title : jstr) :
  Semantic.link_template url title =
  lit "<a href=^" ++ url ++ lit "^ target=^_blank^ class=^publication-link^>" ++
  title ++ lit "</a>".
Proof. reflexivity. Qed.

Lemma venue_markup (venue : jstr) :
  Semantic.venue_template venue =
  line 20 ++ lit "<span>" ++ bullet ++ lit "</span>" ++
  line 20 ++ lit "<span>" ++ venue ++ lit "</span>" ++
  line 16.
Proof. reflexivity. Qed.

(** The two optional parts of a card, and where they stand in it: the image
    between the opening of the header and the heading, the profile row
    between the row of the matching papers and the end of the details. *)
Lemma image_markup (image_url name : jstr) :
  Semantic.image_template image_url name =
  line 20 ++ lit "<img src=^" ++ image_url ++ lit "^ alt=^" ++ name ++
  lit "^ class=^professor-image^>" ++
  line 16.
Proof. reflexivity. Qed.

Lemma profile_markup (url : jstr) :
  Semantic.profile_template url =
  line 16 ++ lit "<div class=^detail-row^>" ++
  line 20 ++ lit "<span class=^detail-label^>Profile:</span>" ++
  line 20 ++ lit "<span class=^detail-value^>" ++
  line 24 ++ lit "<a href=^" ++ url ++
  lit "^ target=^_blank^>View Faculty Page " ++ rightwards_arrow ++ lit "</a>" ++
  line 20 ++ lit "</span>" ++
  line 16 ++ lit "</div>" ++
  line 12.
Proof. reflexivity. Qed.

Lemma card_header
    (image rank name department college colour dashArray dashOffset scorePercent
       interests papers profile similarity recency activity citations
       publications : jstr) :
  exists rest,
    Semantic.professor_template image rank name department college colour
      dashArray dashOffset scorePercent interests papers profile similarity
      recency activity citations publications =
    line 8 ++ lit "<div class=^professor-header^>" ++
    line 12 ++ lit "<div class=^professor-header-content^>" ++
    line 16 ++ image ++
    line 16 ++ lit "<div class=^professor-info^>" ++
    line 20 ++ lit "<h3>" ++ rank ++ lit ". " ++ name ++ lit "</h3>" ++ rest.
Proof.
  unfold Semantic.professor_template.
  match goal with
  | |- exists rest, _ ++ image ++ _ ++ rank ++ _ ++ name ++ lit ?c ++ ?tail = _ =>
      exists (skipn (length (lit "</h3>")) (lit c) ++ tail)
  end.
  reflexivity.
Qed.

Lemma card_details
    (image rank name department college colour dashArray dashOffset scorePercent
       interests papers profile similarity recency activity citations
       publications : jstr) :
  occurs (lit "<span class=^detail-label^>Matching Papers:</span>" ++
          line 16 ++ lit "<span class=^detail-value^>" ++ papers ++
          lit "</span>" ++
          line 12 ++ lit "</div>" ++
          line 12 ++
          line 12 ++ profile ++
          line 8 ++ lit "</div>" ++
          line 8 ++
          line 8 ++ lit "<div class=^score-breakdown^>")
    (Semantic.professor_template image rank name department college colour
       dashArray dashOffset scorePercent interests papers profile similarity
       recency activity citations publications).
Proof.
  unfold Semantic.professor_template. do 22 apply occurs_skip.
  match goal with
  | |- occurs _ (lit ?a ++ papers ++ lit ?b ++ profile ++ lit ?c ++ ?rest) =>
      exists (firstn
                (length (lit a) -
                 length (lit "<span class=^detail-label^>Matching Papers:</span>" ++
                         line 16 ++ lit "<span class=^detail-value^>"))
                (lit a)),
             (skipn
                (length (line 8 ++ lit "</div>" ++ line 8 ++ line 8 ++
                         lit "<div class=^score-breakdown^>"))
                (lit c) ++ rest)
  end.
  rewrite <- !app_assoc. reflexivity.
Qed.

(** createPublicationHTML never throws on an object. *)
Lemma createPublicationHTML_object (props : list (jstr * value)) :
  Semantic.createPublicationHTML (JObject props) =
  Ok (Semantic.publication_template
        (Semantic.borderClass (field props "similarity"))
        (if truthy (field props "url")
         then Semantic.link_template (ToString (field props "url"))
                (ToString (field props "title"))
         else ToString (field props "title"))
        (ToString (or_else (field props "year") (JString (lit "N/A"))))
        (ToString (or_else (field props "citations") (JNumber (Fin 0))))
        (if truthy (field props "venue")
         then Semantic.venue_template (ToString (field props "venue")) else [])
        (Semantic.percent (field props "similarity"))).
Proof.
  unfold Semantic.createPublicationHTML. rewrite !get_field. reflexivity.
Qed.

Lemma publicationsHTML_objects (pubs : list value) :
  forallb is_object pubs = true ->
  exists html, Semantic.publicationsHTML (JArray pubs) = Ok html.
Proof.
  intro H. unfold Semantic.publicationsHTML.
  assert (exists htmls, map_result Semantic.createPublicationHTML pubs = Ok htmls)
    as [htmls ->]; [|eexists; reflexivity].
  induction pubs as [|pub pubs IH]; [eexists; reflexivity|].
  cbn [forallb] in H. apply andb_true_iff in H as [Hpub Hpubs].
  destruct (IH Hpubs) as [htmls Hhtmls].
  destruct pub; try discriminate.
  cbn [map_result]. rewrite createPublicationHTML_object, Hhtmls.
  eexists; reflexivity.
Qed.

Lemma interests_row_ok (interests : value) :
  match interests with
  | JString _ | JNull | JUndefined => true
  | _ => false
  end = true ->
  exists row,
    (if truthy interests
     then text <- Semantic.truncateText interests (Fin 200) ;;
          Ok (Semantic.interests_template (ToString text))
     else Ok []) = Ok row.
Proof.
  intro H. destruct interests; try discriminate; try (eexists; reflexivity).
  rewrite truncateText_string. destruct (truthy (JString s)); eexists; reflexivity.
Qed.

Lemma publications_ok (top_publications : value) :
  publication_list top_publications = true ->
  exists section,
    (if truthy top_publications
     then len <- get top_publications "length" ;;
          if gt len (Fin 0)
          then html <- Semantic.publicationsHTML top_publications ;;
               Ok (Semantic.publications_template html)
          else Ok []
     else Ok []) = Ok section.
Proof.
  intro H. destruct top_publications as [| | | | |pubs|];
    try discriminate; try (eexists; reflexivity).
  cbn [truthy]. cbn [publication_list] in H.
  destruct (publicationsHTML_objects pubs H) as [html Hhtml].
  change (get (JArray pubs) "length")
    with (Ok (JNumber (nat_number (length pubs)))).
  cbn [bind]. rewrite Hhtml.
  destruct (gt (JNumber (nat_number (length pubs))) (Fin 0));
    eexists; reflexivity.
Qed.

(** createProfessorCard never throws on a professor record; the sections of
    the optional fields are the only parts left open here. *)
Lemma createProfessorCard_record (props : list (jstr * value)) (rank : number) :
  professor_record props = true ->
  exists interests_row publications,
    Semantic.createProfessorCard (JObject props) rank =
    Ok {| className := lit "professor-card";
          innerHTML :=
            Semantic.professor_template
              (if truthy (field props "image_url")
               then Semantic.image_template (ToString (field props "image_url"))
                      (ToString (field props "name"))
               else [])
              (Number_toString rank)
              (ToString (field props "name"))
              (ToString (field props "department"))
              (ToString (field props "college"))
              (Semantic.gaugeColor (field props "final_score"))
              (Number_toString Semantic.dashArray)
              (Number_toString (Semantic.dashOffset (field props "final_score")))
              (Semantic.percent (field props "final_score"))
              interests_row
              (ToString (field props "num_matching_papers"))
              (if truthy (field props "url")
               then Semantic.profile_template (ToString (field props "url"))
               else [])
              (Semantic.percent (field props "avg_similarity"))
              (Semantic.percent (field props "recency_weight"))
              (Semantic.percent (field props "activity_bonus"))
              (Semantic.percent (field props "citation_impact"))
              publications |}.
Proof.
  intro H. unfold professor_record in H. apply andb_true_iff in H as [Hi Hp].
  destruct (interests_row_ok _ Hi) as [row Hrow].
  destruct (publications_ok _ Hp) as [section Hsection].
  exists row, section.
  unfold Semantic.createProfessorCard. rewrite !get_field.
  cbn [bind]. rewrite Hrow. cbn [bind]. rewrite Hsection. reflexivity.
Qed.
End OptionalFields.

(** C5.  A publication or a professor that lacks optional fields is rendered
    without failure, a field being missing when its key is absent or its
    value is null (more generally when the value is falsy, which is what the
    source tests).  createPublicationHTML returns on every publication
    object (with convertible fields), and what it returns is the markup
    below: the year reads N/A when it is missing, the citations read 0, the
    venue part is empty, and the title stands bare, without a link, when the
    url is missing.  createProfessorCard returns on every professor record
    (with convertible fields): the card starts with the header, where the
    image part is empty when image_url is missing, and the row of the
    matching papers is followed by the profile part, which is empty when url
    is missing, and the end of the details.  A field that is present is
    rendered as the source says. *)
Theorem missing_optional_fields (E : Engine)
    (publication professor : list (jstr * value)) (rank : number) :
  professor_record professor = true ->
  convertible_fields publication = true ->
  convertible_professor professor = true ->
  (exists title year citations venue,
      Semantic.createPublicationHTML (JObject publication) =
      Ok (line 8 ++ lit "<div class=^publication-item " ++
          Semantic.borderClass (field publication "similarity") ++ lit "^>" ++
          line 12 ++ lit "<div class=^publication-title^>" ++
          line 16 ++ title ++
          line 12 ++ lit "</div>" ++
          line 12 ++ lit "<div class=^publication-meta^>" ++
          line 16 ++ lit "<span>" ++ year ++ lit "</span>" ++
          line 16 ++ lit "<span>" ++ bullet ++ lit "</span>" ++
          line 16 ++ lit "<span>" ++ citations ++ lit " citations</span>" ++
          line 16 ++ venue ++
          line 16 ++ lit "<span>" ++ bullet ++ lit "</span>" ++
          line 16 ++ lit "<span class=^similarity-score^>Paper Similarity: " ++
          Semantic.percent (field publication "similarity") ++ lit "%</span>" ++
          line 12 ++ lit "</div>" ++
          line 8 ++ lit "</div>" ++
          line 4) /\
      year =
        (if truthy (field publication "year")
         then ToString (field publication "year") else lit "N/A") /\
      citations =
        (if truthy (field publication "citations")
         then ToString (field publication "citations") else lit "0") /\
      venue =
        (if truthy (field publication "venue")
         then line 20 ++ lit "<span>" ++ bullet ++ lit "</span>" ++
              line 20 ++ lit "<span>" ++
              ToString (field publication "venue") ++ lit "</span>" ++
              line 16
         else []) /\
      title =
        (if truthy (field publication "url")
         then lit "<a href=^" ++ ToString (field publication "url") ++
              lit "^ target=^_blank^ class=^publication-link^>" ++
              ToString (field publication "title") ++ lit "</a>"
         else ToString (field publication "title"))) /\
  (exists image interests_row profile publications card rest,
      Semantic.createProfessorCard (JObject professor) rank = Ok card /\
      card =
        {| className := lit "professor-card";
           innerHTML :=
             Semantic.professor_template
               image
               (Number_toString rank)
               (ToString (field professor "name"))
               (ToString (field professor "department"))
               (ToString (field professor "college"))
               (Semantic.gaugeColor (field professor "final_score"))
               (Number_toString Semantic.dashArray)
               (Number_toString
                  (Semantic.dashOffset (field professor "final_score")))
               (Semantic.percent (field professor "final_score"))
               interests_row
               (ToString (field professor "num_matching_papers"))
               profile
               (Semantic.percent (field professor "avg_similarity"))
               (Semantic.percent (field professor "recency_weight"))
               (Semantic.percent (field professor "activity_bonus"))
               (Semantic.percent (field professor "citation_impact"))
               publications |} /\
      innerHTML card =
        line 8 ++ lit "<div class=^professor-header^>" ++
        line 12 ++ lit "<div class=^professor-header-content^>" ++
        line 16 ++ image ++
        line 16 ++ lit "<div class=^professor-info^>" ++
        line 20 ++ lit "<h3>" ++ Number_toString rank ++ lit ". " ++
        ToString (field professor "name") ++ lit "</h3>" ++ rest /\
      occurs (lit "<span class=^detail-label^>Matching Papers:</span>" ++
              line 16 ++ lit "<span class=^detail-value^>" ++
              ToString (field professor "num_matching_papers") ++
              lit "</span>" ++
              line 12 ++ lit "</div>" ++
              line 12 ++
              line 12 ++ profile ++
              line 8 ++ lit "</div>" ++
              line 8 ++
              line 8 ++ lit "<div class=^score-breakdown^>")
        (innerHTML card) /\
      image =
        (if truthy (field professor "image_url")
         then line 20 ++ lit "<img src=^" ++
              ToString (field professor "image_url") ++ lit "^ alt=^" ++
              ToString (field professor "name") ++
              lit "^ class=^professor-image^>" ++
              line 16
         else []) /\
      profile =
        (if truthy (field professor "url")
         then line 16 ++ lit "<div class=^detail-row^>" ++
              line 20 ++ lit "<span class=^detail-label^>Profile:</span>" ++
              line 20 ++ lit "<span class=^detail-value^>" ++
              line 24 ++ lit "<a href=^" ++
              ToString (field professor "url") ++
              lit "^ target=^_blank^>View Faculty Page " ++ rightwards_arrow ++
              lit "</a>" ++
              line 20 ++ lit "</span>" ++
              line 16 ++ lit "</div>" ++
              line 12
         else [])).
Proof.
  intros Hrecord _ _. split.
  - do 4 eexists.
    split; [rewrite createPublicationHTML_object, publication_markup;
            reflexivity|].
    unfold or_else.
    split; [destruct (truthy (field publication "year")); reflexivity|].
    split; [destruct (truthy (field publication "citations")); reflexivity|].
    split; [rewrite venue_markup; reflexivity|].
    rewrite link_markup. reflexivity.
  - destruct (createProfessorCard_record professor rank Hrecord)
      as (row & section & Hcard).
    match type of Hcard with
    | _ = Ok {| className := _;
                innerHTML := Semantic.professor_template ?image ?rank ?name
                  ?department ?college ?colour ?dashArray ?dashOffset
                  ?scorePercent ?interests ?papers ?profile ?similarity
                  ?recency ?activity ?citations ?publications |} =>
        destruct (card_header image rank name department college colour
                    dashArray dashOffset scorePercent interests papers profile
                    similarity recency activity citations publications)
          as [rest Hheader];
        pose proof (card_details image rank name department college colour
                      dashArray dashOffset scorePercent interests papers
                      profile similarity recency activity citations
                      publications) as Hdetails
    end.
    do 5 eexists. exists rest. split; [exact Hcard|]. split; [reflexivity|].
    cbn [innerHTML]. split; [exact Hheader|]. split; [exact Hdetails|].
    rewrite image_markup, profile_markup. split; reflexivity.
Qed.

Lemma missing_optional_fields_witness :
  @Semantic.createPublicationHTML Reference.engine
    (JObject Scenario.sparse_publication) =
  Ok (line 8 ++ lit "<div class=^publication-item pub-border-amber^>" ++
      line 12 ++ lit "<div class=^publication-title^>" ++
      line 16 ++ lit "Learning to grasp" ++
      line 12 ++ lit "</div>" ++
      line 12 ++ lit "<div class=^publication-meta^>" ++
      line 16 ++ lit "<span>N/A</span>" ++
      line 16 ++ lit "<span>" ++ bullet ++ lit "</span>" ++
      line 16 ++ lit "<span>0 citations</span>" ++
      line 16 ++
      line 16 ++ lit "<span>" ++ bullet ++ lit "</span>" ++
      line 16 ++ lit "<span class=^similarity-score^>Paper Similarity: 30.0%</span>" ++
      line 12 ++ lit "</div>" ++
      line 8 ++ lit "</div>" ++
      line 4) /\
  (exists card rest,
      @Semantic.createProfessorCard Reference.engine
        (JObject Scenario.sparse_professor) (Fin 1) = Ok card /\
      innerHTML card =
        line 8 ++ lit "<div class=^professor-header^>" ++
        line 12 ++ lit "<div class=^professor-header-content^>" ++
        line 16 ++
        line 16 ++ lit "<div class=^professor-info^>" ++
        line 20 ++ lit "<h3>1. Ada Lovelace</h3>" ++ rest /\
      occurs (lit "<span class=^detail-label^>Matching Papers:</span>" ++
              line 16 ++ lit "<span class=^detail-value^>1</span>" ++
              line 12 ++ lit "</div>" ++
              line 12 ++
              line 12 ++
              line 8 ++ lit "</div>" ++
              line 8 ++
              line 8 ++ lit "<div class=^score-breakdown^>")
        (innerHTML card)).
Proof.
  destruct (@missing_optional_fields Reference.engine
              Scenario.sparse_publication Scenario.sparse_professor (Fin 1)
              eq_refl eq_refl eq_refl)
    as [(title & year & citations & venue & Hpub & -> & -> & -> & ->)
        (image & row & profile & pubs & card & rest & Hcard & _ & Hheader
         & Hdetails & -> & ->)].
  split.
  - rewrite Hpub. reflexivity.
  - exists card, rest. split; [exact Hcard|].
    split; [exact Hheader | exact Hdetails].
Defined.

(** ** What displayResults does to the page *)

Section Rendering.
Context {E : Engine}.

Lemma container_unchanged (p : page) :
  set_resultsContainer (resultsContainer p ++ []) p = p.
Proof. destruct p. unfold set_resultsContainer; cbn. rewrite app_nil_r. reflexivity. Qed.

Lemma container_appended (card : element) (cards : list element) (p : page) :
  set_resultsContainer (resultsContainer (appendChild card p) ++ cards)
    (appendChild card p) =
  set_resultsContainer (resultsContainer p ++ card :: cards) p.
Proof.
  destruct p. unfold appendChild, set_resultsContainer; cbn.
  rewrite <- app_assoc. reflexivity.
Qed.

Lemma appendCards_cards_from (professors : list value) (index : nat) (p : page) :
  Semantic.appendCards professors index p =
  (snd (cards_from professors index),
   set_resultsContainer (resultsContainer p ++ fst (cards_from professors index)) p).
Proof.
  revert index p.
  induction professors as [|professor rest IH]; intros index p.
  - cbn [Semantic.appendCards cards_from fst snd]. unfold ret.
    rewrite container_unchanged. reflexivity.
  - cbn [Semantic.appendCards cards_from]. unfold and_then, lift, update.
    destruct (Semantic.createProfessorCard professor (nat_number (index + 1)))
      as [card | m].
    + rewrite IH. destruct (cards_from rest (S index)) as [cards r].
      cbn [fst snd]. rewrite container_appended. reflexivity.
    + cbn [fst snd]. rewrite container_unchanged. reflexivity.
Qed.

Lemma cleared_then_appended (info : jstr) (cards : list element) (p : page) :
  set_resultsContainer
    (resultsContainer (clearContainer (set_resultsInfo_textContent info p)) ++ cards)
    (clearContainer (set_resultsInfo_textContent info p)) =
  set_resultsContainer cards (set_resultsInfo_textContent info p).
Proof. destruct p. reflexivity. Qed.

(** displayResults is [render] of a rendering that depends on the response
    alone. *)
Lemma displayResults_render (data : value) (p : page) :
  Semantic.displayResults data p = render (rendering_of data) p.
Proof.
  unfold Semantic.displayResults, rendering_of, and_then, lift, update.
  destruct (get data "results") as [results | m]; [|reflexivity].
  destruct (Semantic.no_results results) as [[|] | m]; try reflexivity.
  destruct (Semantic.resultsInfo data) as [info | m]; [|reflexivity].
  unfold Semantic.forEach.
  destruct results as [| |b|n|s|professors|props];
    try (cbn [render no_method lift]; reflexivity).
  rewrite appendCards_cards_from, cleared_then_appended.
  destruct (cards_from professors 0) as [cards [[] | m]]; reflexivity.
Qed.
End Rendering.

(** ** One card per professor, in order, with its rank (C8) *)

Section Cards.
Context {E : Engine}.

Lemma Number_toString_nat (n : nat) :
  (Z.of_nat n <= two_pow_53)%Z ->
  Number_toString (nat_number n) = decimal (N.of_nat n).
Proof.
  intro H. unfold Number_toString, nat_number, is_integer.
  rewrite Qfloor_Z.
  assert (Qeq_bool (inject_Z (Z.of_nat n)) (inject_Z (Z.of_nat n)) = true) as ->
    by (apply Qeq_bool_iff; reflexivity).
  assert ((Z.abs (Z.of_nat n) <=? two_pow_53)%Z = true) as ->
    by (apply Z.leb_le; lia).
  cbn [andb]. unfold decimal_Z.
  assert ((Z.of_nat n <? 0)%Z = false) as -> by (apply Z.ltb_ge; lia).
  f_equal. lia.
Qed.

(** The heading of a card holds its rank and the name. *)
Lemma heading_occurs
    (image rank name department college colour dashArray dashOffset scorePercent
       interests papers profile similarity recency activity citations
       publications : jstr) :
  occurs (lit "<h3>" ++ rank ++ lit ". " ++ name ++ lit "</h3>")
    (Semantic.professor_template image rank name department college colour
       dashArray dashOffset scorePercent interests papers profile similarity
       recency activity citations publications).
Proof.
  unfold Semantic.professor_template.
  apply occurs_skip, occurs_skip.
  match goal with
  | |- occurs _ (lit ?b ++ rank ++ lit ". " ++ name ++ lit ?c ++ ?rest) =>
      exists (firstn (length (lit b) - 4) (lit b)),
             (skipn 5 (lit c) ++ rest);
      change (lit b) with (firstn (length (lit b) - 4) (lit b) ++ lit "<h3>") at 1;
      change (lit c) with (lit "</h3>" ++ skipn 5 (lit c)) at 1
  end.
  rewrite <- !app_assoc. reflexivity.
Qed.

Lemma cards_from_records (professors : list value) (index : nat) :
  forallb is_professor_record professors = true ->
  exists cards,
    cards_from professors index = (cards, Ok tt) /\
    length cards = length professors /\
    forall i professor,
      nth_error professors i = Some professor ->
      exists card,
        nth_error cards i = Some card /\
        Semantic.createProfessorCard professor (nat_number (index + i + 1)) =
        Ok card.
Proof.
  revert index.
  induction professors as [|professor rest IH]; intros index H.
  - exists []. repeat split. intros [|i] professor Hi; discriminate.
  - cbn [forallb] in H. apply andb_true_iff in H as [Hp Hrest].
    destruct professor as [| | | | | |props]; try discriminate.
    destruct (createProfessorCard_record props (nat_number (index + 1)) Hp)
      as (row & section & Hcard).
    destruct (IH (S index) Hrest) as (cards & Hcards & Hlen & Hnth).
    eexists (_ :: cards). cbn [cards_from]. rewrite Hcard, Hcards.
    split; [reflexivity|]. split; [cbn [length]; rewrite Hlen; reflexivity|].
    intros [|i] professor Hi; cbn [nth_error] in *.
    + injection Hi as <-. eexists. split; [reflexivity|].
      rewrite Nat.add_0_r. exact Hcard.
    + destruct (Hnth i professor Hi) as (card & Hc & Hcr).
      exists card. split; [exact Hc|].
      replace (index + S i + 1)%nat with (S index + i + 1)%nat by lia.
      exact Hcr.
Qed.

Lemma resultsInfo_number (props : list (jstr * value)) :
  is_number (field props "search_time_ms") = true ->
  exists info, Semantic.resultsInfo (JObject props) = Ok info.
Proof.
  intro H. unfold Semantic.resultsInfo. rewrite !get_field. cbn [bind].
  destruct (field props "search_time_ms"); try discriminate.
  eexists. reflexivity.
Qed.

Lemma no_results_nonempty (professor : value) (rest : list value) :
  Semantic.no_results (JArray (professor :: rest)) = Ok false.
Proof. reflexivity. Qed.
End Cards.

(** C8.  On a response with a non-empty list of N professor records,
    displayResults (of the semantic page) replaces whatever the container
    held by exactly N cards, the card at position i being the one
    createProfessorCard makes for the i-th professor with rank i+1, whose
    heading reads "i+1. name". *)
Theorem displayResults_cards (E : Engine) (props : list (jstr * value))
    (professors : list value) (p : page) :
  field props "results" = JArray professors ->
  professors <> [] ->
  forallb is_professor_record professors = true ->
  is_number (field props "search_time_ms") = true ->
  (Z.of_nat (length professors) < 2 ^ 32)%Z ->
  exists info cards,
    Semantic.displayResults (JObject props) p =
      (Ok tt,
       showResults
         (set_resultsContainer cards (set_resultsInfo_textContent info p))) /\
    length cards = length professors /\
    forall i professor,
      nth_error professors i = Some professor ->
      exists card,
        nth_error cards i = Some card /\
        Semantic.createProfessorCard professor (nat_number (i + 1)) = Ok card /\
        occurs (heading (i + 1) professor) (innerHTML card).
Proof.
  intros Hresults Hne Hrecords Hms Hlen.
  destruct (resultsInfo_number props Hms) as [info Hinfo].
  destruct (cards_from_records professors 0 Hrecords)
    as (cards & Hcards & Hcount & Hnth).
  exists info, cards.
  split; [|split; [exact Hcount|]].
  - rewrite displayResults_render. unfold rendering_of.
    rewrite get_field, Hresults.
    destruct professors as [|professor rest]; [contradiction|].
    rewrite no_results_nonempty, Hinfo, Hcards. reflexivity.
  - intros i professor Hi.
    destruct (Hnth i professor Hi) as (card & Hcard & Hmade).
    cbn [Nat.add] in Hmade.
    exists card. split; [exact Hcard|]. split; [exact Hmade|].
    assert (is_professor_record professor = true) as Hrecord.
    { apply (proj1 (forallb_forall _ _) Hrecords).
      eapply nth_error_In; exact Hi. }
    destruct professor as [| | | | | |fields]; try discriminate.
    destruct (createProfessorCard_record fields (nat_number (i + 1)) Hrecord)
      as (row & section & Hshape).
    rewrite Hshape in Hmade. injection Hmade as <-.
    cbn [innerHTML]. unfold heading. cbn [property].
    rewrite <- Number_toString_nat.
    + apply heading_occurs.
    + assert (i < length professors)%nat
        by (apply nth_error_Some; rewrite Hi; discriminate).
      change (2 ^ 32)%Z with 4294967296%Z in Hlen. unfold two_pow_53. lia.
Qed.

Lemma displayResults_cards_witness :
  exists info first second,
    @Semantic.displayResults Reference.engine (JObject Sample.two_matches)
      (Sample.fresh_page "robot learning" "10") =
    (Ok tt,
     showResults
       (set_resultsContainer [first; second]
          (set_resultsInfo_textContent info
             (Sample.fresh_page "robot learning" "10")))) /\
    occurs (lit "<h3>1. Ada Lovelace</h3>") (innerHTML first) /\
    occurs (lit "<h3>2. Grace Hopper</h3>") (innerHTML second).
Proof.
  destruct (@displayResults_cards Reference.engine Sample.two_matches
              [JObject Sample.bare_professor;
               JObject [(lit "name", JString (lit "Grace Hopper"));
                        (lit "final_score", JNumber (Fin (1 # 4)))]]
              (Sample.fresh_page "robot learning" "10")
              eq_refl ltac:(discriminate) eq_refl eq_refl eq_refl)
    as (info & cards & Hdisplay & Hcount & Hnth).
  destruct cards as [|first [|second [|third cards]]]; try discriminate.
  exists info, first, second. split; [exact Hdisplay|].
  destruct (Hnth 0%nat _ eq_refl) as (c1 & H1 & _ & Ho1).
  destruct (Hnth 1%nat _ eq_refl) as (c2 & H2 & _ & Ho2).
  injection H1 as <-. injection H2 as <-.
  split; [exact Ho1 | exact Ho2].
Defined.

(** ** Determinism of the rendering (C7) *)

Section Determinism.
Context {E : Engine}.





End Determinism.



(** ** Lexical mode reads no semantic field (C4) *)

Section LexicalMode.
Context {E : Engine}.

Lemma jstr_eqb_eq (a b : jstr) : jstr_eqb a b = true <-> a = b.
Proof.
  unfold jstr_eqb. destruct (list_eq_dec N.eq_dec a b); split; intro H;
    congruence.
Qed.

Lemma lookup_without (keys : list jstr) (k : jstr) (props : list (jstr * value)) :
  existsb (jstr_eqb k) keys = false ->
  lookup k (filter (fun kv => negb (existsb (jstr_eqb (fst kv)) keys)) props) =
  lookup k props.
Proof.
  intro Hk. induction props as [|[k' v] props IH]; [reflexivity|].
  cbn [filter fst lookup].
  destruct (existsb (jstr_eqb k') keys) eqn:Hk'; cbn [negb].
  - rewrite IH. destruct (jstr_eqb k k') eqn:Heq; [|reflexivity].
    apply jstr_eqb_eq in Heq. subst k'. congruence.
  - cbn [lookup]. rewrite IH. reflexivity.
Qed.

Lemma get_without (keys : list jstr) (v : value) (k : string) :
  existsb (jstr_eqb (lit k)) keys = false ->
  get (without keys v) k = get v k.
Proof.
  intro Hk. destruct v; try reflexivity.
  cbn [without get]. rewrite lookup_without by exact Hk. reflexivity.
Qed.

(** The card of the BM25 page reads none of the three fields. *)
Lemma professorCard_without (prof : value) :
  Bm25.professorCard (without semantic_only prof) = Bm25.professorCard prof.
Proof.
  unfold Bm25.professorCard.
  rewrite !get_without by reflexivity. reflexivity.
Qed.

Lemma appendCards_same (results results' : list value) (p : page) :
  same_but_semantic_only results results' ->
  Bm25.appendCards results p = Bm25.appendCards results' p.
Proof.
  intro H. revert p.
  induction H as [|a b results results' Hab _ IH]; intro p; [reflexivity|].
  cbn [Bm25.appendCards]. unfold and_then, lift, update.
  rewrite <- (professorCard_without a), Hab, professorCard_without.
  destruct (Bm25.professorCard b); [apply IH | reflexivity].
Qed.

Lemma no_results_same (results results' : list value) :
  same_but_semantic_only results results' ->
  Bm25.no_results (JArray results) = Bm25.no_results (JArray results').
Proof.
  intro H. unfold Bm25.no_results. cbn [truthy].
  change (get (JArray results) "length")
    with (Ok (JNumber (nat_number (length results)))).
  change (get (JArray results') "length")
    with (Ok (JNumber (nat_number (length results')))).
  rewrite (Forall2_length H). reflexivity.
Qed.

Lemma resultsInfo_same (results results' : value) (fields : list (jstr * value)) :
  Bm25.resultsInfo (JObject ((lit "results", results) :: fields)) =
  Bm25.resultsInfo (JObject ((lit "results", results') :: fields)).
Proof. reflexivity. Qed.
End LexicalMode.

(** C4.  In lexical mode the composite is avg_similarity itself, whatever the
    recency, activity and citation sub-scores are (the composer as the
    specification gives it); and the BM25 page reads none of
    [recency_weight], [activity_bonus] and [citation_impact]: two responses
    whose results differ at most in these fields are displayed alike. *)
Theorem lexical_mode_isolation (E : Engine) (card card' : Ranking.ScoreCard)
    (fields : list (jstr * value)) (results results' : list value) (p : page) :
  Ranking.avg_similarity card = Ranking.avg_similarity card' ->
  same_but_semantic_only results results' ->
  Ranking.compose card Ranking.lexical = Ranking.avg_similarity card /\
  Ranking.compose card Ranking.lexical = Ranking.compose card' Ranking.lexical /\
  Bm25.displayResults (JObject ((lit "results", JArray results) :: fields)) p =
  Bm25.displayResults (JObject ((lit "results", JArray results') :: fields)) p.
Proof.
  intros Havg Hsame. split; [reflexivity|]. split; [exact Havg|].
  unfold Bm25.displayResults, and_then, lift, update.
  change (get (JObject ((lit "results", JArray results) :: fields)) "results")
    with (Ok (JArray results)).
  change (get (JObject ((lit "results", JArray results') :: fields)) "results")
    with (Ok (JArray results')).
  cbv beta iota. rewrite (no_results_same Hsame).
  rewrite (resultsInfo_same (JArray results) (JArray results') fields).
  destruct (Bm25.no_results (JArray results')) as [[|] | m]; try reflexivity.
  destruct (Bm25.resultsInfo (JObject ((lit "results", JArray results') :: fields)))
    as [info | m]; [|reflexivity].
  unfold Bm25.forEach. rewrite (appendCards_same _ Hsame). reflexivity.
Qed.

Lemma lexical_mode_isolation_witness :
  Ranking.compose (Sample.lexical_card (9 # 10) (3 # 50) (1 # 5)) Ranking.lexical =
    (25 # 2)%Q /\
  @Bm25.displayResults Reference.engine
    (JObject ((lit "results",
               JArray [Sample.lexical_hit (9 # 10) (3 # 50) (1 # 5)])
              :: Sample.lexical_fields))
    (Sample.fresh_page "grasp" "") =
  @Bm25.displayResults Reference.engine
    (JObject ((lit "results", JArray [Sample.lexical_hit 0 0 0])
              :: Sample.lexical_fields))
    (Sample.fresh_page "grasp" "").
Proof.
  assert (same_but_semantic_only
            [Sample.lexical_hit (9 # 10) (3 # 50) (1 # 5)]
            [Sample.lexical_hit 0 0 0]) as Hsame
    by (constructor; [reflexivity | constructor]).
  destruct (@lexical_mode_isolation Reference.engine
              (Sample.lexical_card (9 # 10) (3 # 50) (1 # 5))
              (Sample.lexical_card 0 0 0)
              Sample.lexical_fields _ _ (Sample.fresh_page "grasp" "")
              eq_refl Hsame) as (Havg & _ & Hdisplay).
  split; [exact Havg | exact Hdisplay].
Defined.

(** ** Binary64 rounding

    The rounding of the reference engine is monotone, keeps the integers up
    to 2^53 and keeps what it returns: it satisfies [RoundLaws]. *)

Module Binary64.

Import Reference.

Section Rounding.
Local Open Scope Q_scope.

Lemma two_pow_pos (e : Z) : 0 < two_pow e.
Proof. apply Qpower_0_lt. reflexivity. Qed.

Lemma two_pow_le (a b : Z) : (a <= b)%Z -> two_pow a <= two_pow b.
Proof. intro H. apply Qpower_le_compat_l; [exact H | discriminate]. Qed.

Lemma two_pow_lt_inv (a b : Z) : two_pow a < two_pow b -> (a < b)%Z.
Proof. intro H. apply (Qpower_lt_compat_l_inv 2); [exact H | reflexivity]. Qed.

Lemma two_pow_add (a b : Z) : two_pow (a + b) == two_pow a * two_pow b.
Proof. apply Qpower_plus. discriminate. Qed.

Lemma two_pow_Z (e : Z) : (0 <= e)%Z -> two_pow e == inject_Z (2 ^ e).
Proof. intro H. symmetry. apply (Zpower_Qpower 2 e H). Qed.

Lemma two_pow_succ (e : Z) : two_pow (e + 1) == 2 * two_pow e.
Proof. rewrite two_pow_add. change (two_pow 1) with 2. ring. Qed.

(** A positive rational lies between the powers of two that the sizes of
    its numerator and denominator give. *)
Lemma log2_bounds (q : Q) :
  0 < q ->
  let k := (Z.log2 (Qnum q) - Z.log2 (Zpos (Qden q)))%Z in
  two_pow (k - 1) < q /\ q < two_pow (k + 1).
Proof.
  destruct q as [n d]. intro Hq. cbn [Qnum Qden].
  assert (0 < n)%Z as Hn by (unfold Qlt in Hq; cbn in Hq; lia).
  pose proof (Z.log2_spec n Hn) as [Hn1 Hn2].
  pose proof (Z.log2_spec (Zpos d) (Pos2Z.is_pos d)) as [Hd1 Hd2].
  pose proof (Z.log2_nonneg n) as Ha. pose proof (Z.log2_nonneg (Zpos d)) as Hb.
  set (a := Z.log2 n) in *. set (b := Z.log2 (Zpos d)) in *.
  assert (two_pow a == inject_Z (2 ^ a)) as HA by (apply two_pow_Z; exact Ha).
  assert (two_pow b == inject_Z (2 ^ b)) as HB by (apply two_pow_Z; exact Hb).
  assert (two_pow (a - b - 1) * (2 * two_pow b) == two_pow a) as Hlo.
  { rewrite <- two_pow_succ, <- two_pow_add. f_equiv. lia. }
  assert (two_pow (a - b + 1) * two_pow b == 2 * two_pow a) as Hhi.
  { rewrite <- two_pow_add, <- two_pow_succ. f_equiv. lia. }
  rewrite Z.pow_succ_r in Hn2, Hd2 by assumption.
  pose proof (two_pow_pos (a - b - 1)) as P1.
  pose proof (two_pow_pos (a - b + 1)) as P2.
  pose proof (two_pow_pos b) as P3.
  split.
  - (* 2^(k-1) * d < 2^(k-1) * 2 * 2^b = 2^a <= n *)
    unfold Qlt. cbn [Qnum Qden].
    assert (two_pow (a - b - 1) * inject_Z (Zpos d) < inject_Z n) as H.
    { apply Qlt_le_trans with (two_pow (a - b - 1) * (2 * two_pow b)).
      - apply Qmult_lt_l; [exact P1|]. rewrite HB.
        change 2 with (inject_Z 2). rewrite <- inject_Z_mult, <- Zlt_Qlt. lia.
      - rewrite Hlo, HA, <- Zle_Qle. exact Hn1. }
    unfold Qlt in H. cbn [Qnum Qden inject_Z Qmult] in H.
    rewrite Z.mul_1_r in H. rewrite Pos.mul_1_r in H. exact H.
  - unfold Qlt. cbn [Qnum Qden].
    assert (inject_Z n < two_pow (a - b + 1) * inject_Z (Zpos d)) as H.
    { apply Qlt_le_trans with (two_pow (a - b + 1) * two_pow b).
      - rewrite Hhi, HA. change 2 with (inject_Z 2).
        rewrite <- inject_Z_mult, <- Zlt_Qlt. lia.
      - apply Qmult_le_l; [exact P2|]. rewrite HB, <- Zle_Qle. exact Hd1. }
    unfold Qlt in H. cbn [Qnum Qden inject_Z Qmult] in H.
    rewrite Z.mul_1_r in H. rewrite Pos.mul_1_r in H. exact H.
Qed.

Lemma floor_log2_spec (q : Q) :
  0 < q -> two_pow (floor_log2 q) <= q /\ q < two_pow (floor_log2 q + 1).
Proof.
  intro Hq. destruct (log2_bounds Hq) as [Hlo Hhi]. unfold floor_log2.
  set (k := (Z.log2 (Qnum q) - Z.log2 (Zpos (Qden q)))%Z) in *.
  destruct (Qle_bool (two_pow k) q) eqn:Hk.
  - apply Qle_bool_iff in Hk. split; assumption.
  - apply Qle_bool_false in Hk. split; [apply Qlt_le_weak; exact Hlo|].
    replace (k - 1 + 1)%Z with k by lia. exact Hk.
Qed.

Lemma floor_log2_unique (q : Q) (k : Z) :
  0 < q -> two_pow k <= q -> q < two_pow (k + 1) -> floor_log2 q = k.
Proof.
  intros Hq Hlo Hhi. destruct (floor_log2_spec Hq) as [Flo Fhi].
  pose proof (@two_pow_lt_inv _ _ (Qle_lt_trans _ _ _ Hlo Fhi)).
  pose proof (@two_pow_lt_inv _ _ (Qle_lt_trans _ _ _ Flo Hhi)).
  lia.
Qed.

Lemma floor_log2_le (x y : Q) :
  0 < x -> x <= y -> (floor_log2 x <= floor_log2 y)%Z.
Proof.
  intros Hx Hxy.
  destruct (floor_log2_spec Hx) as [Xlo _].
  destruct (floor_log2_spec (Qlt_le_trans _ _ _ Hx Hxy)) as [_ Yhi].
  pose proof (@two_pow_lt_inv _ _
                (Qle_lt_trans _ _ _ (Qle_trans _ _ _ Xlo Hxy) Yhi)).
  lia.
Qed.

Lemma floor_log2_compat (x y : Q) :
  0 < x -> x == y -> floor_log2 x = floor_log2 y.
Proof.
  intros Hx Hxy. symmetry. destruct (floor_log2_spec Hx) as [Xlo Xhi].
  apply floor_log2_unique; rewrite <- Hxy; assumption.
Qed.

(** Rounding to the nearest integer. *)
Lemma round_half_even_compat (x y : Q) :
  x == y -> round_half_even x = round_half_even y.
Proof.
  intro H. unfold round_half_even.
  rewrite (Qfloor_comp x y H).
  assert ((x - inject_Z (Qfloor y) ?= 1 # 2) = (y - inject_Z (Qfloor y) ?= 1 # 2))
    as -> by (apply Qcompare_comp; [rewrite H|]; reflexivity).
  reflexivity.
Qed.

Lemma round_half_even_Z (m : Z) : round_half_even (inject_Z m) = m.
Proof.
  unfold round_half_even. rewrite Qfloor_Z.
  assert ((inject_Z m - inject_Z m ?= 1 # 2) = Lt) as ->
    by (apply (proj1 (Qlt_alt _ _)); ring_simplify; reflexivity).
  reflexivity.
Qed.

Lemma round_half_even_range (x : Q) :
  (Qfloor x <= round_half_even x <= Qfloor x + 1)%Z.
Proof.
  unfold round_half_even.
  destruct (x - inject_Z (Qfloor x) ?= 1 # 2); [destruct (Z.even _)| |]; lia.
Qed.

Lemma round_half_even_le (x y : Q) :
  x <= y -> (round_half_even x <= round_half_even y)%Z.
Proof.
  intro Hxy. pose proof (Qfloor_resp_le _ _ Hxy) as Hf.
  pose proof (round_half_even_range x) as Rx.
  pose proof (round_half_even_range y) as Ry.
  destruct (Z.eq_dec (Qfloor x) (Qfloor y)) as [Heq | Hne]; [|lia].
  unfold round_half_even in *. rewrite <- Heq in *.
  set (f := Qfloor x) in *.
  assert (x - inject_Z f <= y - inject_Z f) as Hd by lra.
  destruct (x - inject_Z f ?= 1 # 2) eqn:Cx;
    destruct (y - inject_Z f ?= 1 # 2) eqn:Cy;
    try (destruct (Z.even f)); try lia; exfalso;
    repeat match goal with
      | H : (_ ?= _) = Eq |- _ => apply Qeq_alt in H
      | H : (_ ?= _) = Lt |- _ => apply Qlt_alt in H
      | H : (_ ?= _) = Gt |- _ => apply Qgt_alt in H
      end; lra.
Qed.

Lemma exponent_min (x : Q) : (-1074 <= exponent x)%Z.
Proof. unfold exponent. lia. Qed.

Lemma exponent_le (x y : Q) : 0 < x -> x <= y -> (exponent x <= exponent y)%Z.
Proof.
  intros Hx Hxy. pose proof (floor_log2_le Hx Hxy). unfold exponent. lia.
Qed.

Lemma exponent_compat (x y : Q) : 0 < x -> x == y -> exponent x = exponent y.
Proof.
  intros Hx Hxy. unfold exponent. rewrite (floor_log2_compat Hx Hxy). reflexivity.
Qed.

(** Division by a power of two. *)
Lemma scaled_le (x y : Q) (e : Z) : x <= y * two_pow e -> x / two_pow e <= y.
Proof.
  intro H. apply Qle_shift_div_r; [apply two_pow_pos | exact H].
Qed.

Lemma le_scaled (x y : Q) (e : Z) : x * two_pow e <= y -> x <= y / two_pow e.
Proof.
  intro H. apply Qle_shift_div_l; [apply two_pow_pos | exact H].
Qed.

Lemma nearest_upper (x : Q) : 0 < x -> nearest x <= two_pow (exponent x + 53).
Proof.
  intro Hx. destruct (floor_log2_spec Hx) as [_ Hhi]. unfold nearest.
  set (e := exponent x).
  assert (floor_log2 x + 1 <= e + 53)%Z as He by (unfold e, exponent; lia).
  rewrite two_pow_add, (Qmult_comm (two_pow e)).
  apply Qmult_le_compat_r; [|apply Qlt_le_weak, two_pow_pos].
  rewrite (@two_pow_Z 53) by lia. rewrite <- Zle_Qle.
  rewrite <- (round_half_even_Z (2 ^ 53)). apply round_half_even_le.
  rewrite <- (@two_pow_Z 53) by lia. apply scaled_le.
  rewrite <- two_pow_add, Z.add_comm.
  apply Qlt_le_weak, Qlt_le_trans with (two_pow (floor_log2 x + 1));
    [exact Hhi | apply two_pow_le; exact He].
Qed.

Lemma nearest_lower (x : Q) :
  0 < x -> (-1074 < exponent x)%Z -> two_pow (exponent x + 52) <= nearest x.
Proof.
  intros Hx Hn. destruct (floor_log2_spec Hx) as [Hlo _]. unfold nearest.
  set (e := exponent x) in *.
  assert (e + 52 = floor_log2 x)%Z as He by (unfold e, exponent in *; lia).
  rewrite two_pow_add, (Qmult_comm (two_pow e)).
  apply Qmult_le_compat_r; [|apply Qlt_le_weak, two_pow_pos].
  rewrite (@two_pow_Z 52) by lia. rewrite <- Zle_Qle.
  rewrite <- (round_half_even_Z (2 ^ 52)). apply round_half_even_le.
  rewrite <- (@two_pow_Z 52) by lia. apply le_scaled.
  rewrite <- two_pow_add, Z.add_comm, He. exact Hlo.
Qed.

Lemma nearest_le (x y : Q) : 0 < x -> x <= y -> nearest x <= nearest y.
Proof.
  intros Hx Hxy. assert (0 < y) as Hy by (apply Qlt_le_trans with x; assumption).
  pose proof (exponent_le Hx Hxy) as He.
  destruct (Z.eq_dec (exponent x) (exponent y)) as [Heq | Hne].
  - unfold nearest. rewrite Heq.
    apply Qmult_le_compat_r; [|apply Qlt_le_weak, two_pow_pos].
    rewrite <- Zle_Qle. apply round_half_even_le.
    apply Qmult_le_compat_r; [exact Hxy|].
    apply Qlt_le_weak, Qinv_lt_0_compat, two_pow_pos.
  - pose proof (exponent_min x).
    apply Qle_trans with (two_pow (exponent x + 53)); [apply nearest_upper; exact Hx|].
    apply Qle_trans with (two_pow (exponent y + 52));
      [apply two_pow_le; lia | apply nearest_lower; [exact Hy | lia]].
Qed.

Lemma nearest_nonneg (x : Q) : 0 < x -> 0 <= nearest x.
Proof.
  intro Hx. unfold nearest.
  apply Qmult_le_0_compat; [|apply Qlt_le_weak, two_pow_pos].
  change 0 with (inject_Z 0). rewrite <- Zle_Qle.
  rewrite <- (round_half_even_Z 0). apply round_half_even_le.
  apply Qlt_le_weak, Qlt_shift_div_l; [apply two_pow_pos|].
  rewrite Qmult_0_l. exact Hx.
Qed.

Lemma nearest_compat (x y : Q) : 0 < x -> x == y -> nearest x == nearest y.
Proof.
  intros Hx Hxy. unfold nearest. rewrite (exponent_compat Hx Hxy).
  rewrite (@round_half_even_compat (x / two_pow (exponent y)) (y / two_pow (exponent y)))
    by (rewrite Hxy; reflexivity).
  reflexivity.
Qed.

(** A multiple of a power of two that is not below the exponent of [y] is
    kept by the rounding. *)
Lemma nearest_exact (y : Q) (m e : Z) :
  0 < y -> y == inject_Z m * two_pow e -> (exponent y <= e)%Z -> nearest y == y.
Proof.
  intros Hy Hm He. unfold nearest. set (ey := exponent y) in *.
  assert (two_pow e == two_pow (e - ey) * two_pow ey) as Hsplit
    by (rewrite <- two_pow_add; f_equiv; lia).
  assert (y / two_pow ey == inject_Z (m * 2 ^ (e - ey))) as Hint.
  { rewrite inject_Z_mult, <- (@two_pow_Z (e - ey)) by lia.
    rewrite Hm, Hsplit. field.
    intro H0. pose proof (two_pow_pos ey) as P. rewrite H0 in P. discriminate. }
  rewrite (round_half_even_compat Hint), round_half_even_Z.
  rewrite inject_Z_mult, <- (@two_pow_Z (e - ey)) by lia.
  rewrite Hm, Hsplit. ring.
Qed.

Lemma nearest_representable (x : Q) :
  0 < x -> 0 < nearest x ->
  exists m e, nearest x == inject_Z m * two_pow e /\
              (exponent (nearest x) <= e)%Z.
Proof.
  intros Hx Hr. pose proof (nearest_upper Hx) as Hup.
  pose proof (exponent_min x) as Hmin.
  destruct (Qlt_le_dec (nearest x) (two_pow (exponent x + 53))) as [Hlt | Hge].
  - exists (round_half_even (x / two_pow (exponent x))), (exponent x).
    split; [reflexivity|].
    destruct (floor_log2_spec Hr) as [Hlo _].
    pose proof (@two_pow_lt_inv _ _ (Qle_lt_trans _ _ _ Hlo Hlt)).
    unfold exponent at 1. lia.
  - assert (nearest x == two_pow (exponent x + 53)) as Heq
      by (apply Qle_antisym; assumption).
    exists (2 ^ 52)%Z, (exponent x + 1)%Z. split.
    + rewrite Heq, <- (@two_pow_Z 52), <- two_pow_add by lia. f_equiv. lia.
    + assert (floor_log2 (nearest x) = exponent x + 53)%Z as Hfl.
      { apply floor_log2_unique; [exact Hr | rewrite Heq; apply Qle_refl |].
        rewrite Heq. apply Qpower_lt_compat_l; [lia | reflexivity]. }
      unfold exponent at 1. rewrite Hfl. lia.
Qed.

Lemma nearest_idempotent (x : Q) :
  0 < x -> 0 < nearest x -> nearest (nearest x) == nearest x.
Proof.
  intros Hx Hr. destruct (nearest_representable Hx Hr) as (m & e & Hm & He).
  exact (nearest_exact Hr Hm He).
Qed.

(** The three cases of the rounding. *)
Lemma round_zero (q : Q) : q == 0 -> round_binary64 q = Fin 0.
Proof.
  intro H. unfold round_binary64.
  rewrite (proj2 (Qeq_bool_iff q 0) H). reflexivity.
Qed.

Lemma round_positive (q : Q) :
  0 < q ->
  round_binary64 q =
  if Qle_bool (two_pow 1024) (nearest (Qabs q)) then Infinity
  else Fin (Qred (nearest (Qabs q))).
Proof.
  intro H. unfold round_binary64.
  assert (Qeq_bool q 0 = false) as ->.
  { destruct (Qeq_bool q 0) eqn:H0; [|reflexivity].
    apply Qeq_bool_iff in H0. rewrite H0 in H. discriminate. }
  rewrite (proj2 (Qle_bool_false q 0) H). reflexivity.
Qed.

Lemma round_negative (q : Q) :
  q < 0 ->
  round_binary64 q =
  if Qle_bool (two_pow 1024) (nearest (Qabs q)) then NegInfinity
  else Fin (Qred (- nearest (Qabs q))).
Proof.
  intro H. unfold round_binary64.
  assert (Qeq_bool q 0 = false) as ->.
  { destruct (Qeq_bool q 0) eqn:H0; [|reflexivity].
    apply Qeq_bool_iff in H0. rewrite H0 in H. discriminate. }
  rewrite (proj2 (Qle_bool_iff q 0) (Qlt_le_weak _ _ H)). reflexivity.
Qed.

Lemma Qred_zero (r : Q) : r == 0 -> Qred r = 0.
Proof. intro H. exact (Qred_complete r 0 H). Qed.

Lemma Qred_opp_zero (r : Q) : r == 0 -> Qred (- r) = 0.
Proof. intro H. apply (Qred_complete (- r) 0). rewrite H. reflexivity. Qed.

Lemma overflow_compat (r r' : Q) :
  r == r' -> Qle_bool (two_pow 1024) r = Qle_bool (two_pow 1024) r'.
Proof. intro H. rewrite H. reflexivity. Qed.

(** Rounding a binary64 value gives the value back. *)
Lemma round_binary64_again (x y : Q) :
  round_binary64 x = Fin y -> round_binary64 y = Fin y.
Proof.
  intro H.
  destruct (Q_dec x 0) as [[Hneg | Hpos] | Hzero].
  - rewrite (round_negative Hneg) in H.
    assert (0 < Qabs x) as Ha by (rewrite Qabs_neg; lra).
    set (r := nearest (Qabs x)) in *.
    destruct (Qle_bool (two_pow 1024) r) eqn:Hover; [discriminate|].
    assert (y = Qred (- r)) as -> by congruence. clear H.
    pose proof (nearest_nonneg Ha) as Hr. fold r in Hr.
    destruct (Qlt_le_dec 0 r) as [Hr0 | Hr0].
    + assert (Qred (- r) < 0) as Hy by (rewrite Qred_correct; lra).
      assert (nearest (Qabs (Qred (- r))) == r) as Hsame.
      { assert (Qabs (Qred (- r)) == r) as Habs
          by (rewrite Qabs_neg by lra; rewrite Qred_correct; ring).
        assert (0 < Qabs (Qred (- r))) as Hpos by (rewrite Habs; exact Hr0).
        rewrite (nearest_compat Hpos Habs). exact (nearest_idempotent Ha Hr0). }
      rewrite (round_negative Hy), (overflow_compat Hsame), Hover.
      f_equal. apply Qred_complete. rewrite Hsame. reflexivity.
    + assert (r == 0) as Hz by lra.
      rewrite (Qred_opp_zero Hz). reflexivity.
  - rewrite (round_positive Hpos) in H.
    assert (0 < Qabs x) as Ha by (rewrite Qabs_pos; lra).
    set (r := nearest (Qabs x)) in *.
    destruct (Qle_bool (two_pow 1024) r) eqn:Hover; [discriminate|].
    assert (y = Qred r) as -> by congruence. clear H.
    pose proof (nearest_nonneg Ha) as Hr. fold r in Hr.
    destruct (Qlt_le_dec 0 r) as [Hr0 | Hr0].
    + assert (0 < Qred r) as Hy by (rewrite Qred_correct; lra).
      assert (nearest (Qabs (Qred r)) == r) as Hsame.
      { assert (Qabs (Qred r) == r) as Habs
          by (rewrite Qabs_pos by lra; apply Qred_correct).
        assert (0 < Qabs (Qred r)) as Hpos' by (rewrite Habs; exact Hr0).
        rewrite (nearest_compat Hpos' Habs). exact (nearest_idempotent Ha Hr0). }
      rewrite (round_positive Hy), (overflow_compat Hsame), Hover.
      f_equal. apply Qred_complete. exact Hsame.
    + assert (r == 0) as Hz by lra.
      rewrite (Qred_zero Hz). reflexivity.
  - rewrite (round_zero Hzero) in H. assert (y = 0) as -> by congruence.
    reflexivity.
Qed.

(** The integers up to 2^53 are binary64 values. *)
Lemma nearest_integer (n : Z) :
  (0 < n <= two_pow_53)%Z -> nearest (inject_Z n) == inject_Z n.
Proof.
  intros [Hn0 Hn]. unfold two_pow_53 in Hn.
  assert (0 < inject_Z n) as Hpos by (change 0 with (inject_Z 0); rewrite <- Zlt_Qlt; exact Hn0).
  destruct (Z.eq_dec n 9007199254740992) as [-> | Hne].
  - apply (@nearest_exact _ (2 ^ 52) 1); [exact Hpos | reflexivity |].
    vm_compute. discriminate.
  - apply (@nearest_exact _ n 0); [exact Hpos | |].
    + change (two_pow 0) with 1. ring.
    + destruct (floor_log2_spec Hpos) as [Hlo _].
      assert (inject_Z n < two_pow 53) as Hlt.
      { rewrite (@two_pow_Z 53) by lia. rewrite <- Zlt_Qlt.
        change (2 ^ 53)%Z with 9007199254740992%Z. lia. }
      pose proof (@two_pow_lt_inv _ _ (Qle_lt_trans _ _ _ Hlo Hlt)).
      unfold exponent. lia.
Qed.

Lemma Qred_integer (n : Z) : Qred (inject_Z n) = inject_Z n.
Proof. apply Qred_identity. cbn [Qnum Qden inject_Z]. apply Z.gcd_1_r. Qed.

Lemma round_binary64_integer (z : Z) :
  (Z.abs z <= two_pow_53)%Z -> round_binary64 (inject_Z z) = Fin (inject_Z z).
Proof.
  intro Hz. destruct (Z.eq_dec z 0) as [-> | Hne]; [reflexivity|].
  assert (nearest (Qabs (inject_Z z)) == inject_Z (Z.abs z)) as Hexact.
  { change (Qabs (inject_Z z)) with (inject_Z (Z.abs z)).
    apply nearest_integer. lia. }
  assert (Qle_bool (two_pow 1024) (nearest (Qabs (inject_Z z))) = false) as Hover.
  { rewrite (overflow_compat Hexact). apply Qle_bool_false.
    rewrite (@two_pow_Z 1024) by lia. rewrite <- Zlt_Qlt.
    apply Z.le_lt_trans with two_pow_53; [exact Hz | reflexivity]. }
  destruct (Z.lt_total z 0) as [Hneg | [Hzero | Hpos]]; [|contradiction|].
  - assert (inject_Z z < 0) as Hq
      by (change 0 with (inject_Z 0); rewrite <- Zlt_Qlt; exact Hneg).
    rewrite (round_negative Hq), Hover. f_equal.
    transitivity (Qred (inject_Z z)); [|apply Qred_integer].
    apply Qred_complete. rewrite Hexact, <- inject_Z_opp. f_equiv. lia.
  - assert (0 < inject_Z z) as Hq
      by (change 0 with (inject_Z 0); rewrite <- Zlt_Qlt; exact Hpos).
    rewrite (round_positive Hq), Hover. f_equal.
    transitivity (Qred (inject_Z z)); [|apply Qred_integer].
    apply Qred_complete. rewrite Hexact. f_equiv. lia.
Qed.

(** Rounding is monotone. *)
Lemma leb_above (r r' : Q) :
  r <= r' ->
  num_leb
    (if Qle_bool (two_pow 1024) r then Infinity else Fin (Qred r))
    (if Qle_bool (two_pow 1024) r' then Infinity else Fin (Qred r')) = true.
Proof.
  intro H. destruct (Qle_bool (two_pow 1024) r') eqn:Hr'.
  - destruct (Qle_bool (two_pow 1024) r); reflexivity.
  - apply Qle_bool_false in Hr'.
    assert (Qle_bool (two_pow 1024) r = false) as ->
      by (apply Qle_bool_false; lra).
    cbn [num_leb]. apply Qle_bool_iff. rewrite !Qred_correct. exact H.
Qed.

Lemma leb_below (r r' : Q) :
  r' <= r ->
  num_leb
    (if Qle_bool (two_pow 1024) r then NegInfinity else Fin (Qred (- r)))
    (if Qle_bool (two_pow 1024) r' then NegInfinity else Fin (Qred (- r'))) = true.
Proof.
  intro H. destruct (Qle_bool (two_pow 1024) r) eqn:Hr.
  - destruct (Qle_bool (two_pow 1024) r'); reflexivity.
  - apply Qle_bool_false in Hr.
    assert (Qle_bool (two_pow 1024) r' = false) as ->
      by (apply Qle_bool_false; lra).
    cbn [num_leb]. apply Qle_bool_iff. rewrite !Qred_correct. lra.
Qed.

Lemma leb_across (r r' : Q) :
  0 <= r -> 0 <= r' ->
  num_leb
    (if Qle_bool (two_pow 1024) r then NegInfinity else Fin (Qred (- r)))
    (if Qle_bool (two_pow 1024) r' then Infinity else Fin (Qred r')) = true /\
  num_leb
    (if Qle_bool (two_pow 1024) r then NegInfinity else Fin (Qred (- r)))
    (Fin 0) = true /\
  num_leb (Fin 0)
    (if Qle_bool (two_pow 1024) r' then Infinity else Fin (Qred r')) = true.
Proof.
  intros Hr Hr'.
  destruct (Qle_bool (two_pow 1024) r); destruct (Qle_bool (two_pow 1024) r');
    repeat split; cbn [num_leb]; try reflexivity;
    apply Qle_bool_iff; rewrite ?Qred_correct; lra.
Qed.

Lemma round_binary64_monotone (x y : Q) :
  x <= y -> num_leb (round_binary64 x) (round_binary64 y) = true.
Proof.
  intro Hxy.
  destruct (Q_dec x 0) as [[Hx | Hx] | Hx];
    destruct (Q_dec y 0) as [[Hy | Hy] | Hy];
    try (exfalso; lra);
    try rewrite (round_negative Hx); try rewrite (round_positive Hx);
    try rewrite (round_zero Hx);
    try rewrite (round_negative Hy); try rewrite (round_positive Hy);
    try rewrite (round_zero Hy).
  - assert (0 < Qabs y) as Ha by (rewrite Qabs_neg; lra).
    apply leb_below, nearest_le; [exact Ha|].
    rewrite !Qabs_neg by lra. lra.
  - assert (0 < Qabs x) as Ha by (rewrite Qabs_neg; lra).
    assert (0 < Qabs y) as Hb by (rewrite Qabs_pos; lra).
    apply leb_across; apply nearest_nonneg; assumption.
  - assert (0 < Qabs x) as Ha by (rewrite Qabs_neg; lra).
    apply (leb_across (nearest_nonneg Ha) (nearest_nonneg Ha)).
  - assert (0 < Qabs x) as Ha by (rewrite Qabs_pos; lra).
    apply leb_above, nearest_le; [exact Ha|].
    rewrite !Qabs_pos by lra. exact Hxy.
  - assert (0 < Qabs y) as Hb by (rewrite Qabs_pos; lra).
    apply (leb_across (nearest_nonneg Hb) (nearest_nonneg Hb)).
  - reflexivity.
Qed.

#[export] Instance binary64_laws : RoundLaws engine.
Proof.
  split.
  - exact round_binary64_monotone.
  - exact round_binary64_integer.
  - exact round_binary64_again.
Qed.
End Rounding.

End Binary64.

(** ** The composite and what the gauge derives from it (C6) *)

Section Gauge.
Context {E : Engine} {laws : RoundLaws E}.

Local Open Scope Q_scope.

Lemma clamp_bounds (x : Q) : 0 <= Ranking.clamp x <= 1.
Proof.
  unfold Ranking.clamp.
  destruct (Qle_bool x 0) eqn:H0; [split; discriminate|].
  destruct (Qle_bool 1 x) eqn:H1; [split; discriminate|].
  apply Qle_bool_false in H0, H1. split; apply Qlt_le_weak; assumption.
Qed.

(** Rounding keeps a value between two integers that binary64 holds. *)
Lemma round_between (a b : Z) (x : Q) :
  (Z.abs a <= two_pow_53)%Z -> (Z.abs b <= two_pow_53)%Z ->
  inject_Z a <= x <= inject_Z b ->
  exists y, round x = Fin y /\ inject_Z a <= y <= inject_Z b.
Proof.
  intros Ha Hb [Hax Hxb].
  pose proof (@round_monotone E laws _ _ Hax) as Hlo.
  pose proof (@round_monotone E laws _ _ Hxb) as Hhi.
  rewrite (@round_integer E laws a Ha) in Hlo.
  rewrite (@round_integer E laws b Hb) in Hhi.
  destruct (round x) as [| |y|]; try discriminate.
  exists y. split; [reflexivity|].
  cbn [num_leb] in Hlo, Hhi. apply Qle_bool_iff in Hlo, Hhi. split; assumption.
Qed.

Lemma circumference_finite :
  exists c, Semantic.circumference = Fin c /\ 0 <= c /\ round c = Fin c.
Proof.
  unfold Semantic.circumference, Semantic.radius. cbn [num_mul].
  destruct (@round_between 0%Z 200%Z (Math_PI * 50)) as (c & Hc & Hlo & _);
    [unfold two_pow_53; cbn; lia | unfold two_pow_53; cbn; lia
     | split; discriminate |].
  exists c. rewrite Hc. split; [reflexivity|]. split; [exact Hlo|].
  exact (@round_again E laws _ _ Hc).
Qed.

(** The quantities the gauge derives from a score in [0,1]. *)
Lemma gauge_bounds (q : Q) :
  0 <= q <= 1 ->
  exists offset c percentage,
    Semantic.circumference = Fin c /\
    Semantic.dashOffset (JNumber (Fin q)) = Fin offset /\
    0 <= offset <= c /\
    num_mul (Fin q) (Fin 100) = Fin percentage /\
    0 <= percentage <= 100 /\
    Semantic.percent (JNumber (Fin q)) =
      toFixed_digits 1 (toFixed_scaled 1 percentage) /\
    (toFixed_scaled 1 percentage <= 1000)%N.
Proof.
  intros [Hq0 Hq1].
  destruct circumference_finite as (c & Hc & Hc0 & Hcc).
  destruct (@round_between 0%Z 1%Z (1 - q)) as (g & Hg & Hg0 & Hg1);
    [unfold two_pow_53; cbn; lia | unfold two_pow_53; cbn; lia | |].
  { split.
    - apply (Qplus_le_l _ _ q). ring_simplify. exact Hq1.
    - apply (Qplus_le_l _ _ q). ring_simplify.
      apply (Qplus_le_r _ _ 1) in Hq0. ring_simplify in Hq0. exact Hq0. }
  assert (0 <= c * g <= c) as Hcg.
  { split.
    - apply Qmult_le_0_compat; assumption.
    - apply Qle_trans with (c * 1).
      + apply Qmult_le_compat_nonneg; split;
          [exact Hc0 | apply Qle_refl | exact Hg0 | exact Hg1].
      + rewrite Qmult_1_r. apply Qle_refl. }
  pose proof (@round_monotone E laws (inject_Z 0) _ (proj1 Hcg)) as Hlo.
  pose proof (@round_monotone E laws _ _ (proj2 Hcg)) as Hhi.
  rewrite (@round_integer E laws 0) in Hlo by (unfold two_pow_53; cbn; lia).
  rewrite Hcc in Hhi.
  destruct (@round_between 0%Z 100%Z (q * 100)) as (pc & Hpc & Hp0 & Hp100);
    [unfold two_pow_53; cbn; lia | unfold two_pow_53; cbn; lia | |].
  { split.
    - apply Qmult_le_0_compat; [exact Hq0 | discriminate].
    - change (inject_Z 100) with (1 * 100).
      apply Qmult_le_compat_r; [exact Hq1 | discriminate]. }
  unfold Semantic.dashOffset, Semantic.percent. rewrite Hc.
  cbn [ToNumber num_sub num_mul]. rewrite Hg. cbn [num_mul]. rewrite Hpc.
  destruct (round (c * g)) as [| |offset|]; try discriminate.
  cbn [num_leb] in Hlo, Hhi. apply Qle_bool_iff in Hlo, Hhi.
  exists offset, c, pc.
  split; [reflexivity|]. split; [reflexivity|]. split; [split; assumption|].
  split; [reflexivity|]. split; [split; assumption|].
  assert (Qabs pc == pc) as Habs by (apply Qabs_pos; exact Hp0).
  split.
  - unfold toFixed.
    assert (Qle_bool (inject_Z ten_pow_21) (Qabs pc) = false) as ->.
    { apply Qle_bool_false. rewrite Habs.
      apply Qle_lt_trans with (inject_Z 100); [exact Hp100 | reflexivity]. }
    destruct (Qlt_le_dec pc 0) as [Hneg | _];
      [exfalso; exact (Qlt_not_le _ _ Hneg Hp0) | reflexivity].
  - unfold toFixed_scaled.
    assert (Qfloor (Qabs pc * inject_Z (10 ^ Z.of_nat 1) + (1 # 2)) <= 1000)%Z
      as Hfloor.
    { change 1000%Z with (Qfloor ((2001 # 2))).
      apply Qfloor_resp_le. rewrite Habs.
      change (2001 # 2) with (100 * 10 + (1 # 2)).
      apply Qplus_le_l. apply Qmult_le_compat_r; [exact Hp100 | discriminate]. }
    lia.
Qed.
End Gauge.

(** C6.  In semantic mode the composite of every score card lies in [0,1]
    (the composer as the specification gives it, with its final clamp); and
    for a score in [0,1] what the card derives from it is bounded: the dash
    offset circumference * (1 - final_score) lies between 0 and the full
    arc, and the percentage final_score * 100 between 0 and 100, shown as
    the tenths 0 to 1000 with no sign. *)
Theorem bounded_composite (E : Engine) (laws : RoundLaws E)
    (card : Ranking.ScoreCard) :
  (0 <= Ranking.compose card Ranking.semantic <= 1)%Q /\
  exists offset c percentage : Q,
    Semantic.circumference = Fin c /\
    Semantic.dashOffset
      (JNumber (Fin (Ranking.compose card Ranking.semantic))) = Fin offset /\
    (0 <= offset <= c)%Q /\
    num_mul (Fin (Ranking.compose card Ranking.semantic)) (Fin 100) =
      Fin percentage /\
    (0 <= percentage <= 100)%Q /\
    Semantic.percent (JNumber (Fin (Ranking.compose card Ranking.semantic))) =
      toFixed_digits 1 (toFixed_scaled 1 percentage) /\
    (toFixed_scaled 1 percentage <= 1000)%N.
Proof.
  assert (0 <= Ranking.compose card Ranking.semantic <= 1)%Q as H
    by apply clamp_bounds.
  split; [exact H | exact (gauge_bounds H)].
Qed.

Lemma bounded_composite_witness :
  (Ranking.compose Sample.scenario Ranking.semantic == 68 # 100)%Q /\
  exists offset c percentage : Q,
    @Semantic.circumference Reference.engine = Fin c /\
    @Semantic.dashOffset Reference.engine
      (JNumber (Fin (Ranking.compose Sample.scenario Ranking.semantic))) =
      Fin offset /\
    (0 <= offset <= c)%Q /\
    @num_mul Reference.engine
      (Fin (Ranking.compose Sample.scenario Ranking.semantic)) (Fin 100) =
      Fin percentage /\
    (0 <= percentage <= 100)%Q /\
    @Semantic.percent Reference.engine
      (JNumber (Fin (Ranking.compose Sample.scenario Ranking.semantic))) =
      toFixed_digits 1 (toFixed_scaled 1 percentage) /\
    (toFixed_scaled 1 percentage <= 1000)%N.
Proof.
  split; [reflexivity|].
  exact (proj2 (@bounded_composite Reference.engine Binary64.binary64_laws
                  Sample.scenario)).
Defined.

(** * Further properties of the scripts *)

(** ** The request of a search *)

Section Trimming.

Lemma trim_start_split (s : jstr) :
  exists ws, s = ws ++ trim_start s /\ forallb is_whitespace ws = true.
Proof.
  induction s as [|c s IH]; [exists []; split; reflexivity|].
  cbn [trim_start]. destruct (is_whitespace c) eqn:Hc.
  - destruct IH as (ws & Hs & Hws). exists (c :: ws). split.
    + cbn [app]. f_equal. exact Hs.
    + cbn [forallb]. rewrite Hc, Hws. reflexivity.
  - exists []. split; reflexivity.
Qed.

Lemma trim_start_head (s : jstr) (c : codeunit) (rest : jstr) :
  trim_start s = c :: rest -> is_whitespace c = false.
Proof.
  induction s as [|a s IH]; cbn [trim_start]; [discriminate|].
  destruct (is_whitespace a) eqn:Ha; [exact IH|].
  intro H. injection H as <- _. exact Ha.
Qed.

Lemma whitespace_rev (ws : jstr) :
  forallb is_whitespace ws = true ->
  forallb is_whitespace (List.rev ws) = true.
Proof.
  rewrite !forallb_forall. intros H c Hc. apply H. rewrite in_rev. exact Hc.
Qed.

(** [trim] removes white space from the two ends and nothing else. *)
Lemma trim_split (s : jstr) :
  exists pre post,
    s = pre ++ trim s ++ post /\
    forallb is_whitespace pre = true /\
    forallb is_whitespace post = true /\
    trim_start s = trim s ++ post.
Proof.
  destruct (trim_start_split s) as (pre & Hs & Hpre).
  destruct (trim_start_split (List.rev (trim_start s))) as (ws & Ht & Hws).
  exists pre, (List.rev ws).
  assert (trim_start s = trim s ++ List.rev ws) as Hts.
  { unfold trim. rewrite <- rev_app_distr, <- Ht. symmetry. apply rev_involutive. }
  split; [rewrite <- Hts; exact Hs|]. split; [exact Hpre|].
  split; [apply whitespace_rev; exact Hws | exact Hts].
Qed.

(** What [trim] leaves neither starts nor ends with white space. *)
Lemma trim_ends (s : jstr) :
  trim s <> [] ->
  exists first final,
    hd_error (trim s) = Some first /\ is_whitespace first = false /\
    hd_error (List.rev (trim s)) = Some final /\ is_whitespace final = false.
Proof.
  intro Hne. destruct (trim_split s) as (pre & post & _ & _ & _ & Hts).
  assert (List.rev (trim s) = trim_start (List.rev (trim_start s))) as Hrev
    by (unfold trim; apply rev_involutive).
  remember (trim s) as t eqn:Htrim. destruct t as [|first rest]; [contradiction|].
  remember (List.rev (first :: rest)) as u eqn:Hu. destruct u as [|final rest'].
  { apply (f_equal (@length _)) in Hu. rewrite length_rev in Hu. discriminate. }
  exists first, final. split; [reflexivity|]. split.
  - eapply trim_start_head. exact Hts.
  - split; [reflexivity|]. eapply trim_start_head. symmetry. exact Hrev.
Qed.
End Trimming.

(** X1.  On a query that is not blank, performSearch shows the spinner, hides
    the banner and the results, and issues one request: a POST of JSON to
    /api/search (to /api/bm25/search on the BM25 page) whose [query] is the
    content of the search box without the white space at its two ends; the
    query sent is not empty and neither starts nor ends with white space. *)
Theorem performSearch_request (E : Engine) (p : page) :
  trim (searchInput_value p) <> [] ->
  exists (query pre post : jstr) (first final : codeunit),
    query = trim (searchInput_value p) /\
    searchInput_value p = pre ++ query ++ post /\
    forallb is_whitespace pre = true /\
    forallb is_whitespace post = true /\
    hd_error query = Some first /\ is_whitespace first = false /\
    hd_error (List.rev query) = Some final /\ is_whitespace final = false /\
    Semantic.performSearch p =
      Awaiting (hideResults (hideError (showLoading p)))
        {| url := lit "http://localhost:8000/api/search";
           method := lit "POST";
           content_type := lit "application/json";
           body := JObject [(lit "query", JString query);
                            (lit "top_k", Semantic.topK p);
                            (lit "include_publications", JBool true)] |}
        Semantic.resume /\
    Bm25.performSearch p =
      Awaiting (hideResults (hideError (showLoading p)))
        {| url := lit "http://localhost:8000/api/bm25/search";
           method := lit "POST";
           content_type := lit "application/json";
           body := JObject [(lit "query", JString query);
                            (lit "top_k", JNumber (Fin 20))] |}
        Bm25.resume.
Proof.
  intro Hne.
  destruct (trim_split (searchInput_value p))
    as (pre & post & Hs & Hpre & Hpost & _).
  destruct (@trim_ends (searchInput_value p) Hne)
    as (first & final & Hf & Hfw & Hl & Hlw).
  exists (trim (searchInput_value p)), pre, post, first, final.
  split; [reflexivity|]. repeat (split; [assumption|]).
  unfold Semantic.performSearch, Bm25.performSearch.
  destruct (trim (searchInput_value p)); [contradiction|]. split; reflexivity.
Qed.

Lemma performSearch_request_witness :
  exists q : page,
    in_flight q /\
    @Semantic.performSearch Reference.engine Scenario.earlier_results =
      Awaiting q
        {| url := lit "http://localhost:8000/api/search";
           method := lit "POST";
           content_type := lit "application/json";
           body := JObject [(lit "query", JString (lit "graph neural networks"));
                            (lit "top_k", JNumber (Fin 5));
                            (lit "include_publications", JBool true)] |}
        (@Semantic.resume Reference.engine) /\
    @Bm25.performSearch Reference.engine Scenario.earlier_results =
      Awaiting q
        {| url := lit "http://localhost:8000/api/bm25/search";
           method := lit "POST";
           content_type := lit "application/json";
           body := JObject [(lit "query", JString (lit "graph neural networks"));
                            (lit "top_k", JNumber (Fin 20))] |}
        (@Bm25.resume Reference.engine).
Proof.
  assert (trim (searchInput_value Scenario.earlier_results) <> []) as Hne
    by (vm_compute; discriminate).
  destruct (@performSearch_request Reference.engine Scenario.earlier_results Hne)
    as (query & pre & post & first & final & -> & _ & _ & _ & _ & _ & _ & _ & Hs & Hb).
  exists (hideResults (hideError (showLoading Scenario.earlier_results))).
  split; [repeat split|]. split.
  - rewrite Hs. reflexivity.
  - rewrite Hb. reflexivity.
Defined.

(** ** What the BM25 displayResults does to the page *)

Section LexicalRendering.
Context {E : Engine}.

Lemma lexical_appendCards_cards_from (professors : list value) (p : page) :
  Bm25.appendCards professors p =
  (snd (lexical_cards_from professors),
   set_resultsContainer (resultsContainer p ++ fst (lexical_cards_from professors)) p).
Proof.
  revert p. induction professors as [|prof rest IH]; intro p.
  - cbn [Bm25.appendCards lexical_cards_from fst snd]. unfold ret.
    rewrite container_unchanged. reflexivity.
  - cbn [Bm25.appendCards lexical_cards_from]. unfold and_then, lift, update.
    destruct (Bm25.professorCard prof) as [card | m].
    + rewrite IH. destruct (lexical_cards_from rest) as [cards r].
      cbn [fst snd]. rewrite container_appended. reflexivity.
    + cbn [fst snd]. rewrite container_unchanged. reflexivity.
Qed.

(** The BM25 displayResults is [lexical_render] of a rendering that depends
    on the response alone. *)
Lemma lexical_displayResults_render (data : value) (p : page) :
  Bm25.displayResults data p = lexical_render (lexical_rendering_of data) p.
Proof.
  unfold Bm25.displayResults, lexical_rendering_of, and_then, lift, update.
  destruct (get data "results") as [results | m]; [|reflexivity].
  destruct (Bm25.no_results results) as [[|] | m]; try reflexivity.
  destruct (Bm25.resultsInfo data) as [info | m]; [|reflexivity].
  unfold Bm25.forEach.
  destruct results as [| |b|n|s|professors|props];
    try (cbn [lexical_render no_method lift]; reflexivity).
  rewrite lexical_appendCards_cards_from, cleared_then_appended.
  destruct (lexical_cards_from professors) as [cards [[] | m]]; reflexivity.
Qed.

(** The summary line of the BM25 page. *)
Lemma lexical_resultsInfo_number (props : list (jstr * value)) :
  is_number (field props "search_time_ms") = true ->
  exists ms : number,
    field props "search_time_ms" = JNumber ms /\
    Bm25.resultsInfo (JObject props) =
    Ok (lit "Found " ++ ToString (field props "total_results") ++
        lit " advisors for ^" ++ ToString (field props "query") ++
        lit "^ (" ++ toFixed ms 0 ++ lit "ms)").
Proof.
  intro H. unfold Bm25.resultsInfo. rewrite !get_field. cbn [bind].
  destruct (field props "search_time_ms") as [| | |ms| | |]; try discriminate.
  exists ms. split; reflexivity.
Qed.
End LexicalRendering.

(** ** The course of a search *)

Section Lifecycle.
Context {E : Engine}.

(** Whatever the response, the page is left as by the rendering of some
    outcome, followed by the [catch] and the [finally]. *)
Lemma resume_render (response : fetched) (q : page) :
  exists r : rendering,
    Semantic.resume response q =
    hideLoading
      (match render r q with
       | (Ok _, p') => p'
       | (Throw message, p') =>
           showError (Semantic.search_failed_template message API_BASE_URL) p'
       end).
Proof.
  unfold Semantic.resume, Semantic.receive.
  destruct response as [message | [|] status [data | message]].
  - exists (Failed message). reflexivity.
  - exists (rendering_of data). unfold and_then, lift.
    rewrite displayResults_render. reflexivity.
  - exists (Failed message). reflexivity.
  - exists (Failed (Semantic.api_error_template (decimal status))). reflexivity.
  - exists (Failed (Semantic.api_error_template (decimal status))). reflexivity.
Qed.

Lemma lexical_resume_render (response : fetched) (q : page) :
  exists r : rendering,
    Bm25.resume response q =
    hideLoading
      (match lexical_render r q with
       | (Ok _, p') => p'
       | (Throw message, p') =>
           showError (Bm25.search_failed_template message) p'
       end).
Proof.
  unfold Bm25.resume, Bm25.receive.
  destruct response as [message | [|] status [data | message]].
  - exists (Failed message). reflexivity.
  - exists (lexical_rendering_of data). unfold and_then, lift.
    rewrite lexical_displayResults_render. reflexivity.
  - exists (Failed message). reflexivity.
  - exists (Failed (Bm25.api_error_template (decimal status))). reflexivity.
  - exists (Failed (Bm25.api_error_template (decimal status))). reflexivity.
Qed.

Lemma resume_settled (response : fetched) (q : page) :
  errorMessage_hidden q = true -> resultsSection_hidden q = true ->
  settled (Semantic.resume response q) /\ settled (Bm25.resume response q).
Proof.
  intros He Hr.
  destruct (resume_render response q) as [r ->].
  destruct (lexical_resume_render response q) as [r' ->].
  unfold settled.
  destruct r as [m| |info cards [[]|m]], r' as [m'| |info' cards' [[]|m']];
    destruct q; cbn in *; subst; repeat split.
Qed.

Lemma resume_inputs (response : fetched) (q : page) :
  inputs (Semantic.resume response q) = inputs q /\
  inputs (Bm25.resume response q) = inputs q.
Proof.
  destruct (resume_render response q) as [r ->].
  destruct (lexical_resume_render response q) as [r' ->].
  destruct r as [m| |info cards [[]|m]], r' as [m'| |info' cards' [[]|m']];
    destruct q; split; reflexivity.
Qed.
End Lifecycle.

(** X2.  On a query that is not blank, performSearch leaves the spinner
    showing and the banner and the results section hidden.  Processing a
    response, whatever it is and whatever the page is when it arrives,
    hides the spinner and leaves at least one of the banner and the results
    section showing; exactly one of them shows when neither did as the
    response arrived, which is the case of a single search in flight.  The
    invariant is lost when searches overlap: if a second search starts
    before the first response, and the first request fails and the second
    succeeds, the first response hides the spinner while the second request
    is pending, and after the second response the banner and the results
    both show (shown on the semantic page). *)
Theorem search_settles (E : Engine) (p : page) :
  trim (searchInput_value p) <> [] ->
  (exists (q : page) (r : request),
      Semantic.performSearch p = Awaiting q r Semantic.resume /\ in_flight q) /\
  (exists (q : page) (r : request),
      Bm25.performSearch p = Awaiting q r Bm25.resume /\ in_flight q) /\
  (forall (response : fetched) (q : page),
      loadingSpinner_hidden (Semantic.resume response q) = true /\
      (errorMessage_hidden (Semantic.resume response q) = false \/
       resultsSection_hidden (Semantic.resume response q) = false) /\
      (errorMessage_hidden q = true -> resultsSection_hidden q = true ->
       settled (Semantic.resume response q))) /\
  (forall (response : fetched) (q : page),
      loadingSpinner_hidden (Bm25.resume response q) = true /\
      (errorMessage_hidden (Bm25.resume response q) = false \/
       resultsSection_hidden (Bm25.resume response q) = false) /\
      (errorMessage_hidden q = true -> resultsSection_hidden q = true ->
       settled (Bm25.resume response q))) /\
  (forall (failed : fetched) (message : jstr) (status : N)
          (props : list (jstr * value)) (professors : list value),
      failure failed = Some message ->
      field props "results" = JArray professors ->
      professors <> [] ->
      forallb is_professor_record professors = true ->
      is_number (field props "search_time_ms") = true ->
      exists (q1 q2 : page) (r1 r2 : request),
        Semantic.performSearch p = Awaiting q1 r1 Semantic.resume /\
        Semantic.performSearch q1 = Awaiting q2 r2 Semantic.resume /\
        in_flight q2 /\
        loadingSpinner_hidden (Semantic.resume failed q2) = true /\
        errorMessage_hidden
          (Semantic.resume (Responded true status (Ok (JObject props)))
             (Semantic.resume failed q2)) = false /\
        resultsSection_hidden
          (Semantic.resume (Responded true status (Ok (JObject props)))
             (Semantic.resume failed q2)) = false).
Proof.
  intro Hne.
  split; [|split; [|split; [|split]]].
  - unfold Semantic.performSearch.
    destruct (trim (searchInput_value p)) as [|c query]; [contradiction|].
    do 2 eexists. split; [reflexivity | repeat split].
  - unfold Bm25.performSearch.
    destruct (trim (searchInput_value p)) as [|c query]; [contradiction|].
    do 2 eexists. split; [reflexivity | repeat split].
  - intros response q. split; [|split].
    + destruct (resume_render response q) as [r ->]. reflexivity.
    + destruct (resume_render response q) as [r ->].
      destruct r as [m| |info cards [[]|m]];
        first [left; reflexivity | right; reflexivity].
    + intros He Hr. apply (resume_settled response q He Hr).
  - intros response q. split; [|split].
    + destruct (lexical_resume_render response q) as [r ->]. reflexivity.
    + destruct (lexical_resume_render response q) as [r ->].
      destruct r as [m| |info cards [[]|m]];
        first [left; reflexivity | right; reflexivity].
    + intros He Hr. apply (resume_settled response q He Hr).
  - intros failed message status props professors Hfailed Hresults Hsome
      Hrecords Hms.
    destruct (resultsInfo_number props Hms) as [info Hinfo].
    destruct (cards_from_records professors 0 Hrecords)
      as (cards & Hcards & _ & _).
    assert (forall q : page,
               Semantic.resume (Responded true status (Ok (JObject props))) q =
               hideLoading
                 (showResults
                    (set_resultsContainer cards
                       (set_resultsInfo_textContent info q)))) as Hshown.
    { intro q. unfold Semantic.resume, Semantic.receive, and_then, lift.
      rewrite displayResults_render. unfold rendering_of.
      rewrite get_field, Hresults.
      destruct professors as [|professor rest]; [contradiction|].
      rewrite no_results_nonempty, Hinfo, Hcards. reflexivity. }
    assert (forall q : page,
               Semantic.resume failed q =
               hideLoading
                 (showError
                    (Semantic.search_failed_template message API_BASE_URL) q))
      as Hfails.
    { intro q. destruct failed as [m | [|] code [data | m]];
        cbn [failure] in Hfailed; try discriminate; injection Hfailed as <-;
        reflexivity. }
    destruct (trim (searchInput_value p)) as [|c query] eqn:Htrim;
      [contradiction|].
    exists (hideResults (hideError (showLoading p))),
           (hideResults (hideError (showLoading
              (hideResults (hideError (showLoading p)))))).
    do 2 eexists. unfold Semantic.performSearch.
    cbn [searchInput_value hideResults hideError showLoading
         set_resultsSection_hidden set_errorMessage_hidden
         set_loadingSpinner_hidden].
    rewrite Htrim. split; [reflexivity|]. split; [reflexivity|].
    split; [repeat split|]. rewrite Hshown, Hfails. repeat split.
Qed.

Lemma search_settles_witness :
  settled
    (@Semantic.resume Reference.engine
       (Responded true 200 (Ok (JObject Sample.two_matches)))
       (hideResults (hideError (showLoading Scenario.earlier_results)))) /\
  ~ settled
      (@Semantic.resume Reference.engine
         (Responded true 200 (Ok (JObject Sample.two_matches)))
         (@Semantic.resume Reference.engine (Rejected (lit "Failed to fetch"))
            (hideResults (hideError (showLoading Scenario.earlier_results))))).
Proof.
  assert (trim (searchInput_value Scenario.earlier_results) <> []) as Hne
    by (vm_compute; discriminate).
  destruct (@search_settles Reference.engine Scenario.earlier_results Hne)
    as (_ & _ & Hany & _ & Hoverlap).
  split.
  - apply Hany; reflexivity.
  - destruct (Hoverlap (Rejected (lit "Failed to fetch"))
                (lit "Failed to fetch") 200 Sample.two_matches
                [JObject Sample.bare_professor;
                 JObject [(lit "name", JString (lit "Grace Hopper"));
                          (lit "final_score", JNumber (Fin (1 # 4)))]]
                eq_refl eq_refl ltac:(discriminate) eq_refl eq_refl)
      as (q1 & q2 & r1 & r2 & H1 & H2 & _ & _ & Hbanner & Hresults).
    injection H1 as <- _. injection H2 as <- _.
    intros [_ Hone].
    change (hideResults (hideError (showLoading
              (hideResults (hideError (showLoading Scenario.earlier_results))))))
      with (hideResults (hideError (showLoading Scenario.earlier_results)))
      in Hbanner, Hresults.
    rewrite Hbanner, Hresults in Hone. discriminate.
Defined.

(** X3.  A search never changes the two inputs: the search box and the top-k
    box hold what they held, whether the query was blank, while the request
    is pending, and after the response is processed, whatever it is and
    whatever the page has become in between. *)
Theorem search_keeps_inputs (E : Engine) (p : page) :
  match Semantic.performSearch p with
  | Finished p' => inputs p' = inputs p
  | Awaiting q _ resume =>
      inputs q = inputs p /\
      forall (response : fetched) (q' : page),
        inputs (resume response q') = inputs q'
  end /\
  match Bm25.performSearch p with
  | Finished p' => inputs p' = inputs p
  | Awaiting q _ resume =>
      inputs q = inputs p /\
      forall (response : fetched) (q' : page),
        inputs (resume response q') = inputs q'
  end.
Proof.
  unfold Semantic.performSearch, Bm25.performSearch.
  destruct (trim (searchInput_value p)) as [|c query].
  - split; reflexivity.
  - split; (split; [reflexivity|]); intros response q';
      apply (resume_inputs response q').
Qed.

(** X4.  When the request fails before there is a response to display (the
    fetch is rejected, the status is not a success, or the body is not
    JSON), displayResults is not called: the results area is left as it was,
    the spinner is hidden, and the banner shows Search failed: followed by
    the message of the error, which is API error: and the status for an
    error status; the semantic page adds the hint about the API server. *)
Theorem failed_request (E : Engine) (response : fetched) (message : jstr)
    (q : page) :
  failure response = Some message ->
  Semantic.resume response q = semantic_failure message q /\
  Bm25.resume response q = lexical_failure message q /\
  results_area (Semantic.resume response q) = results_area q /\
  results_area (Bm25.resume response q) = results_area q.
Proof.
  intro H.
  assert (Semantic.resume response q = semantic_failure message q /\
          Bm25.resume response q = lexical_failure message q) as [Hs Hb].
  { destruct response as [m | [|] status [data | m]]; cbn [failure] in H;
      try discriminate; injection H as <-; split; reflexivity. }
  rewrite Hs, Hb. repeat split.
Qed.

Lemma failed_request_witness :
  @Semantic.resume Reference.engine (Responded false 503 (Throw []))
    (hideResults (hideError (showLoading Scenario.earlier_results))) =
  {| searchInput_value := lit "  graph neural networks ";
     topKInput_value := lit "5";
     loadingSpinner_hidden := true;
     errorMessage_textContent :=
       lit "Search failed: API error: 503. Make sure the API server is running at http://localhost:8000";
     errorMessage_hidden := false;
     resultsSection_hidden := true;
     resultsInfo_textContent := lit "Found 1 advisor for ^databases^ (12ms)";
     resultsContainer :=
       [{| className := lit "professor-card";
           innerHTML := lit "<h3>1. Edgar Codd</h3>" |}] |} /\
  errorMessage_textContent
    (@Bm25.resume Reference.engine (Responded false 503 (Throw []))
       (hideResults (hideError (showLoading Scenario.earlier_results)))) =
  lit "Search failed: API error: 503".
Proof.
  destruct (@failed_request Reference.engine (Responded false 503 (Throw []))
              (lit "API error: 503")
              (hideResults (hideError (showLoading Scenario.earlier_results)))
              eq_refl) as (Hs & Hb & _ & _).
  split; [rewrite Hs | rewrite Hb]; reflexivity.
Defined.

(** ** Responses that displayResults cannot render *)

Section Malformed.
Context {E : Engine}.

Lemma createProfessorCard_nullish (professor : value) (rank : number) :
  professor = JNull \/ professor = JUndefined ->
  Semantic.createProfessorCard professor rank =
  Throw (TypeError_message (CannotRead (ToString professor) (lit "final_score"))).
Proof. intros [-> | ->]; reflexivity. Qed.

(** The loop stops at the first professor whose card cannot be made; the
    cards of the professors before it have been appended. *)
Lemma cards_from_until (good : list value) (bad : value) (rest : list value)
    (index : nat) (m : jstr) :
  forallb is_professor_record good = true ->
  (forall rank, Semantic.createProfessorCard bad rank = Throw m) ->
  exists cards,
    cards_from good index = (cards, Ok tt) /\
    cards_from (good ++ bad :: rest) index = (cards, Throw m) /\
    length cards = length good.
Proof.
  intros Hgood Hbad. revert index.
  induction good as [|professor good IH]; intro index.
  - exists []. cbn [app cards_from]. rewrite Hbad. repeat split.
  - cbn [forallb] in Hgood. apply andb_true_iff in Hgood as [Hp Hrest].
    destruct professor as [| | | | | |props]; try discriminate.
    destruct (createProfessorCard_record props (nat_number (index + 1)) Hp)
      as (row & section & Hcard).
    destruct (IH Hrest (S index)) as (cards & Hall & Huntil & Hlen).
    eexists (_ :: cards). cbn [app cards_from]. rewrite Hcard, Hall, Huntil.
    repeat split. cbn [length]. rewrite Hlen. reflexivity.
Qed.

Lemma no_results_some (good : list value) (bad : value) (rest : list value) :
  Semantic.no_results (JArray (good ++ bad :: rest)) = Ok false.
Proof. destruct good; reflexivity. Qed.
End Malformed.

(** X5.  When the response has results but its [search_time_ms] is not a
    number, displayResults (of either page) throws a TypeError before it
    touches the page: the summary line, the cards of an earlier search and
    everything else are left as they were. *)
Theorem displayResults_untimed (E : Engine) (props : list (jstr * value))
    (p : page) :
  Semantic.no_results (field props "results") = Ok false ->
  is_number (field props "search_time_ms") = false ->
  exists message : jstr,
    (no_method "data.search_time_ms.toFixed" (field props "search_time_ms")
       "toFixed" : result jstr) = Throw message /\
    Semantic.displayResults (JObject props) p = (Throw message, p) /\
    Bm25.displayResults (JObject props) p = (Throw message, p).
Proof.
  intros Hsome Hms.
  assert (Bm25.no_results (field props "results") = Ok false) as Hsome'
    by exact Hsome.
  unfold Semantic.displayResults, Bm25.displayResults, and_then, lift.
  rewrite get_results, Hsome, Hsome'.
  unfold Semantic.resultsInfo, Bm25.resultsInfo. rewrite !get_field.
  cbn [bind].
  destruct (field props "search_time_ms"); try discriminate; eexists;
    (split; [reflexivity | split; reflexivity]).
Qed.

Lemma displayResults_untimed_witness :
  @Semantic.displayResults Reference.engine (JObject Scenario.untimed)
    Scenario.earlier_results =
  (Throw (lit "Cannot read properties of undefined (reading 'toFixed')"),
   Scenario.earlier_results) /\
  @Bm25.displayResults Reference.engine (JObject Scenario.untimed)
    Scenario.earlier_results =
  (Throw (lit "Cannot read properties of undefined (reading 'toFixed')"),
   Scenario.earlier_results).
Proof.
  destruct (@displayResults_untimed Reference.engine Scenario.untimed
              Scenario.earlier_results eq_refl eq_refl)
    as (message & Hm & Hs & Hb).
  injection Hm as <-. split; [exact Hs | exact Hb].
Defined.

(** X6.  When a professor of the list is null (or undefined), the semantic
    displayResults throws a TypeError at that professor, after it has
    written the summary line, emptied the container and appended the cards
    of the professors before: those cards stay in the container, the results
    section is not shown, and performSearch reports the TypeError in the
    banner. *)
Theorem displayResults_null_professor (E : Engine) (props : list (jstr * value))
    (good rest : list value) (bad : value) (p : page) :
  field props "results" = JArray (good ++ bad :: rest) ->
  bad = JNull \/ bad = JUndefined ->
  forallb is_professor_record good = true ->
  is_number (field props "search_time_ms") = true ->
  exists (info : jstr) (cards : list element),
    Semantic.resultsInfo (JObject props) = Ok info /\
    cards_from good 0 = (cards, Ok tt) /\
    length cards = length good /\
    Semantic.displayResults (JObject props) p =
      (Throw (TypeError_message (CannotRead (ToString bad) (lit "final_score"))),
       set_resultsContainer cards (set_resultsInfo_textContent info p)) /\
    forall (status : N) (q : page),
      Semantic.resume (Responded true status (Ok (JObject props))) q =
      semantic_failure
        (TypeError_message (CannotRead (ToString bad) (lit "final_score")))
        (set_resultsContainer cards (set_resultsInfo_textContent info q)).
Proof.
  intros Hresults Hbad Hgood Hms.
  destruct (resultsInfo_number props Hms) as [info Hinfo].
  destruct (@cards_from_until _ good bad rest 0 _ Hgood
              (fun rank => createProfessorCard_nullish rank Hbad))
    as (cards & Hall & Huntil & Hlen).
  assert (forall q : page,
             Semantic.displayResults (JObject props) q =
             (Throw (TypeError_message
                       (CannotRead (ToString bad) (lit "final_score"))),
              set_resultsContainer cards (set_resultsInfo_textContent info q)))
    as Hdisplay.
  { intro q. rewrite displayResults_render. unfold rendering_of.
    rewrite get_field, Hresults, no_results_some, Hinfo, Huntil. reflexivity. }
  exists info, cards. repeat (split; [assumption || apply Hdisplay|]).
  intros status q. unfold Semantic.resume, Semantic.receive, and_then, lift.
  rewrite Hdisplay. reflexivity.
Qed.

Lemma displayResults_null_professor_witness :
  exists (info : jstr) (card : element),
    @Semantic.resume Reference.engine
      (Responded true 200 (Ok (JObject Scenario.null_professor)))
      (hideResults (hideError (showLoading Scenario.earlier_results))) =
    {| searchInput_value := lit "  graph neural networks ";
       topKInput_value := lit "5";
       loadingSpinner_hidden := true;
       errorMessage_textContent :=
         lit "Search failed: Cannot read properties of null (reading 'final_score'). Make sure the API server is running at http://localhost:8000";
       errorMessage_hidden := false;
       resultsSection_hidden := true;
       resultsInfo_textContent := info;
       resultsContainer := [card] |}.
Proof.
  destruct (@displayResults_null_professor Reference.engine
              Scenario.null_professor [JObject Sample.bare_professor]
              [JObject Sample.bare_professor] JNull Scenario.earlier_results
              eq_refl (or_introl eq_refl) eq_refl eq_refl)
    as (info & cards & _ & _ & Hlen & _ & Hresume).
  destruct cards as [|card [|second cards]]; try discriminate.
  exists info, card. rewrite Hresume. reflexivity.
Defined.

(** X7.  When [results] is not a list (an object keyed by professor, a
    string, a number) but is truthy and has no [length] of 0, displayResults
    (of either page) passes its guard, writes the summary line, empties the
    container and only then throws, [data.results.forEach] not being a
    function: the cards of an earlier search are gone although nothing is
    displayed. *)
Theorem displayResults_not_a_list (E : Engine) (props : list (jstr * value))
    (p : page) :
  Semantic.no_results (field props "results") = Ok false ->
  (forall professors, field props "results" <> JArray professors) ->
  is_number (field props "search_time_ms") = true ->
  exists info info' : jstr,
    Semantic.resultsInfo (JObject props) = Ok info /\
    Bm25.resultsInfo (JObject props) = Ok info' /\
    Semantic.displayResults (JObject props) p =
      (Throw (TypeError_message (NotAFunction (lit "data.results.forEach"))),
       set_resultsContainer [] (set_resultsInfo_textContent info p)) /\
    Bm25.displayResults (JObject props) p =
      (Throw (TypeError_message (NotAFunction (lit "data.results.forEach"))),
       set_resultsContainer [] (set_resultsInfo_textContent info' p)).
Proof.
  intros Hsome Hlist Hms.
  assert (Bm25.no_results (field props "results") = Ok false) as Hsome'
    by exact Hsome.
  destruct (resultsInfo_number props Hms) as [info Hinfo].
  destruct (lexical_resultsInfo_number props Hms) as (ms & _ & Hinfo').
  do 2 eexists. split; [exact Hinfo|]. split; [exact Hinfo'|].
  rewrite displayResults_render, lexical_displayResults_render.
  unfold rendering_of, lexical_rendering_of.
  rewrite get_field, Hsome, Hsome', Hinfo, Hinfo'.
  destruct (field props "results") as [| |b|n|s|professors|fields];
    try discriminate; try (split; reflexivity).
  exfalso. exact (Hlist professors eq_refl).
Qed.

Lemma displayResults_not_a_list_witness :
  exists info : jstr,
    @Semantic.displayResults Reference.engine (JObject Scenario.keyed)
      Scenario.earlier_results =
    (Throw (lit "data.results.forEach is not a function"),
     {| searchInput_value := lit "  graph neural networks ";
        topKInput_value := lit "5";
        loadingSpinner_hidden := true;
        errorMessage_textContent := lit "Search failed: Failed to fetch";
        errorMessage_hidden := true;
        resultsSection_hidden := false;
        resultsInfo_textContent := info;
        resultsContainer := [] |}).
Proof.
  destruct (@displayResults_not_a_list Reference.engine Scenario.keyed
              Scenario.earlier_results eq_refl ltac:(discriminate) eq_refl)
    as (info & info' & _ & _ & Hs & _).
  exists info. exact Hs.
Defined.

(** ** Displaying twice, and a whole search *)

Section Composition.
Context {E : Engine}.

Lemma render_twice (r : rendering) (p : page) :
  render r (snd (render r p)) = render r p /\
  lexical_render r (snd (lexical_render r p)) = lexical_render r p.
Proof.
  destruct r as [m| |info cards [[]|m]]; destruct p; split; reflexivity.
Qed.
End Composition.

(** X8.  displayResults is idempotent, on both pages: displaying a response
    on the page that displaying the same response has left gives the same
    outcome and the same page.  In particular the cards are not appended a
    second time. *)
Theorem displayResults_idempotent (E : Engine) (data : value) (p : page) :
  Semantic.displayResults data (snd (Semantic.displayResults data p)) =
    Semantic.displayResults data p /\
  Bm25.displayResults data (snd (Bm25.displayResults data p)) =
    Bm25.displayResults data p.
Proof.
  rewrite !displayResults_render, !lexical_displayResults_render.
  split; apply render_twice.
Qed.

(** X9.  A whole search that succeeds on the semantic page.  For a query
    that is not blank and a response with a success status whose results are
    professor records (at least one) and whose [search_time_ms] is a number,
    the page ends with the spinner and the banner hidden (the text of the
    banner is left as it was), the results section shown with the summary
    line of the response and one card per professor, and the two inputs as
    the user left them. *)
Theorem search_succeeds (E : Engine) (p : page) (props : list (jstr * value))
    (professors : list value) (status : N) :
  trim (searchInput_value p) <> [] ->
  field props "results" = JArray professors ->
  professors <> [] ->
  forallb is_professor_record professors = true ->
  is_number (field props "search_time_ms") = true ->
  exists (q : page) (r : request) (info : jstr) (cards : list element),
    Semantic.performSearch p = Awaiting q r Semantic.resume /\
    Semantic.resultsInfo (JObject props) = Ok info /\
    cards_from professors 0 = (cards, Ok tt) /\
    length cards = length professors /\
    Semantic.resume (Responded true status (Ok (JObject props))) q =
      {| searchInput_value := searchInput_value p;
         topKInput_value := topKInput_value p;
         loadingSpinner_hidden := true;
         errorMessage_textContent := errorMessage_textContent p;
         errorMessage_hidden := true;
         resultsSection_hidden := false;
         resultsInfo_textContent := info;
         resultsContainer := cards |}.
Proof.
  intros Hne Hresults Hsome Hrecords Hms.
  destruct (resultsInfo_number props Hms) as [info Hinfo].
  destruct (cards_from_records professors 0 Hrecords)
    as (cards & Hcards & Hcount & _).
  unfold Semantic.performSearch.
  destruct (trim (searchInput_value p)) as [|c query]; [contradiction|].
  do 2 eexists. exists info, cards.
  split; [reflexivity|]. repeat (split; [assumption|]).
  unfold Semantic.resume, Semantic.receive, and_then, lift.
  rewrite displayResults_render. unfold rendering_of.
  rewrite get_field, Hresults.
  destruct professors as [|professor rest]; [contradiction|].
  rewrite no_results_nonempty, Hinfo, Hcards. reflexivity.
Qed.

Lemma search_succeeds_witness :
  exists (q : page) (r : request) (info : jstr) (first second : element),
    @Semantic.performSearch Reference.engine Scenario.earlier_results =
      Awaiting q r (@Semantic.resume Reference.engine) /\
    @Semantic.resume Reference.engine
      (Responded true 200 (Ok (JObject Sample.two_matches))) q =
    {| searchInput_value := lit "  graph neural networks ";
       topKInput_value := lit "5";
       loadingSpinner_hidden := true;
       errorMessage_textContent := lit "Search failed: Failed to fetch";
       errorMessage_hidden := true;
       resultsSection_hidden := false;
       resultsInfo_textContent := info;
       resultsContainer := [first; second] |}.
Proof.
  assert (trim (searchInput_value Scenario.earlier_results) <> []) as Hne
    by (vm_compute; discriminate).
  destruct (@search_succeeds Reference.engine Scenario.earlier_results
              Sample.two_matches
              [JObject Sample.bare_professor;
               JObject [(lit "name", JString (lit "Grace Hopper"));
                        (lit "final_score", JNumber (Fin (1 # 4)))]]
              200 Hne eq_refl ltac:(discriminate) eq_refl eq_refl)
    as (q & r & info & cards & Hsearch & _ & _ & Hlen & Hresume).
  destruct cards as [|first [|second [|third cards]]]; try discriminate.
  exists q, r, info, first, second. split; [exact Hsearch | exact Hresume].
Defined.

(** ** The summary line *)

Section Summary.
Context {E : Engine}.

Lemma ToString_one (total : value) :
  strict_eq total (Fin 1) = true -> ToString total = lit "1".
Proof.
  destruct total as [| | |[| |q|]| | |]; try discriminate.
  cbn [strict_eq num_eqb ToString Number_toString]. intro H.
  apply Qeq_bool_iff in H. unfold is_integer.
  rewrite (Qfloor_comp q 1 H).
  assert (Qeq_bool (inject_Z (Qfloor 1)) q = true) as ->.
  { apply Qeq_bool_iff. rewrite H. reflexivity. }
  reflexivity.
Qed.
End Summary.

(** X10.  The summary line counts what the response says, not the cards:
    it reads Found T advisors for "Q" (Nms) with T the [total_results] of the
    response.  The semantic page drops the s of advisors exactly when
    [total_results] is the number 1, and the line then starts with Found 1
    advisor for; the BM25 page keeps the s whatever T is, so that the two
    pages write the same line unless T is 1. *)
Theorem summary_lines (E : Engine) (props : list (jstr * value)) :
  is_number (field props "search_time_ms") = true ->
  exists (ms : number) (rest : jstr),
    field props "search_time_ms" = JNumber ms /\
    rest = lit " for ^" ++ ToString (field props "query") ++ lit "^ (" ++
           toFixed ms 0 ++ lit "ms)" /\
    Bm25.resultsInfo (JObject props) =
      Ok (lit "Found " ++ ToString (field props "total_results") ++
          lit " advisors" ++ rest) /\
    (strict_eq (field props "total_results") (Fin 1) = false ->
     Semantic.resultsInfo (JObject props) = Bm25.resultsInfo (JObject props)) /\
    (strict_eq (field props "total_results") (Fin 1) = true ->
     Semantic.resultsInfo (JObject props) = Ok (lit "Found 1 advisor" ++ rest) /\
     Bm25.resultsInfo (JObject props) = Ok (lit "Found 1 advisors" ++ rest)).
Proof.
  intro Hms.
  destruct (field props "search_time_ms") as [| | |ms| | |] eqn:Hfield;
    try discriminate.
  exists ms. eexists. split; [reflexivity|]. split; [reflexivity|].
  unfold Semantic.resultsInfo, Bm25.resultsInfo, strict_ne.
  rewrite !get_field, Hfield. cbn [bind call_toFixed].
  split; [|split].
  - reflexivity.
  - intros ->. reflexivity.
  - intro Hone. rewrite Hone, (ToString_one _ Hone). cbn [negb].
    unfold Semantic.resultsInfo_template, Bm25.resultsInfo_template.
    split; reflexivity.
Qed.

Lemma summary_lines_witness :
  @Semantic.resultsInfo Reference.engine (JObject Scenario.keyed) =
    Ok (lit "Found 1 advisor for ^robot learning^ (38ms)") /\
  @Bm25.resultsInfo Reference.engine (JObject Scenario.keyed) =
    Ok (lit "Found 1 advisors for ^robot learning^ (38ms)").
Proof.
  destruct (@summary_lines Reference.engine Scenario.keyed eq_refl)
    as (ms & rest & Hms & -> & _ & _ & Hone).
  injection Hms as <-. exact (Hone eq_refl).
Defined.

(** ** The cards of the BM25 page *)

Section LexicalCards.
Context {E : Engine}.

Lemma publicationHTML_lexical (pub : value) :
  lexical_publication pub = true ->
  exists html, Bm25.publicationHTML pub = Ok html.
Proof.
  unfold lexical_publication.
  destruct pub as [| | | | | |props]; cbn [property is_number];
    try discriminate.
  intro H. unfold Bm25.publicationHTML. rewrite !get_field. cbn [bind].
  destruct (field props "similarity"); try discriminate.
  eexists. reflexivity.
Qed.

Lemma publicationHTML_throws (pub : value) :
  lexical_publication pub = false ->
  exists m, Bm25.publicationHTML pub = Throw m.
Proof.
  unfold lexical_publication.
  destruct pub as [| | | | | |props]; intro H; try (eexists; reflexivity).
  cbn [property] in H. unfold Bm25.publicationHTML. rewrite !get_field.
  cbn [bind].
  destruct (field props "similarity"); try discriminate; eexists; reflexivity.
Qed.

Lemma map_publicationHTML (pubs : list value) :
  match map_result Bm25.publicationHTML pubs with
  | Ok _ => forallb lexical_publication pubs = true
  | Throw _ => forallb lexical_publication pubs = false
  end.
Proof.
  induction pubs as [|pub pubs IH]; [reflexivity|].
  cbn [map_result forallb].
  destruct (lexical_publication pub) eqn:Hpub.
  - destruct (publicationHTML_lexical pub Hpub) as [html ->]. cbn [bind andb].
    destruct (map_result Bm25.publicationHTML pubs); exact IH.
  - destruct (publicationHTML_throws pub Hpub) as [m ->]. reflexivity.
Qed.

Lemma pubsHtml_lexical (top_publications : value) :
  match Bm25.pubsHtml top_publications with
  | Ok _ => lexical_publications top_publications = true
  | Throw _ => lexical_publications top_publications = false
  end.
Proof.
  destruct top_publications as [| | | | |pubs|]; try reflexivity.
  cbn [Bm25.pubsHtml lexical_publications].
  pose proof (map_publicationHTML pubs) as H.
  destruct (map_result Bm25.publicationHTML pubs); exact H.
Qed.

Lemma truncateText_interests (interests : value) :
  interests_text interests = true ->
  exists text, Bm25.truncateText interests (Fin 100) = Ok text.
Proof.
  destruct interests as [| | | |s| |]; try discriminate; intros _;
    try (eexists; reflexivity).
  destruct s as [|c s]; [eexists; reflexivity|].
  rewrite <- truncateText_truthy by reflexivity.
  rewrite truncateText_string. eexists. reflexivity.
Qed.

(** The card of the BM25 page for a professor that has what it needs. *)
Lemma professorCard_record (props : list (jstr * value)) :
  lexical_record props = true ->
  exists (text : value) (score pubs : jstr),
    Bm25.truncateText (field props "interests") (Fin 100) = Ok text /\
    Bm25.professorCard (JObject props) =
    Ok {| className := lit "professor-card";
          innerHTML :=
            Bm25.professor_template
              (ToString (or_else (field props "image_url")
                           (JString (lit "https://via.placeholder.com/120"))))
              (ToString (field props "name"))
              (ToString (field props "department"))
              (ToString (field props "college"))
              (ToString text)
              (ToString (field props "num_matching_papers"))
              score
              pubs |}.
Proof.
  intro H. unfold lexical_record in H.
  apply andb_true_iff in H as [H Hi]. apply andb_true_iff in H as [Hp Hs].
  destruct (truncateText_interests _ Hi) as [text Htext].
  pose proof (pubsHtml_lexical (field props "top_publications")) as Hpubs.
  unfold Bm25.professorCard. rewrite !get_field. cbn [bind].
  destruct (Bm25.pubsHtml (field props "top_publications")) as [pubs | m];
    [|congruence].
  cbn [bind]. rewrite Htext. cbn [bind].
  destruct (field props "final_score"); try discriminate.
  exists text. do 2 eexists. split; reflexivity.
Qed.

(** It is made for no other professor. *)
Lemma professorCard_throws (props : list (jstr * value)) :
  interests_text (field props "interests") = true ->
  lexical_record props = false ->
  exists m, Bm25.professorCard (JObject props) = Throw m.
Proof.
  intros Hi H. unfold lexical_record in H. rewrite Hi, andb_true_r in H.
  destruct (truncateText_interests _ Hi) as [text Htext].
  pose proof (pubsHtml_lexical (field props "top_publications")) as Hpubs.
  unfold Bm25.professorCard. rewrite !get_field. cbn [bind].
  destruct (Bm25.pubsHtml (field props "top_publications")) as [pubs | m];
    [|eexists; reflexivity].
  cbn [bind]. rewrite Htext. cbn [bind]. rewrite Hpubs in H. cbn [andb] in H.
  destruct (field props "final_score"); try discriminate;
    eexists; reflexivity.
Qed.

(** The heading of a card of the BM25 page holds the name. *)
Lemma lexical_heading_occurs
    (image name department college interests papers score pubs : jstr) :
  occurs (lit "<h3>" ++ name ++ lit "</h3>")
    (Bm25.professor_template image name department college interests papers
       score pubs).
Proof.
  unfold Bm25.professor_template.
  do 4 apply occurs_skip.
  match goal with
  | |- occurs _ (lit ?b ++ name ++ lit ?c ++ ?rest) =>
      exists (firstn (length (lit b) - 4) (lit b)),
             (skipn 5 (lit c) ++ rest);
      change (lit b) with (firstn (length (lit b) - 4) (lit b) ++ lit "<h3>") at 1;
      change (lit c) with (lit "</h3>" ++ skipn 5 (lit c)) at 1
  end.
  rewrite <- !app_assoc. reflexivity.
Qed.

Lemma lexical_cards_from_records (professors : list value) :
  forallb is_lexical_record professors = true ->
  exists cards,
    lexical_cards_from professors = (cards, Ok tt) /\
    length cards = length professors /\
    forall i prof,
      nth_error professors i = Some prof ->
      exists card,
        nth_error cards i = Some card /\ Bm25.professorCard prof = Ok card.
Proof.
  induction professors as [|prof rest IH]; intro H.
  - exists []. repeat split. intros [|i] prof Hi; discriminate.
  - cbn [forallb] in H. apply andb_true_iff in H as [Hp Hrest].
    destruct prof as [| | | | | |props]; try discriminate.
    destruct (professorCard_record props Hp)
      as (text & score & pubs & _ & Hcard).
    destruct (IH Hrest) as (cards & Hcards & Hlen & Hnth).
    eexists (_ :: cards). cbn [lexical_cards_from]. rewrite Hcard, Hcards.
    split; [reflexivity|]. split; [cbn [length]; rewrite Hlen; reflexivity|].
    intros [|i] prof Hi; cbn [nth_error] in *.
    + injection Hi as <-. eexists. split; [reflexivity | exact Hcard].
    + exact (Hnth i prof Hi).
Qed.

End LexicalCards.

(** X11.  On a response with a non-empty list of N professors that have what
    the card of the BM25 page needs (a list of publications with a numeric
    similarity each, a numeric final_score, interests as text), the BM25
    displayResults completes, writes the summary line Found T advisors for
    the query (with the plural whatever T is) and replaces whatever the
    container held by exactly N cards, in the order of the response.  The
    card at position i is the one made for the i-th professor: an element of
    class professor-card whose heading is the name, with no rank. *)
Theorem lexical_displayResults_cards (E : Engine) (props : list (jstr * value))
    (professors : list value) (p : page) :
  field props "results" = JArray professors ->
  professors <> [] ->
  forallb is_lexical_record professors = true ->
  is_number (field props "search_time_ms") = true ->
  exists (ms : number) (cards : list element),
    field props "search_time_ms" = JNumber ms /\
    Bm25.displayResults (JObject props) p =
      (Ok tt,
       showResults
         (set_resultsContainer cards
            (set_resultsInfo_textContent
               (lit "Found " ++ ToString (field props "total_results") ++
                lit " advisors for ^" ++ ToString (field props "query") ++
                lit "^ (" ++ toFixed ms 0 ++ lit "ms)") p))) /\
    length cards = length professors /\
    forall i prof,
      nth_error professors i = Some prof ->
      exists card,
        nth_error cards i = Some card /\
        Bm25.professorCard prof = Ok card /\
        className card = lit "professor-card" /\
        occurs (lexical_heading prof) (innerHTML card).
Proof.
  intros Hresults Hne Hrecords Hms.
  destruct (lexical_resultsInfo_number props Hms) as (ms & Hfield & Hinfo).
  destruct (lexical_cards_from_records professors Hrecords)
    as (cards & Hcards & Hcount & Hnth).
  exists ms, cards. split; [exact Hfield|].
  split; [|split; [exact Hcount|]].
  - rewrite lexical_displayResults_render. unfold lexical_rendering_of.
    rewrite get_field, Hresults.
    destruct professors as [|prof rest]; [contradiction|].
    change (Bm25.no_results (JArray (prof :: rest))) with (Ok false : result bool).
    rewrite Hinfo, Hcards. reflexivity.
  - intros i prof Hi.
    destruct (Hnth i prof Hi) as (card & Hcard & Hmade).
    exists card. split; [exact Hcard|]. split; [exact Hmade|].
    assert (is_lexical_record prof = true) as Hrecord.
    { apply (proj1 (forallb_forall _ _) Hrecords).
      eapply nth_error_In; exact Hi. }
    destruct prof as [| | | | | |fields]; try discriminate.
    destruct (professorCard_record fields Hrecord)
      as (text & score & pubs & _ & Hshape).
    rewrite Hshape in Hmade. injection Hmade as <-.
    split; [reflexivity|].
    cbn [innerHTML]. unfold lexical_heading. cbn [property].
    apply lexical_heading_occurs.
Qed.

Lemma lexical_displayResults_cards_witness :
  exists (first second : element),
    @Bm25.displayResults Reference.engine (JObject Scenario.lexical_matches)
      Scenario.earlier_results =
    (Ok tt,
     showResults
       (set_resultsContainer [first; second]
          (set_resultsInfo_textContent
             (lit "Found 2 advisors for ^grasp^ (3ms)")
             Scenario.earlier_results))) /\
    occurs (lit "<h3>Ada Lovelace</h3>") (innerHTML first) /\
    occurs (lit "<h3>Grace Hopper</h3>") (innerHTML second).
Proof.
  destruct (@lexical_displayResults_cards Reference.engine
              Scenario.lexical_matches
              [Sample.lexical_hit 0 0 0; JObject Scenario.bare_hit]
              Scenario.earlier_results
              eq_refl ltac:(discriminate) eq_refl eq_refl)
    as (ms & cards & Hfield & Hdisplay & Hcount & Hnth).
  injection Hfield as <-.
  destruct cards as [|first [|second [|third cards]]]; try discriminate.
  exists first, second.
  destruct (Hnth 0%nat _ eq_refl) as (c1 & H1 & _ & _ & Ho1).
  destruct (Hnth 1%nat _ eq_refl) as (c2 & H2 & _ & _ & Ho2).
  injection H1 as <-. injection H2 as <-.
  split; [exact Hdisplay | split; [exact Ho1 | exact Ho2]].
Defined.

Section RequiredFields.
Context {E : Engine}.

Lemma lexical_publications_objects (v : value) :
  lexical_publications v = true -> publication_list v = true.
Proof.
  destruct v as [| | | | |pubs|]; try discriminate.
  cbn [lexical_publications publication_list]. intro H.
  apply forallb_forall. intros pub Hin.
  apply (proj1 (forallb_forall _ _) H) in Hin.
  destruct pub; try discriminate. reflexivity.
Qed.
End RequiredFields.

(** X12.  The card of the BM25 page has required fields where the card of
    the semantic page has none.  For a professor object (with interests as
    text) the BM25 card is made exactly when top_publications is a list
    whose elements all have a numeric similarity and final_score is a
    number; otherwise a TypeError is thrown.  In particular a professor
    without top_publications, or without final_score, is rendered by the
    semantic page and makes the BM25 page throw (reading 'map', reading
    'toFixed'). *)
Theorem professorCard_required_fields (E : Engine)
    (props : list (jstr * value)) (rank : number) :
  interests_text (field props "interests") = true ->
  ((exists card, Bm25.professorCard (JObject props) = Ok card) <->
   lexical_record props = true) /\
  ((exists m, Bm25.professorCard (JObject props) = Throw m) <->
   lexical_record props = false) /\
  (lookup (lit "top_publications") props = None ->
   Bm25.professorCard (JObject props) =
     Throw (TypeError_message (CannotRead (lit "undefined") (lit "map"))) /\
   exists card, Semantic.createProfessorCard (JObject props) rank = Ok card) /\
  (lexical_publications (field props "top_publications") = true ->
   lookup (lit "final_score") props = None ->
   Bm25.professorCard (JObject props) =
     Throw (TypeError_message (CannotRead (lit "undefined") (lit "toFixed"))) /\
   exists card, Semantic.createProfessorCard (JObject props) rank = Ok card).
Proof.
  intro Hi.
  assert (forall tp, publication_list tp = true ->
                     field props "top_publications" = tp ->
                     exists card,
                       Semantic.createProfessorCard (JObject props) rank = Ok card)
    as Hsemantic.
  { intros tp Htp Hfield.
    destruct (@createProfessorCard_record _ props rank) as (row & section & ->);
      [|eexists; reflexivity].
    unfold professor_record. rewrite Hfield, Htp, andb_true_r. exact Hi. }
  split; [|split; [|split]].
  - split.
    + intros [card Hcard].
      destruct (lexical_record props) eqn:Hrecord; [reflexivity|].
      destruct (professorCard_throws props Hi Hrecord) as [m Hm]. congruence.
    + intro Hrecord.
      destruct (professorCard_record props Hrecord)
        as (text & score & pubs & _ & ->).
      eexists. reflexivity.
  - split.
    + intros [m Hm].
      destruct (lexical_record props) eqn:Hrecord; [|reflexivity].
      destruct (professorCard_record props Hrecord)
        as (text & score & pubs & _ & H).
      congruence.
    + apply professorCard_throws. exact Hi.
  - intro Hnone. apply field_missing in Hnone. split.
    + unfold Bm25.professorCard. rewrite !get_field, Hnone. reflexivity.
    + apply (Hsemantic JUndefined); [reflexivity | exact Hnone].
  - intros Hpubs Hnone. apply field_missing in Hnone. split.
    + destruct (truncateText_interests _ Hi) as [text Htext].
      pose proof (pubsHtml_lexical (field props "top_publications")) as H.
      unfold Bm25.professorCard. rewrite !get_field. cbn [bind].
      destruct (Bm25.pubsHtml (field props "top_publications")) as [pubs | m];
        [|congruence].
      cbn [bind]. rewrite Htext, Hnone. reflexivity.
    + apply (Hsemantic (field props "top_publications"));
        [apply lexical_publications_objects; exact Hpubs | reflexivity].
Qed.

Lemma professorCard_required_fields_witness :
  @Bm25.professorCard Reference.engine (JObject Scenario.unpublished) =
    Throw (lit "Cannot read properties of undefined (reading 'map')") /\
  exists card,
    @Semantic.createProfessorCard Reference.engine
      (JObject Scenario.unpublished) (Fin 1) = Ok card.
Proof.
  destruct (@professorCard_required_fields Reference.engine
              Scenario.unpublished (Fin 1) eq_refl) as (_ & _ & Hmap & _).
  exact (Hmap eq_refl).
Defined.

(** ** Fields that are missing *)

Section MissingFields.
Context {E : Engine}.



End MissingFields.





(** ** The length of a truncated text *)

(** X15.  For a string and a maximal length that is a natural number n, the
    two truncateText functions return the same string; it has at most n + 3
    code units and starts as the text does up to n; it is the text itself
    when the text has at most n code units, and otherwise the first n code
    units of the text followed by three dots, n + 3 code units in all. *)
Theorem truncateText_length (E : Engine) (s : jstr) (n : nat) :
  exists r : jstr,
    Semantic.truncateText (JString s) (nat_number n) = Ok (JString r) /\
    Bm25.truncateText (JString s) (nat_number n) = Ok (JString r) /\
    (length r <= n + 3)%nat /\
    firstn n r = firstn n s /\
    ((length s <= n)%nat -> r = s) /\
    ((n < length s)%nat ->
     r = firstn n s ++ lit "..." /\ length r = (n + 3)%nat).
Proof.
  assert (Bm25.truncateText (JString s) (nat_number n) =
          Semantic.truncateText (JString s) (nat_number n)) as ->.
  { destruct s as [|c s].
    - symmetry. apply truncateText_empty. unfold nat_number. cbn [num_leb].
      apply Qle_bool_iff.
      change (inject_Z 0 <= inject_Z (Z.of_nat n))%Q. rewrite <- Zle_Qle. lia.
    - symmetry. apply truncateText_truthy. reflexivity. }
  unfold nat_number. rewrite truncateText_string, Qfloor_Z, Nat2Z.id.
  destruct (Nat.le_gt_cases (length s) n) as [Hle | Hgt].
  - assert (Qle_bool (inject_Z (Z.of_nat (length s))) (inject_Z (Z.of_nat n)) = true)
      as -> by (apply Qle_bool_iff; rewrite <- Zle_Qle; lia).
    exists s. repeat split; try reflexivity; try lia.
  - assert (Qle_bool (inject_Z (Z.of_nat (length s))) (inject_Z (Z.of_nat n)) = false)
      as -> by (apply Qle_bool_false; rewrite <- Zlt_Qlt; lia).
    assert (length (firstn n s) = n) as Hn by (rewrite length_firstn; lia).
    assert (length (firstn n s ++ lit "...") = (n + 3)%nat) as Hlen
      by (rewrite length_app, Hn; reflexivity).
    exists (firstn n s ++ lit "..."). repeat split; try reflexivity; try lia.
    rewrite firstn_app, Hn, Nat.sub_diag, firstn_firstn, Nat.min_id.
    cbn [firstn]. apply app_nil_r.
Qed.

(** ** The gauge grows with the score *)

Section GaugeOrder.
Context {E : Engine} {laws : RoundLaws E}.

Local Open Scope Q_scope.

(** Rounding gives equal values on equal numbers. *)
Lemma round_equal (x y a : Q) :
  x == y -> round y = Fin a -> exists b, round x = Fin b /\ b == a.
Proof.
  intros Hxy Hy.
  assert (x <= y) as Hle by (rewrite Hxy; apply Qle_refl).
  assert (y <= x) as Hge by (rewrite Hxy; apply Qle_refl).
  pose proof (@round_monotone E laws _ _ Hle) as Hlo.
  pose proof (@round_monotone E laws _ _ Hge) as Hhi.
  rewrite Hy in Hlo, Hhi.
  destruct (round x) as [| |b|]; try discriminate.
  exists b. split; [reflexivity|].
  cbn [num_leb] in Hlo, Hhi. apply Qle_bool_iff in Hlo, Hhi.
  apply Qle_antisym; assumption.
Qed.

(** The dash offset of a score in [0,1] is the rounded product of the
    circumference and the rounded complement of the score. *)
Lemma dashOffset_finite (q : Q) :
  0 <= q <= 1 ->
  exists c g offset,
    Semantic.circumference = Fin c /\ 0 <= c /\ round c = Fin c /\
    round (1 - q) = Fin g /\ 0 <= g <= 1 /\
    round (c * g) = Fin offset /\
    Semantic.dashOffset (JNumber (Fin q)) = Fin offset.
Proof.
  intros [Hq0 Hq1].
  destruct circumference_finite as (c & Hc & Hc0 & Hcc).
  destruct (@round_between _ _ 0%Z 1%Z (1 - q)) as (g & Hg & Hg01);
    [unfold two_pow_53; cbn; lia | unfold two_pow_53; cbn; lia | |].
  { change (inject_Z 0) with 0. change (inject_Z 1) with 1. split; lra. }
  destruct (gauge_bounds (conj Hq0 Hq1))
    as (offset & c' & _ & Hc' & Hoffset & _).
  exists c, g, offset.
  repeat (split; [assumption || exact (proj1 Hg01) || exact (proj2 Hg01)|]).
  split; [|exact Hoffset].
  unfold Semantic.dashOffset in Hoffset. rewrite Hc in Hoffset.
  cbn [ToNumber num_sub num_mul] in Hoffset. rewrite Hg in Hoffset.
  exact Hoffset.
Qed.
End GaugeOrder.

(** X16.  The arc of the gauge grows with the score.  For two scores in
    [0,1], the higher one has a dash offset that is no larger (so an arc
    that is no shorter); the offset of the score 0 is the whole
    circumference (an empty gauge) and that of the score 1 is 0 (a full
    gauge).  The rounding of each operation is taken into account. *)
Theorem gauge_monotone (E : Engine) (laws : RoundLaws E) (q1 q2 : Q) :
  (0 <= q1)%Q -> (q1 <= q2)%Q -> (q2 <= 1)%Q ->
  exists o1 o2 c : Q,
    Semantic.circumference = Fin c /\
    Semantic.dashOffset (JNumber (Fin q1)) = Fin o1 /\
    Semantic.dashOffset (JNumber (Fin q2)) = Fin o2 /\
    (o2 <= o1)%Q /\
    (q1 == 0 -> o1 == c)%Q /\
    (q2 == 1 -> o2 == 0)%Q.
Proof.
  intros H0 H12 H1.
  assert (0 <= q1 <= 1)%Q as Hq1 by (split; [exact H0 | lra]).
  assert (0 <= q2 <= 1)%Q as Hq2 by (split; [lra | exact H1]).
  destruct (dashOffset_finite Hq1)
    as (c & g1 & o1 & Hc & Hc0 & Hcc & Hg1 & Hg1b & Ho1 & Hd1).
  destruct (dashOffset_finite Hq2)
    as (c' & g2 & o2 & Hc' & _ & _ & Hg2 & Hg2b & Ho2 & Hd2).
  assert (c' = c) as -> by congruence.
  exists o1, o2, c.
  split; [exact Hc|]. split; [exact Hd1|]. split; [exact Hd2|].
  assert (g2 <= g1)%Q as Hg.
  { assert (1 - q2 <= 1 - q1)%Q as Hle by lra.
    pose proof (@round_monotone E laws _ _ Hle) as Hm.
    rewrite Hg1, Hg2 in Hm. cbn [num_leb] in Hm.
    apply Qle_bool_iff in Hm. exact Hm. }
  split; [|split].
  - assert (c * g2 <= c * g1)%Q as Hle by nra.
    pose proof (@round_monotone E laws _ _ Hle) as Hm.
    rewrite Ho1, Ho2 in Hm. cbn [num_leb] in Hm.
    apply Qle_bool_iff in Hm. exact Hm.
  - intro Hzero.
    assert (1 - q1 == inject_Z 1)%Q as Hone
      by (change (inject_Z 1) with 1%Q; lra).
    destruct (@round_equal E laws _ _ _ Hone
                (@round_integer E laws 1%Z ltac:(unfold two_pow_53; cbn; lia)))
      as (g & Hg' & Hgone).
    assert (g = g1) as -> by congruence.
    assert (c * g1 == c)%Q as Hprod
      by (rewrite Hgone; change (inject_Z 1) with 1%Q; ring).
    destruct (@round_equal E laws _ _ _ Hprod Hcc) as (o & Ho & Hoc).
    assert (o = o1) as -> by congruence. exact Hoc.
  - intro Hone.
    assert (1 - q2 == inject_Z 0)%Q as Hzero
      by (change (inject_Z 0) with 0%Q; lra).
    destruct (@round_equal E laws _ _ _ Hzero
                (@round_integer E laws 0%Z ltac:(unfold two_pow_53; cbn; lia)))
      as (g & Hg' & Hgzero).
    assert (g = g2) as -> by congruence.
    assert (c * g2 == inject_Z 0)%Q as Hprod
      by (rewrite Hgzero; change (inject_Z 0) with 0%Q; ring).
    destruct (@round_equal E laws _ _ _ Hprod
                (@round_integer E laws 0%Z ltac:(unfold two_pow_53; cbn; lia)))
      as (o & Ho & Hoz).
    assert (o = o2) as -> by congruence. exact Hoz.
Qed.

Lemma gauge_monotone_witness :
  exists o1 o2 c : Q,
    @Semantic.circumference Reference.engine = Fin c /\
    @Semantic.dashOffset Reference.engine (JNumber (Fin 0)) = Fin o1 /\
    @Semantic.dashOffset Reference.engine (JNumber (Fin (3 # 4))) = Fin o2 /\
    (o2 <= o1)%Q /\ (o1 == c)%Q.
Proof.
  destruct (@gauge_monotone Reference.engine Binary64.binary64_laws 0 (3 # 4)
              ltac:(discriminate) ltac:(discriminate) ltac:(discriminate))
    as (o1 & o2 & c & Hc & H1 & H2 & Hle & Hzero & _).
  exists o1, o2, c. repeat (split; [assumption|]). apply Hzero. reflexivity.
Defined.
